(** * local_scraper: the crawl-and-ingest workflow, embedded and verified

    A shallow embedding of the Python package [local_scraper]
    ([time_utils.py], [http_client.py], [db.py], [workflow.py]) together
    with the properties its specification states about it.

    Conventions.
    - A Python [str] is a [string]; a character is an [ascii], read as a
      code point below 256.  [str.strip] and the regex class [\d] are
      given on that range as Python defines them.
    - A Python exception is a value [Raise e] of the result type; the
      text [e] is the message.
    - Collaborators that the package reaches through the network, the clock
      or the HTML library are fields of an environment record; the code
      that calls them is embedded as it is written. *)

From Stdlib Require Import ZArith String Ascii List Lia Bool QArith.
From stdpp Require Import gmap strings list.
Import ListNotations.

Local Open Scope string_scope.
Local Open Scope Z_scope.

(** ** Results and the state-and-exception monad *)

(** The outcome of a Python call: a value, or a raised exception. *)
Inductive Outcome (A : Type) : Type :=
| Ok (a : A)
| Raise (e : string).
Arguments Ok {A} a.
Arguments Raise {A} e.

(** A computation over a state [S] that may raise. *)
Definition M (S A : Type) : Type := S -> Outcome A * S.

Definition ret {S A} (a : A) : M S A := fun s => (Ok a, s).

Definition bind {S A B} (m : M S A) (k : A -> M S B) : M S B :=
  fun s => match m s with
           | (Ok a, s') => k a s'
           | (Raise e, s') => (Raise e, s')
           end.

Definition raise {S A} (e : string) : M S A := fun s => (Raise e, s).

(** [try: m  except Exception as e: h e] *)
Definition try_except {S A} (m : M S A) (h : string -> M S A) : M S A :=
  fun s => match m s with
           | (Ok a, s') => (Ok a, s')
           | (Raise e, s') => h e s'
           end.

Definition get_state {S} : M S S := fun s => (Ok s, s).
Definition put_state {S} (s : S) : M S unit := fun _ => (Ok tt, s).
Definition modify {S} (f : S -> S) : M S unit := fun s => (Ok tt, f s).

(** A pure call that may raise. *)
Definition lift_outcome {S A} (o : Outcome A) : M S A := fun s => (o, s).

Declare Scope monad_scope.
Delimit Scope monad_scope with monad.
Notation "x <- m ;; k" := (bind m (fun x => k))
  (at level 100, m at next level, right associativity) : monad_scope.
Notation "m ;;; k" := (bind m (fun _ => k))
  (at level 100, right associativity) : monad_scope.
Local Open Scope monad_scope.

(** ** Characters and strings *)

Module Str.

(** [str.isspace] on code points below 256: TAB..CR, FS..US, space, NEL
    and NBSP. *)
Definition is_space (c : ascii) : bool :=
  let n := nat_of_ascii c in
  ((9 <=? n) && (n <=? 13) || (28 <=? n) && (n <=? 32)
   || (n =? 133) || (n =? 160))%nat.

(** The regex class [\d] on code points below 256. *)
Definition is_digit (c : ascii) : bool :=
  let n := nat_of_ascii c in ((48 <=? n) && (n <=? 57))%nat.

Definition digit_val (c : ascii) : Z := Z.of_nat (nat_of_ascii c) - 48.

Definition digit_chr (n : Z) : ascii := ascii_of_nat (Z.to_nat (n + 48)).

Fixpoint lstrip (s : string) : string :=
  match s with
  | EmptyString => EmptyString
  | String c s' => if is_space c then lstrip s' else s
  end.

Fixpoint rstrip (s : string) : string :=
  match s with
  | EmptyString => EmptyString
  | String c s' =>
      match rstrip s' with
      | EmptyString => if is_space c then EmptyString else String c EmptyString
      | r => String c r
      end
  end.

(** [s.strip()] *)
Definition strip (s : string) : string := rstrip (lstrip s).

(** [s.replace(c, "")] for a one-character [c]. *)
Fixpoint remove_char (c : ascii) (s : string) : string :=
  match s with
  | EmptyString => EmptyString
  | String a s' =>
      if Ascii.eqb a c then remove_char c s' else String a (remove_char c s')
  end.

(** [s.startswith(p)] *)
Definition startswith (p s : string) : bool := String.prefix p s.

(** [sep.join(parts)] *)
Fixpoint join (sep : string) (parts : list string) : string :=
  match parts with
  | [] => EmptyString
  | [p] => p
  | p :: rest => p +:+ sep +:+ join sep rest
  end.

(** [s[:n]] *)
Definition take (n : nat) (s : string) : string := String.substring 0 n s.

(** [s.rstrip(c)] for a one-character [c]. *)
Fixpoint rstrip_char (c : ascii) (s : string) : string :=
  match s with
  | EmptyString => EmptyString
  | String a s' =>
      match rstrip_char c s' with
      | EmptyString => if Ascii.eqb a c then EmptyString
                       else String a EmptyString
      | r => String a r
      end
  end.

Definition lower_char (c : ascii) : ascii :=
  let n := nat_of_ascii c in
  if ((65 <=? n) && (n <=? 90)
      || (192 <=? n) && (n <=? 222) && negb (n =? 215))%nat
  then ascii_of_nat (n + 32) else c.

(** [s.lower()] *)
Fixpoint lower (s : string) : string :=
  match s with
  | EmptyString => EmptyString
  | String c s' => String (lower_char c) (lower s')
  end.

Definition of_chars (l : list ascii) : string := string_of_list_ascii l.
Definition chars (s : string) : list ascii := list_ascii_of_string s.

(** Python's [bool(s)] for a string. *)
Definition truthy (s : string) : bool :=
  match s with EmptyString => false | _ => true end.

(** [a < b] on strings: lexicographic on code points. *)
Definition ltb (a b : string) : bool :=
  match String.compare a b with Lt => true | _ => false end.

End Str.

(** ** Calendar dates ([datetime.date])

    A date is its year, month and day, as [datetime.date] stores it;
    comparison is lexicographic on the three fields.  Subtracting
    [timedelta(days=n)] walks [n] days back in the proleptic Gregorian
    calendar and raises [OverflowError] before 0001-01-01. *)

Module Date.

Record date := mk { year : Z; month : Z; day : Z }.

Definition is_leap (y : Z) : bool :=
  (y mod 4 =? 0) && (negb (y mod 100 =? 0) || (y mod 400 =? 0)).

Definition days_in_month (y m : Z) : Z :=
  if m =? 2 then (if is_leap y then 29 else 28)
  else if (m =? 4) || (m =? 6) || (m =? 9) || (m =? 11) then 30
  else 31.

(** The range check of the [date] constructor. *)
Definition valid (d : date) : bool :=
  (1 <=? year d) && (year d <=? 9999)
  && (1 <=? month d) && (month d <=? 12)
  && (1 <=? day d) && (day d <=? days_in_month (year d) (month d)).

Definition eqb (a b : date) : bool :=
  (year a =? year b) && (month a =? month b) && (day a =? day b).

(** [a < b] *)
Definition ltb (a b : date) : bool :=
  (year a <? year b)
  || ((year a =? year b)
      && ((month a <? month b)
          || ((month a =? month b) && (day a <? day b)))).

Definition lt (a b : date) : Prop := ltb a b = true.

(** [min(a, b)] and [max(a, b)] as Python computes them: the first
    argument is kept unless the second is strictly smaller (larger). *)
Definition min2 (a b : date) : date := if ltb b a then b else a.
Definition max2 (a b : date) : date := if ltb a b then b else a.

(** One day back; [None] is the [OverflowError] before 0001-01-01. *)
Definition prev_day (d : date) : option date :=
  if 1 <? day d then Some (mk (year d) (month d) (day d - 1))
  else if 1 <? month d
       then Some (mk (year d) (month d - 1)
                     (days_in_month (year d) (month d - 1)))
  else if 1 <? year d then Some (mk (year d - 1) 12 31)
  else None.

(** [d - timedelta(days=n)] *)
Fixpoint minus_days (d : date) (n : nat) : option date :=
  match n with
  | O => Some d
  | S k => match prev_day d with
           | Some d' => minus_days d' k
           | None => None
           end
  end.

Definition pad2 (n : Z) : string :=
  String (Str.digit_chr (n / 10 mod 10))
    (String (Str.digit_chr (n mod 10)) EmptyString).

Definition pad4 (n : Z) : string :=
  String (Str.digit_chr (n / 1000 mod 10))
    (String (Str.digit_chr (n / 100 mod 10)) (pad2 n)).

(** [d.isoformat()] *)
Definition isoformat (d : date) : string :=
  pad4 (year d) +:+ "-" +:+ pad2 (month d) +:+ "-" +:+ pad2 (day d).

Definition num2 (a b : ascii) : Z := 10 * Str.digit_val a + Str.digit_val b.

Definition num4 (a b c d : ascii) : Z :=
  1000 * Str.digit_val a + 100 * Str.digit_val b
  + 10 * Str.digit_val c + Str.digit_val d.

Definition all_digits (l : list ascii) : bool := forallb Str.is_digit l.

(** [date.fromisoformat(s)] for the format [YYYY-MM-DD]; [None] is the
    [ValueError]. *)
Definition fromisoformat (s : string) : option date :=
  match Str.chars s with
  | [y1; y2; y3; y4; s1; m1; m2; s2; d1; d2] =>
      if all_digits [y1; y2; y3; y4; m1; m2; d1; d2]
         && Ascii.eqb s1 "-" && Ascii.eqb s2 "-"
      then
        let d := mk (num4 y1 y2 y3 y4) (num2 m1 m2) (num2 d1 d2) in
        if valid d then Some d else None
      else None
  | _ => None
  end.

End Date.

(** ** time_utils.py *)

Module TimeUtils.

(** The part of [datetime] the package reads: the calendar date and the
    clock time of the Shanghai wall clock. *)
Record datetime := mkdt {
  dt_date : Date.date;
  dt_hour : Z; dt_minute : Z; dt_second : Z
}.

Definition dt_year (now : datetime) : Z := Date.year (dt_date now).

Record RecentDays := mkRecent {
  today : string;
  yesterday : string;
  now_iso : string
}.

(** [now.isoformat(timespec="seconds")] in the zone [Asia/Shanghai]. *)
Definition datetime_isoformat (now : datetime) : string :=
  Date.isoformat (dt_date now) +:+ "T" +:+ Date.pad2 (dt_hour now) +:+ ":"
  +:+ Date.pad2 (dt_minute now) +:+ ":" +:+ Date.pad2 (dt_second now)
  +:+ "+08:00".

(** [datetime.fromisoformat(s)] on the format [datetime_isoformat]
    writes; [None] is the [ValueError]. *)
Definition datetime_fromisoformat (s : string) : option datetime :=
  match Date.fromisoformat (Str.take 10 s),
        Str.chars (String.substring 10 (String.length s - 10) s) with
  | Some d, [t; h1; h2; c1; m1; m2; c2; s1; s2; "+"%char; "0"%char;
             "8"%char; ":"%char; "0"%char; "0"%char] =>
      let hh := Date.num2 h1 h2 in
      let mi := Date.num2 m1 m2 in
      let ss := Date.num2 s1 s2 in
      if Date.all_digits [h1; h2; m1; m2; s1; s2]
         && Ascii.eqb t "T" && Ascii.eqb c1 ":" && Ascii.eqb c2 ":"
         && (hh <? 24) && (mi <? 60) && (ss <? 60)
      then Some (mkdt d hh mi ss) else None
  | _, _ => None
  end.

(** [shanghai_recent_days()] at the clock reading [now]. *)
Definition shanghai_recent_days (now : datetime) : Outcome RecentDays :=
  let today_ := dt_date now in
  match Date.minus_days today_ 1 with
  | Some y => Ok (mkRecent (Date.isoformat today_) (Date.isoformat y)
                           (datetime_isoformat now))
  | None => Raise "OverflowError: date value out of range"
  end.

(** [_RE_YYYY_MM_DD.match(s)]: four digits, dash, two digits, dash, two
    digits; [$] also matches before one final newline. *)
Definition match_sep3 (sep : ascii) (s : string)
  : option (string * string * string) :=
  let groups y1 y2 y3 y4 m1 m2 d1 d2 :=
    Some (Str.of_chars [y1; y2; y3; y4], Str.of_chars [m1; m2],
          Str.of_chars [d1; d2]) in
  match Str.chars s with
  | [y1; y2; y3; y4; s1; m1; m2; s2; d1; d2] =>
      if Date.all_digits [y1; y2; y3; y4; m1; m2; d1; d2]
         && Ascii.eqb s1 sep && Ascii.eqb s2 sep
      then groups y1 y2 y3 y4 m1 m2 d1 d2 else None
  | [y1; y2; y3; y4; s1; m1; m2; s2; d1; d2; nl] =>
      if Date.all_digits [y1; y2; y3; y4; m1; m2; d1; d2]
         && Ascii.eqb s1 sep && Ascii.eqb s2 sep && Ascii.eqb nl "010"
      then groups y1 y2 y3 y4 m1 m2 d1 d2 else None
  | _ => None
  end.

Definition _RE_YYYY_MM_DD := match_sep3 "-".
Definition _RE_YYYY_MM_DD_SLASH := match_sep3 "/".

(** [_RE_MM_DD.match(s)] *)
Definition _RE_MM_DD (s : string) : option (string * string) :=
  match Str.chars s with
  | [m1; m2; s1; d1; d2] =>
      if Date.all_digits [m1; m2; d1; d2] && Ascii.eqb s1 "-"
      then Some (Str.of_chars [m1; m2], Str.of_chars [d1; d2]) else None
  | [m1; m2; s1; d1; d2; nl] =>
      if Date.all_digits [m1; m2; d1; d2] && Ascii.eqb s1 "-"
         && Ascii.eqb nl "010"
      then Some (Str.of_chars [m1; m2], Str.of_chars [d1; d2]) else None
  | _ => None
  end.

(** [normalize_date(date_str, now)] with [now] given, as [run_once]
    calls it. *)
Definition normalize_date (date_str : string) (now : datetime)
  : option string :=
  let s := Str.strip date_str in
  let s := Str.strip (Str.remove_char "]" (Str.remove_char "[" s)) in
  if negb (Str.truthy s) then None
  else
    match _RE_YYYY_MM_DD s with
    | Some _ => Some s
    | None =>
        match _RE_YYYY_MM_DD_SLASH s with
        | Some (y, mm, dd) => Some (y +:+ "-" +:+ mm +:+ "-" +:+ dd)
        | None =>
            match _RE_MM_DD s with
            | Some (mm, dd) =>
                Some (Date.pad4 (dt_year now) +:+ "-" +:+ mm +:+ "-" +:+ dd)
            | None => None
            end
        end
    end.

End TimeUtils.

(** ** http_client.py *)

Module Http.

Record HttpConfig := mkHttpConfig {
  user_agent : string;
  timeout_ms : Z;
  retry_count : Z;
  retry_interval_ms : Z
}.

(** A keyword argument value. *)
Inductive pyval := VStr (s : string) | VInt (z : Z) | VNone.

Definition HttpConfig_fields : list string :=
  ["user_agent"; "timeout_ms"; "retry_count"; "retry_interval_ms"].

Definition kw_lookup (k : string) (kwargs : list (string * pyval))
  : option pyval :=
  option_map snd (find (fun kv => String.eqb (fst kv) k) kwargs).

(** [HttpConfig(...)] with keyword arguments: the [__init__] that [@dataclass] generates
    from the four declared fields.  A keyword that names no field, or a
    field left without a value, raises [TypeError]; the values are taken
    at their annotated types. *)
Definition HttpConfig_init (kwargs : list (string * pyval))
  : Outcome HttpConfig :=
  match find (fun kv => negb (existsb (String.eqb (fst kv))
                                      HttpConfig_fields)) kwargs with
  | Some (k, _) =>
      Raise ("TypeError: __init__() got an unexpected keyword argument '"
             +:+ k +:+ "'")
  | None =>
      match kw_lookup "user_agent" kwargs, kw_lookup "timeout_ms" kwargs,
            kw_lookup "retry_count" kwargs,
            kw_lookup "retry_interval_ms" kwargs with
      | Some (VStr ua), Some (VInt t), Some (VInt rc), Some (VInt ri) =>
          Ok (mkHttpConfig ua t rc ri)
      | _, _, _, _ =>
          Raise "TypeError: __init__() missing required argument"
      end
  end.

(** What [requests] hands back: the status and the decoded body. *)
Record Response := mkResponse { status_code : Z; text : string }.

Inductive Request :=
| GET (url : string)
| POST (url : string) (headers : list (string * string)) (json : string).

(** [requests.Session] and [time.sleep], over a network state [W]. *)
Record Session (W : Type) := mkSession {
  session_get : string -> Q -> M W Response;
  session_post : string -> list (string * string) -> string -> Q
                 -> M W Response;
  sleep : Q -> M W unit
}.
Arguments session_get {W}.
Arguments session_post {W}.
Arguments sleep {W}.

(** [resp.raise_for_status()] *)
Definition raise_for_status {W} (r : Response) : M W unit :=
  if (400 <=? status_code r) && (status_code r <? 600)
  then raise "HTTPError" else ret tt.

(** [time.sleep(ms / 1000)]: a negative length is a [ValueError]. *)
Definition sleep_ms {W} (ses : Session W) (ms : Z) : M W unit :=
  if ms <? 0 then raise "ValueError: sleep length must be non-negative"
  else sleep ses (inject_Z ms / inject_Z 1000)%Q.

Section Client.
Context {W : Type} (ses : Session W) (cfg : HttpConfig).

(** One pass of the body of the [for attempt in range(...)] loop of
    [get_text]: the [try] block. *)
Definition get_attempt (url : string) : M W string :=
  resp <- session_get ses url (inject_Z (timeout_ms cfg) / inject_Z 1000)%Q ;;
  raise_for_status resp ;;;
  ret (text resp).

(** The loop of [get_text] with [n] attempts left, [attempt] the
    current index and [last_err] the last exception caught. *)
Fixpoint get_text_loop (n : nat) (attempt : Z) (last_err : option string)
         (url : string) : M W string :=
  match n with
  | O =>
      (* assert last_err is not None; raise last_err *)
      match last_err with
      | None => raise "AssertionError"
      | Some e => raise e
      end
  | S k =>
      try_except (get_attempt url)
        (fun e =>
           (if attempt <? retry_count cfg
            then sleep_ms ses (retry_interval_ms cfg) else ret tt) ;;;
           get_text_loop k (attempt + 1) (Some e) url)
  end.

(** [HttpClient.get_text(url)] *)
Definition get_text (url : string) : M W string :=
  get_text_loop (Z.to_nat (retry_count cfg)) 1 None url.

End Client.

(** A session that records every request it is asked to send. *)
Definition traced {W} (ses : Session W) : Session (W * list Request) :=
  {| session_get := fun url t '(w, log) =>
       let '(r, w') := session_get ses url t w in
       (r, (w', (log ++ [GET url])%list));
     session_post := fun url h j t '(w, log) =>
       let '(r, w') := session_post ses url h j t w in
       (r, (w', (log ++ [POST url h j])%list));
     sleep := fun d '(w, log) =>
       let '(r, w') := sleep ses d w in (r, (w', log)) |}.

Definition is_post (r : Request) : bool :=
  match r with POST _ _ _ => true | GET _ => false end.

End Http.

(** ** Regular expressions ([re])

    The pattern language is given by its regular core; [re.compile], the
    parser of pattern text, belongs to the environment. *)

Module Re.

Inductive regex :=
| Never
| Eps
| Chr (c : ascii)
| Any
| Cat (a b : regex)
| Alt (a b : regex)
| Star (a : regex).

Fixpoint nullable (r : regex) : bool :=
  match r with
  | Never | Chr _ | Any => false
  | Eps | Star _ => true
  | Cat a b => nullable a && nullable b
  | Alt a b => nullable a || nullable b
  end.

Fixpoint deriv (c : ascii) (r : regex) : regex :=
  match r with
  | Never | Eps => Never
  | Chr c' => if Ascii.eqb c c' then Eps else Never
  | Any => Eps
  | Cat a b =>
      if nullable a then Alt (Cat (deriv c a) b) (deriv c b)
      else Cat (deriv c a) b
  | Alt a b => Alt (deriv c a) (deriv c b)
  | Star a => Cat (deriv c a) (Star a)
  end.

(** [r.fullmatch(s) is not None] *)
Fixpoint fullmatch (r : regex) (s : string) : bool :=
  match s with
  | EmptyString => nullable r
  | String c s' => fullmatch (deriv c r) s'
  end.

(** [r.match(s) is not None]: some prefix of [s] matches. *)
Fixpoint match_ (r : regex) (s : string) : bool :=
  nullable r ||
  match s with
  | EmptyString => false
  | String c s' => match_ (deriv c r) s'
  end.

(** [r.search(s) is not None]: a match starting at some position. *)
Fixpoint search (r : regex) (s : string) : bool :=
  match_ r s ||
  match s with
  | EmptyString => false
  | String _ s' => search r s'
  end.

(** The pattern that matches exactly the text [s]. *)
Fixpoint lit (s : string) : regex :=
  match s with
  | EmptyString => Eps
  | String c s' => Cat (Chr c) (lit s')
  end.

End Re.

(** ** db.py *)

Module Db.

(** The unique indexes the [announcements] table can carry: the three
    that [_create_strategy_unique_index] creates, and the table-level
    [UNIQUE(title)] of the original schema. *)
Inductive UniqueIndex :=
| ux_announcements_url
| ux_announcements_title_date
| ux_announcements_title
| sqlite_autoindex_announcements.

Definition UniqueIndex_eqb (a b : UniqueIndex) : bool :=
  match a, b with
  | ux_announcements_url, ux_announcements_url
  | ux_announcements_title_date, ux_announcements_title_date
  | ux_announcements_title, ux_announcements_title
  | sqlite_autoindex_announcements, sqlite_autoindex_announcements => true
  | _, _ => false
  end.

(** A row of [announcements]. *)
Record Row := mkRow {
  id : Z;
  title : string;
  url : string;
  date : string;
  content : option string;
  ai_summary : option string;
  status : string;
  source : string;
  created_at : string;
  updated_at : string
}.

(** A row of [runs]. *)
Record RunRow := mkRunRow {
  run_id : string;
  started_at : string;
  finished_at : option string;
  duration_seconds : option Z;
  total_processed : Z;
  total_new : Z;
  total_duplicate : Z;
  run_status : string;
  error : option string
}.

(** The database file: the two tables and the unique indexes on
    [announcements]. *)
Record Tables := mkTables {
  announcements : list Row;
  unique_indexes : list UniqueIndex;
  runs : list RunRow
}.

(** A [Database] object: the connection and the strategy it was opened
    with. *)
Record Database := mkDatabase {
  _dedupe_strategy : string;
  _conn : Tables
}.

Definition empty_tables : Tables := mkTables [] [] [].

(** [Database(path, dedupe_strategy)] on the file content [file]. *)
Definition Database_init (dedupe_strategy : string) (file : Tables)
  : Database :=
  mkDatabase
    (Str.lower (Str.strip (if Str.truthy dedupe_strategy
                           then dedupe_strategy else "title")))
    file.

Definition with_announcements (db : Database) (rows : list Row) : Database :=
  mkDatabase (_dedupe_strategy db)
    (mkTables rows (unique_indexes (_conn db)) (runs (_conn db))).

Definition with_unique_indexes (db : Database) (ix : list UniqueIndex)
  : Database :=
  mkDatabase (_dedupe_strategy db)
    (mkTables (announcements (_conn db)) ix (runs (_conn db))).

Definition with_runs (db : Database) (rs : list RunRow) : Database :=
  mkDatabase (_dedupe_strategy db)
    (mkTables (announcements (_conn db)) (unique_indexes (_conn db)) rs).

Definition has_index (ix : UniqueIndex) (db : Database) : bool :=
  existsb (UniqueIndex_eqb ix) (unique_indexes (_conn db)).

(** Two rows agree on the columns of the index. *)
Definition same_key (ix : UniqueIndex) (t u d : string) (r : Row) : bool :=
  match ix with
  | ux_announcements_url => String.eqb (url r) u
  | ux_announcements_title_date =>
      String.eqb (title r) t && String.eqb (date r) d
  | ux_announcements_title | sqlite_autoindex_announcements =>
      String.eqb (title r) t
  end.

(** The index of the active strategy, by the [if]/[elif]/[else] chain
    that every strategy-dependent method repeats. *)
Definition strategy_index (db : Database) : UniqueIndex :=
  if String.eqb (_dedupe_strategy db) "url" then ux_announcements_url
  else if String.eqb (_dedupe_strategy db) "title_date"
       then ux_announcements_title_date
  else ux_announcements_title.

(** [_dedupe_existing_rows]: keep, for each key of the active strategy,
    the row of least id. *)
Definition _dedupe_existing_rows (db : Database) : Database :=
  let ix := strategy_index db in
  let rows := announcements (_conn db) in
  with_announcements db
    (List.filter (fun r =>
               negb (existsb (fun r' =>
                                same_key ix (title r) (url r) (date r) r'
                                && (id r' <? id r)) rows))
            rows).

(** [_create_strategy_unique_index] *)
Definition _create_strategy_unique_index (db : Database) : Database :=
  let ix := strategy_index db in
  if has_index ix db then db
  else with_unique_indexes db (unique_indexes (_conn db) ++ [ix])%list.

(** [_migrate_v1_to_v2]: the rebuilt table has no table-level constraint
    and none of the indexes of the table it replaces. *)
Definition _migrate_v1_to_v2 (db : Database) : Database :=
  with_unique_indexes db [].

(** [_ensure_announcements_table]; a table that does not exist yet is an
    empty one without indexes. *)
Definition _ensure_announcements_table (db : Database) : Database :=
  let db :=
    if negb (String.eqb (_dedupe_strategy db) "title")
       && has_index sqlite_autoindex_announcements db
    then _migrate_v1_to_v2 db else db in
  _create_strategy_unique_index (_dedupe_existing_rows db).

(** [init_schema] *)
Definition init_schema (db : Database) : Database :=
  _ensure_announcements_table db.

(** [(run_id_override or "").strip()] *)
Definition stripped_override (run_id_override : option string) : string :=
  Str.strip (match run_id_override with
             | Some s => s
             | None => ""
             end).

(** [start_run], from the [INSERT] on: [rid] is the run id chosen, [now]
    the clock. *)
Definition start_run (rid now : string) (db : Database)
  : Outcome (string * string) * Database :=
  if existsb (fun r => String.eqb (run_id r) rid) (runs (_conn db))
  then (Raise "IntegrityError: UNIQUE constraint failed: runs.run_id", db)
  else (Ok (rid, now),
        with_runs db
          (runs (_conn db)
           ++ [mkRunRow rid now None None 0 0 0 "RUNNING" None])%list).

(** [finish_run] *)
Definition finish_run (rid status_ finished : string) (duration : Z)
           (processed new_ duplicate : Z) (err : option string)
           (db : Database) : Database :=
  with_runs db
    (map (fun r =>
            if String.eqb (run_id r) rid
            then mkRunRow (run_id r) (started_at r) (Some finished)
                   (Some duration) processed new_ duplicate status_ err
            else r)
         (runs (_conn db))).

(** [is_duplicate] *)
Definition is_duplicate (t u d : string) (db : Database) : bool :=
  if String.eqb (_dedupe_strategy db) "url"
  then existsb (fun r => String.eqb (url r) u) (announcements (_conn db))
  else if String.eqb (_dedupe_strategy db) "title_date"
       then existsb (fun r => String.eqb (title r) t && String.eqb (date r) d)
              (announcements (_conn db))
  else existsb (fun r => String.eqb (title r) t) (announcements (_conn db)).

(** The rowid a new row receives. *)
Definition next_id (rows : list Row) : Z :=
  fold_right Z.max 0 (map id rows) + 1.

(** A row with these key columns would violate a unique index. *)
Definition conflicts (t u d : string) (db : Database) : bool :=
  existsb (fun ix => existsb (same_key ix t u d) (announcements (_conn db)))
          (unique_indexes (_conn db)).

(** [insert_announcement_base]: [INSERT OR IGNORE]; the result tells
    whether a row was written. *)
Definition insert_announcement_base (t u d st now : string) (db : Database)
  : bool * Database :=
  if conflicts t u d db then (false, db)
  else (true,
        with_announcements db
          (announcements (_conn db)
           ++ [mkRow (next_id (announcements (_conn db))) t u d None None st
                     "zpzb.zgpmsm.cn" now now])%list).

(** [update_announcement_detail]: [UPDATE ... WHERE title = ?] *)
Definition update_announcement_detail (t c summary st now : string)
           (db : Database) : Database :=
  with_announcements db
    (map (fun r =>
            if String.eqb (title r) t
            then mkRow (id r) (title r) (url r) (date r) (Some c)
                   (Some summary) st (source r) (created_at r) now
            else r)
         (announcements (_conn db))).

End Db.

(** ** parser.py *)

Module Parser.

Record ListItem := mkItem {
  title : string;
  link : string;
  date_raw : string
}.

End Parser.

(** ** workflow.py *)

Module Workflow.

(** A list item as the collector carries it: [(title, link, date_raw)]. *)
Definition Item : Type := string * string * string.

Definition triple (it : Parser.ListItem) : Item :=
  (Parser.title it, Parser.link it, Parser.date_raw it).

Record ListCollectionResult := mkCollected {
  items : list Item;
  pages_seen : Z;
  page_turns : Z
}.

(** The fields of [Config] that the workflow reads. *)
Record Config := mkConfig {
  list_url : string;
  base_url : string;
  dedupe_strategy : string;
  run_id_override : option string;
  keyword_regex : string;
  days_lookback : Z;
  loop_delay_seconds : Q;
  max_items_per_run : Z;
  feishu_webhook_url : option string;
  feishu_notify_mode : string;
  feishu_card_image_url : option string;
  dry_run : bool;
  ai_disabled : bool;
  use_test_fixtures : bool;
  keywords_label : option string;
  webui_public_url : option string;
  adaptive_delay_threshold_pages : Z;
  batch_size : Z;
  delay_increment_seconds : Q;
  max_loop_delay_seconds : Q;
  max_pages_total : Z;
  max_pages_per_category : Z
}.

(** An entry of [new_items]. *)
Record NewItem := mkNewItem {
  ni_title : string;
  ni_date : string;
  ni_ai_summary : string;
  ni_url : string
}.

(** The cards of [feishu_client.py], by the arguments they are built
    from. *)
Inductive Card :=
| build_new_item_card (title date ai_summary url : string)
| build_digest_card (keyword_label execution_time : string)
    (duration_seconds total_new total_duplicate total_processed : Z)
    (items : list NewItem) (webui_public_url : option string)
    (days_lookback : Z) (image_url : option string)
    (range_start range_end total_items : Z)
| build_summary_card (execution_time : string)
    (duration_seconds total_processed total_new total_duplicate : Z)
| build_error_card (timestamp message : string).

(** The calls the workflow makes on its collaborators, in order. *)
Inductive Event :=
| EvFetch (url : string)
| EvInsert (title url date status : string)
| EvUpdateDetail (title content ai_summary status : string)
| EvFinishRun (run_id status : string) (total_processed total_new
                                         total_duplicate : Z)
    (error : option string)
| EvSendCard (c : Card).

(** The collaborators, over an outside world [W]. *)
Record Env (W : Type) := mkEnv {
  (* http_client.HttpClient *)
  http_get_text : string -> M W string;
  (* parser.py *)
  parse_list_page : string -> list Parser.ListItem;
  parse_notice_list_page : string -> list Parser.ListItem;
  parse_zcpt_list_page : string -> list Parser.ListItem;
  parse_category_links : string -> string -> list string;
  parse_next_page_url : string -> string -> option string;
  extract_detail_content : string -> Outcome string;
  (* workflow._zcpt_next_page_url: reads the page script and the query
     string through re and urllib *)
  _zcpt_next_page_url : string -> string -> option string;
  (* workflow._read_fixture on a file of the fixtures directory *)
  _read_fixture : string -> M W string;
  (* ai_client.AiClient.summarize, fallback_summary.build_fallback_summary *)
  ai_summarize : string -> M W string;
  build_fallback_summary : string -> string -> Outcome string;
  (* feishu_client.FeishuClient.send_card *)
  feishu_send_card : Card -> M W unit;
  (* datetime.now(tz=_TZ), int(round(time.time() - start)), uuid.uuid4,
     time.sleep, traceback.format_exc *)
  clock_now : M W TimeUtils.datetime;
  elapsed_seconds : M W Z;
  uuid4 : M W string;
  time_sleep : Q -> M W unit;
  format_exc : string -> string;
  (* re.compile, urllib.parse.urljoin *)
  re_compile : string -> Outcome Re.regex;
  urljoin : string -> string -> string;
  (* what reaches the database file before a statement of this process
     runs: the committed writes of other processes, or an sqlite3 error *)
  db_sync : Db.Tables -> M W Db.Tables
}.
Arguments http_get_text {W}.
Arguments parse_list_page {W}.
Arguments parse_notice_list_page {W}.
Arguments parse_zcpt_list_page {W}.
Arguments parse_category_links {W}.
Arguments parse_next_page_url {W}.
Arguments extract_detail_content {W}.
Arguments _zcpt_next_page_url {W}.
Arguments _read_fixture {W}.
Arguments ai_summarize {W}.
Arguments build_fallback_summary {W}.
Arguments feishu_send_card {W}.
Arguments clock_now {W}.
Arguments elapsed_seconds {W}.
Arguments uuid4 {W}.
Arguments time_sleep {W}.
Arguments format_exc {W}.
Arguments re_compile {W}.
Arguments urljoin {W}.
Arguments db_sync {W}.

(** The state of a run: the outside world, the database, the calls made
    so far, and the local variables of [run_once] that outlive an
    exception (the outer handler reads them). *)
Record State (W : Type) := mkState {
  ext : W;
  db : Db.Database;
  trace : list Event;
  total_processed : Z;
  total_new : Z;
  total_duplicate : Z;
  item_errors : list string;
  new_items : list NewItem;
  current_delay : Q
}.
Arguments mkState {W}.
Arguments ext {W}.
Arguments db {W}.
Arguments trace {W}.
Arguments total_processed {W}.
Arguments total_new {W}.
Arguments total_duplicate {W}.
Arguments item_errors {W}.
Arguments new_items {W}.
Arguments current_delay {W}.

Definition set_ext {W} (w : W) (s : State W) : State W :=
  mkState w (db s) (trace s) (total_processed s) (total_new s)
    (total_duplicate s) (item_errors s) (new_items s) (current_delay s).
Definition set_db {W} (d : Db.Database) (s : State W) : State W :=
  mkState (ext s) d (trace s) (total_processed s) (total_new s)
    (total_duplicate s) (item_errors s) (new_items s) (current_delay s).
Definition add_event {W} (e : Event) (s : State W) : State W :=
  mkState (ext s) (db s) (trace s ++ [e])%list (total_processed s)
    (total_new s) (total_duplicate s) (item_errors s) (new_items s)
    (current_delay s).
Definition set_total_processed {W} (n : Z) (s : State W) : State W :=
  mkState (ext s) (db s) (trace s) n (total_new s) (total_duplicate s)
    (item_errors s) (new_items s) (current_delay s).
Definition set_total_new {W} (n : Z) (s : State W) : State W :=
  mkState (ext s) (db s) (trace s) (total_processed s) n (total_duplicate s)
    (item_errors s) (new_items s) (current_delay s).
Definition set_total_duplicate {W} (n : Z) (s : State W) : State W :=
  mkState (ext s) (db s) (trace s) (total_processed s) (total_new s) n
    (item_errors s) (new_items s) (current_delay s).
Definition set_item_errors {W} (l : list string) (s : State W) : State W :=
  mkState (ext s) (db s) (trace s) (total_processed s) (total_new s)
    (total_duplicate s) l (new_items s) (current_delay s).
Definition set_new_items {W} (l : list NewItem) (s : State W) : State W :=
  mkState (ext s) (db s) (trace s) (total_processed s) (total_new s)
    (total_duplicate s) (item_errors s) l (current_delay s).
Definition set_current_delay {W} (q : Q) (s : State W) : State W :=
  mkState (ext s) (db s) (trace s) (total_processed s) (total_new s)
    (total_duplicate s) (item_errors s) (new_items s) q.

(** The sentinel summary. *)
Definition AI_FAILED : string := "AI 总结失败".

(** [a < b] on the rationals that stand for Python's floats. *)
Definition Qltb (a b : Q) : bool := negb (Qle_bool b a).
(** [max(a, b)] and [min(a, b)]: the first argument unless the second
    is strictly larger (smaller). *)
Definition qmax (a b : Q) : Q := if Qltb a b then b else a.
Definition qmin (a b : Q) : Q := if Qltb b a then b else a.

(** Python's [bool(x)] for [str | None]. *)
Definition truthy_opt (o : option string) : bool :=
  match o with Some s => Str.truthy s | None => false end.


Section Collector.
Context {W : Type} (E : Env W).

(** A call on a collaborator. *)
Definition call {A} (m : M W A) : M (State W) A :=
  fun s => let '(r, w) := m (ext s) in (r, set_ext w s).

Definition emit (e : Event) : M (State W) unit := modify (add_event e).

(** [http.get_text(url)] *)
Definition fetch (url : string) : M (State W) string :=
  emit (EvFetch url) ;;; call (http_get_text E url).

(** The three [for it in parse_*(html): raw.append(...)] loops. *)
Definition page_items (html : string) : list Item :=
  (map triple (parse_list_page E html)
   ++ map triple (parse_notice_list_page E html)
   ++ map triple (parse_zcpt_list_page E html))%list.

(** The dates of [_zcpt_should_stop_page]: items whose date does not
    parse are skipped. *)
Definition zcpt_dates (zcpt_items : list Parser.ListItem)
  : list Date.date :=
  omap (fun it => Date.fromisoformat (Parser.date_raw it)) zcpt_items.

(** [max(dates)] and [min(dates)] of a non-empty list. *)
Definition max_date (d : Date.date) (ds : list Date.date) : Date.date :=
  fold_left Date.max2 ds d.
Definition min_date (d : Date.date) (ds : list Date.date) : Date.date :=
  fold_left Date.min2 ds d.

(** [_zcpt_should_stop_page(zcpt_items, earliest_keep)] *)
Definition _zcpt_should_stop_page (zcpt_items : list Parser.ListItem)
           (earliest_keep : Date.date) : bool * option string :=
  match zcpt_dates zcpt_items with
  | [] => (false, None)
  | d :: ds =>
      let max_d := max_date d ds in
      (Date.ltb max_d earliest_keep, Some (Date.isoformat max_d))
  end.

(** The dates of the generator in
    [min(date.fromisoformat(n.date_raw) for n in notices)]; [None]
    when one of them raises. *)
Definition notice_dates (notices : list Parser.ListItem)
  : option (list Date.date) :=
  mapM (fun n => Date.fromisoformat (Parser.date_raw n)) notices.

(** The [elif notices:] branch: [true] is the [break]; an exception
    inside the [try] is passed over. *)
Definition notice_should_stop (notices : list Parser.ListItem)
           (earliest_keep : Date.date) : bool :=
  match notice_dates notices with
  | Some (d :: ds) => Date.ltb (min_date d ds) earliest_keep
  | _ => false
  end.

(** "Determine whether to stop paging based on lookback": the
    [if zcpt_items: ... elif notices: ...] statement; [true] is a
    [break]. *)
Definition should_stop_paging (zcpt_items notices : list Parser.ListItem)
           (earliest_keep : Date.date) : bool :=
  match zcpt_items with
  | _ :: _ => fst (_zcpt_should_stop_page zcpt_items earliest_keep)
  | [] =>
      match notices with
      | _ :: _ => notice_should_stop notices earliest_keep
      | [] => false
      end
  end.

(** The local variables of [_collect_list_items]. *)
Record Collect := mkCollect {
  raw : list Item;
  seen_pages : gset string;
  queue : list string;
  c_page_turns : Z
}.

(** The next-page link: the pager anchor first, then the
    [pageIndex] scheme. *)
Definition resolve_next (html page_url : string) : option string :=
  let next_url := parse_next_page_url E html page_url in
  if negb (truthy_opt next_url) then _zcpt_next_page_url E html page_url
  else next_url.

(** [for page_idx in range(1, max_pages_per_category + 1)], with [n]
    iterations left. *)
Fixpoint paginate (earliest_keep : Date.date) (n : nat)
         (page_url : string) (c : Collect) : M (State W) Collect :=
  match n with
  | O => ret c
  | S k =>
      r <- try_except (html <- fetch page_url ;; ret (Some html))
                      (fun _ => ret None) ;;
      match r with
      | None => ret c                                   (* break *)
      | Some html =>
          let c := mkCollect (raw c ++ page_items html)%list
                     (seen_pages c) (queue c) (c_page_turns c) in
          if should_stop_paging (parse_zcpt_list_page E html)
               (parse_notice_list_page E html) earliest_keep
          then ret c                                    (* break *)
          else
            match resolve_next html page_url with
            | Some next_url =>
                if negb (Str.truthy next_url)
                   || bool_decide (next_url ∈ seen_pages c)
                then ret c                              (* break *)
                else
                  paginate earliest_keep k next_url
                    (mkCollect (raw c) ({[next_url]} ∪ seen_pages c)
                       (queue c) (c_page_turns c + 1))
            | None => ret c                             (* break *)
            end
      end
  end.

(** The iterations of the [while] loop that only pop a visited URL
    and [continue]. *)
Fixpoint drop_seen (seen : gset string) (q : list string) : list string :=
  match q with
  | [] => []
  | u :: rest => if bool_decide (u ∈ seen) then drop_seen seen rest else q
  end.

(** "keep discovering deeper levels": the second fetch of the
    category root. *)
Definition discover (base url : string) (c : Collect)
  : M (State W) Collect :=
  try_except
    (root_html <- fetch url ;;
     ret (mkCollect (raw c) (seen_pages c)
            (queue c
             ++ List.filter (fun u => negb (bool_decide (u ∈ seen_pages c)))
                  (parse_category_links E root_html base))%list
            (c_page_turns c)))
    (fun _ => ret c).

(** One iteration of the [while] loop that reaches a category: [url]
    has been popped and was not visited; [rest] is the queue left. *)
Definition visit_category (base : string) (earliest_keep : Date.date)
           (per_category : Z) (url : string) (rest : list string)
           (c : Collect) : M (State W) Collect :=
  c <- paginate earliest_keep (Z.to_nat per_category) url
         (mkCollect (raw c) ({[url]} ∪ seen_pages c) rest
            (c_page_turns c)) ;;
  discover base url c.

(** [while queue and len(seen_pages) < max_pages_total].  The
    iterations that skip a visited URL change neither the condition's
    second half nor anything but the queue, and are taken together by
    [drop_seen]; [fuel] bounds the remaining iterations, each of which
    adds a page to [seen_pages]. *)
Fixpoint category_loop (base : string) (earliest_keep : Date.date)
         (total per_category : Z) (fuel : nat) (c : Collect)
  : M (State W) Collect :=
  match fuel with
  | O => ret c
  | S k =>
      if negb (Z.of_nat (size (seen_pages c)) <? total) then ret c
      else
        match drop_seen (seen_pages c) (queue c) with
        | [] => ret (mkCollect (raw c) (seen_pages c) [] (c_page_turns c))
        | url :: rest =>
            c <- visit_category base earliest_keep per_category url rest c ;;
            category_loop base earliest_keep total per_category k c
        end
  end.

(** "De-dupe raw list by (title, link, date_raw)" *)
Fixpoint dedupe (raw : list Item) (seen_items : gset Item)
         (out : list Item) : list Item :=
  match raw with
  | [] => out
  | key :: rest =>
      if bool_decide (key ∈ seen_items) then dedupe rest seen_items out
      else dedupe rest ({[key]} ∪ seen_items) (out ++ [key])%list
  end.

(** The crawl of [_collect_list_items]: everything up to the
    de-duplication. *)
Definition crawl (cfg : Config) (earliest_keep : Date.date)
  : M (State W) Collect :=
  start_html <- fetch (list_url cfg) ;;
  let c := mkCollect (page_items start_html) {[list_url cfg]}
             (parse_category_links E start_html (base_url cfg)) 0 in
  let total := Z.max 1 (max_pages_total cfg) in
  let per_category := Z.max 1 (max_pages_per_category cfg) in
  category_loop (base_url cfg) earliest_keep total per_category
    (Z.to_nat total) c.

(** [_collect_list_items(cfg, http, log, earliest_keep)] *)
Definition _collect_list_items (cfg : Config) (earliest_keep : Date.date)
  : M (State W) ListCollectionResult :=
  if use_test_fixtures cfg then
    list_html <- call (_read_fixture E "sample_list.html") ;;
    ret (mkCollected (map triple (parse_list_page E list_html)) 1 0)
  else
    c <- crawl cfg earliest_keep ;;
    ret (mkCollected (dedupe (raw c) ∅ [])
           (Z.of_nat (size (seen_pages c))) (c_page_turns c)).

End Collector.


(** The report [run_once] returns. *)
Record Report := mkReport {
  r_status : string;
  r_run_id : string;
  r_execution_time : string;
  r_duration_seconds : Z;
  r_total_processed : Z;
  r_total_new : Z;
  r_total_duplicate : Z;
  r_error : option string
}.

Section Run.
Context {W : Type} (E : Env W).

(** *** The methods of [Database], as [run_once] calls them *)

(** A statement reaches the file in the state other processes left. *)
Definition db_statement : M (State W) unit :=
  s <- get_state ;;
  t <- call (db_sync E (Db._conn (db s))) ;;
  modify (fun s => set_db (Db.mkDatabase (Db._dedupe_strategy (db s)) t) s).

(** [datetime.now(tz=_TZ).isoformat(timespec="seconds")] *)
Definition now_text : M (State W) string :=
  n <- call (clock_now E) ;; ret (TimeUtils.datetime_isoformat n).

Definition db_init_schema : M (State W) unit :=
  db_statement ;;; modify (fun s => set_db (Db.init_schema (db s)) s).

(** A method of [Database] that answers. *)
Definition on_db {A} (f : Db.Database -> A * Db.Database)
  : M (State W) A :=
  fun s => let '(a, d) := f (db s) in (Ok a, set_db d s).

(** [start_run]: a [uuid4] is drawn only when no run id is given. *)
Definition db_start_run (override : option string)
  : M (State W) (string * string) :=
  rid <- (if Str.truthy (Db.stripped_override override)
          then ret (Db.stripped_override override)
          else call (uuid4 E)) ;;
  now <- now_text ;;
  db_statement ;;;
  r <- on_db (Db.start_run rid now) ;;
  lift_outcome r.

Definition db_finish_run (rid status finished : string) (duration : Z)
           (processed new_ duplicate : Z) (err : option string)
  : M (State W) unit :=
  emit (EvFinishRun rid status processed new_ duplicate err) ;;;
  db_statement ;;;
  modify (fun s => set_db (Db.finish_run rid status finished duration
                             processed new_ duplicate err (db s)) s).

Definition db_is_duplicate (title url date : string) : M (State W) bool :=
  db_statement ;;;
  on_db (fun d => (Db.is_duplicate title url date d, d)).

Definition db_insert_announcement_base (title url date status : string)
  : M (State W) bool :=
  emit (EvInsert title url date status) ;;;
  now <- now_text ;;
  db_statement ;;;
  on_db (Db.insert_announcement_base title url date status now).

Definition db_update_announcement_detail
           (title content ai_summary status : string) : M (State W) unit :=
  emit (EvUpdateDetail title content ai_summary status) ;;;
  now <- now_text ;;
  db_statement ;;;
  modify (fun s => set_db (Db.update_announcement_detail title content
                             ai_summary status now (db s)) s).

Definition send_card (c : Card) : M (State W) unit :=
  emit (EvSendCard c) ;;; call (feishu_send_card E c).

(** [shanghai_recent_days()] *)
Definition shanghai_recent_days : M (State W) TimeUtils.RecentDays :=
  n <- call (clock_now E) ;; lift_outcome (TimeUtils.shanghai_recent_days n).

(** [date.fromisoformat(s)] *)
Definition date_fromisoformat (s : string) : M (State W) Date.date :=
  match Date.fromisoformat s with
  | Some d => ret d
  | None => raise ("ValueError: Invalid isoformat string: " +:+ s)
  end.

(** [d - timedelta(days=n)] *)
Definition date_minus_days (d : Date.date) (n : nat)
  : M (State W) Date.date :=
  match Date.minus_days d n with
  | Some d' => ret d'
  | None => raise "OverflowError: date value out of range"
  end.

(** *** Filter and plan *)

(** Lines 356 to 361: normalized dates; items without one are
    dropped. *)
Definition normalize_items (now_dt : TimeUtils.datetime)
           (raw_items : list Item) : list Item :=
  omap (fun '(title, link, date_raw) =>
          match TimeUtils.normalize_date date_raw now_dt with
          | Some d => if Str.truthy d then Some (title, link, d) else None
          | None => None
          end)
       raw_items.

(** [max(d for _, _, d in normalized)] of a non-empty list. *)
Definition max_string (d : string) (ds : list string) : string :=
  fold_left (fun acc x => if Str.ltb acc x then x else acc) ds d.

(** Lines 363 to 367: the reference date. *)
Definition base_date_of (cfg : Config) (recent : TimeUtils.RecentDays)
           (normalized : list Item) : M (State W) Date.date :=
  match use_test_fixtures cfg, normalized with
  | true, (_, _, d) :: rest => date_fromisoformat (max_string d (map snd rest))
  | _, _ => date_fromisoformat (TimeUtils.today recent)
  end.

(** Lines 369 to 371 *)
Definition clamp_lookback (days : Z) : Z := if days <? 1 then 1 else days.

(** The list [(base_date - timedelta(days=i)).isoformat() for i in
    range(n)] *)
Fixpoint lookback_dates (base_date : Date.date) (i : nat) (n : nat)
  : M (State W) (list string) :=
  match n with
  | O => ret []
  | S k =>
      d <- date_minus_days base_date i ;;
      ds <- lookback_dates base_date (S i) k ;;
      ret (Date.isoformat d :: ds)
  end.

(** Lines 373 to 375: the set [allowed_dates]. *)
Definition allowed_dates (base_date : Date.date) (lookback : Z)
  : M (State W) (gset string) :=
  ds <- lookback_dates base_date 0 (Z.to_nat lookback) ;;
  ret (list_to_set ds).

(** Lines 384 to 390: the candidates. *)
Definition filter_items (allowed : gset string) (keyword_re : Re.regex)
           (normalized : list Item) : list Item :=
  List.filter (fun '(title, link, d) =>
            bool_decide (d ∈ allowed) && Re.search keyword_re title)
         normalized.

(** *** The ingest loop *)

Section Loop.
Context (cfg : Config) (adaptive : bool) (max_items : Z).

(** [ai is None] and [bool(feishu)] *)
Definition ai_is_none : bool := dry_run cfg || ai_disabled cfg.
Definition feishu_on : bool := truthy_opt (feishu_webhook_url cfg).

Definition abs_url_of (link : string) : string :=
  if Str.startswith "http" link then link
  else urljoin E (Str.rstrip_char "/" (base_url cfg) +:+ "/") link.

(** Lines 466 to 475: the summary of a detail page. *)
Definition summarize (title content : string) : M (State W) string :=
  if negb (Str.truthy content) then ret AI_FAILED
  else if ai_is_none
       then lift_outcome (build_fallback_summary E title content)
  else
    ai_summary <- call (ai_summarize E content) ;;
    if negb (Str.truthy ai_summary) || String.eqb ai_summary AI_FAILED
    then lift_outcome (build_fallback_summary E title content)
    else ret ai_summary.

(** Lines 486 to 505: the notification of one item. *)
Definition notify_item (title d ai_summary abs_url : string)
  : M (State W) unit :=
  if feishu_on then
    try_except
      (if String.eqb (feishu_notify_mode cfg) "per_item"
       then send_card (build_new_item_card title d ai_summary abs_url)
       else modify (fun s => set_new_items
                               (new_items s
                                ++ [mkNewItem title d ai_summary abs_url])%list
                               s))
      (fun _ =>
         modify (fun s => set_item_errors
                            (item_errors s
                             ++ ["feishu_send_failed: " +:+ title])%list s))
  else ret tt.

(** Lines 456 to 505: the body of the [try] of one item. *)
Definition item_detail (title d abs_url : string) : M (State W) unit :=
  detail_html <- (if use_test_fixtures cfg
                  then call (_read_fixture E "sample_detail.html")
                  else fetch E abs_url) ;;
  content <- lift_outcome (extract_detail_content E detail_html) ;;
  ai_summary <- summarize title content ;;
  db_update_announcement_detail title content ai_summary "PROCESSED" ;;;
  notify_item title d ai_summary abs_url.

(** Lines 507 to 516: the handler of that [try]. *)
Definition item_failed (title e : string) : M (State W) unit :=
  modify (fun s => set_item_errors
                     (item_errors s
                      ++ ["item_failed: " +:+ title +:+ ": " +:+ e])%list
                     s) ;;;
  db_update_announcement_detail title "" AI_FAILED "FAILED".

(** Lines 518 to 530: adaptive throttling. *)
Definition throttle_step : M (State W) unit :=
  s <- get_state ;;
  if adaptive && (0 <? batch_size cfg)
     && (total_processed s mod batch_size cfg =? 0)
  then modify (set_current_delay
                 (qmin (max_loop_delay_seconds cfg)
                       (current_delay s
                        + qmax (delay_increment_seconds cfg) 0)%Q))
  else ret tt.

(** Lines 421 and 422: the delay between two items. *)
Definition item_delay (idx : Z) : M (State W) unit :=
  s <- get_state ;;
  if (0 <? idx) && Qltb 0 (current_delay s)
  then call (time_sleep E (current_delay s)) else ret tt.

(** Lines 432 and 433 *)
Definition count_duplicate : M (State W) unit :=
  modify (fun s => set_total_duplicate (total_duplicate s + 1) s) ;;;
  modify (fun s => set_total_processed (total_processed s + 1) s).

(** Lines 437 and 438 *)
Definition count_new : M (State W) unit :=
  modify (fun s => set_total_new (total_new s + 1) s) ;;;
  modify (fun s => set_total_processed (total_processed s + 1) s).

(** Lines 450 and 451: an item counted as new is counted as a
    duplicate instead. *)
Definition downgrade_new : M (State W) unit :=
  modify (fun s => set_total_duplicate (total_duplicate s + 1) s) ;;;
  modify (fun s => set_total_new (total_new s - 1) s).

(** Lines 455 to 530: the [try] statement of an inserted item and
    the throttling step that a [continue] in its handler skips. *)
Definition item_enrich (title d abs_url : string) : M (State W) unit :=
  ok <- try_except (item_detail title d abs_url ;;; ret true)
                   (fun e => item_failed title e ;;; ret false) ;;
  if ok : bool then throttle_step else ret tt.

(** Lines 421 to 530: the body of the [for] loop after the cap
    check. *)
Definition process_item (idx : Z) (it : Item) : M (State W) unit :=
  let '(title, link, d) := it in
  item_delay idx ;;;
  let abs_url := abs_url_of link in
  exists_ <- db_is_duplicate title abs_url d ;;
  if exists_ : bool then count_duplicate
  else
    count_new ;;;
    if dry_run cfg then ret tt
    else
      inserted <- db_insert_announcement_base title abs_url d "NEW" ;;
      if negb inserted then downgrade_new
      else item_enrich title d abs_url.

(** [for idx, (title, link, d) in enumerate(filtered)] from index
    [idx] on. *)
Fixpoint ingest_loop (idx : Z) (filtered : list Item) : M (State W) unit :=
  match filtered with
  | [] => ret tt
  | it :: rest =>
      if negb (max_items =? 0) && (max_items <=? idx) then ret tt
      else process_item idx it ;;; ingest_loop (idx + 1) rest
  end.

End Loop.


(** *** The run *)

(** Lines 546 to 582 in digest mode: one card for every ten buffered
    items, from offset [i] on. *)
Fixpoint send_digest (cfg : Config) (execution_time : string)
         (duration : Z) (fuel : nat) (i : nat) : M (State W) unit :=
  match fuel with
  | O => ret tt
  | S k =>
      s <- get_state ;;
      let total_items := length (new_items s) in
      if (i <? total_items)%nat then
        send_card
          (build_digest_card
             (match keywords_label cfg with
              | Some l => if Str.truthy l then l else keyword_regex cfg
              | None => keyword_regex cfg
              end)
             execution_time duration (total_new s) (total_duplicate s)
             (total_processed s)
             (firstn 10 (skipn i (new_items s)))
             (webui_public_url cfg) (days_lookback cfg)
             (feishu_card_image_url cfg)
             (Z.of_nat i + 1)
             (Z.min (Z.of_nat i + 10) (Z.of_nat total_items))
             (Z.of_nat total_items)) ;;;
        send_digest cfg execution_time duration k (i + 10)%nat
      else ret tt
  end.

(** Lines 546 to 582: the notification of a completed run. *)
Definition notify_run (cfg : Config) (execution_time : string)
           (duration : Z) : M (State W) unit :=
  s <- get_state ;;
  if feishu_on cfg && (0 <? total_new s) then
    try_except
      (if String.eqb (feishu_notify_mode cfg) "digest"
       then send_digest cfg execution_time duration
              (length (new_items s)) 0%nat
       else send_card (build_summary_card execution_time duration
                         (total_processed s) (total_new s)
                         (total_duplicate s)))
      (fun _ => ret tt)
  else ret tt.

Definition report_of (status : string) (run : string * string)
           (duration : Z) (err : option string) (s : State W) : Report :=
  mkReport status (fst run) (snd run) duration (total_processed s)
    (total_new s) (total_duplicate s) err.

(** Lines 323 to 602: the body of the outer [try]. *)
Definition run_try (cfg : Config) (recent : TimeUtils.RecentDays)
           (run : string * string) : M (State W) Report :=
  today_ <- date_fromisoformat (TimeUtils.today recent) ;;
  earliest_keep <- date_minus_days today_
                     (Z.to_nat (Z.max (days_lookback cfg - 1) 0)) ;;
  collected <- _collect_list_items E cfg earliest_keep ;;
  match items collected with
  | [] =>
      duration <- call (elapsed_seconds E) ;;
      fin <- shanghai_recent_days ;;
      db_finish_run (fst run) "COMPLETED" (TimeUtils.now_iso fin) duration
        0 0 0 None ;;;
      ret (mkReport "COMPLETED" (fst run) (snd run) duration 0 0 0 None)
  | raw_items =>
      keyword_re <- lift_outcome (re_compile E (keyword_regex cfg)) ;;
      now_dt <- match TimeUtils.datetime_fromisoformat
                        (TimeUtils.now_iso recent) with
                | Some n => ret n
                | None => raise "ValueError: Invalid isoformat string"
                end ;;
      let normalized := normalize_items now_dt raw_items in
      base_date <- base_date_of cfg recent normalized ;;
      allowed <- allowed_dates base_date
                   (clamp_lookback (days_lookback cfg)) ;;
      let filtered := filter_items allowed keyword_re normalized in
      let adaptive :=
        adaptive_delay_threshold_pages cfg <? page_turns collected in
      modify (set_current_delay (qmax (loop_delay_seconds cfg) 0)) ;;;
      let max_items := if max_items_per_run cfg <? 0 then 0
                       else max_items_per_run cfg in
      ingest_loop cfg adaptive max_items 0 filtered ;;;
      duration <- call (elapsed_seconds E) ;;
      fin <- shanghai_recent_days ;;
      s <- get_state ;;
      db_finish_run (fst run) "COMPLETED" (TimeUtils.now_iso fin) duration
        (total_processed s) (total_new s) (total_duplicate s)
        (match item_errors s with
         | [] => None
         | errs => Some (Str.take 4000 (Str.join (String "010" "") errs))
         end) ;;;
      notify_run cfg (snd run) duration ;;;
      s <- get_state ;;
      ret (report_of "COMPLETED" run duration None s)
  end.

(** Lines 604 to 637: the outer handler. *)
Definition run_failed (cfg : Config) (run : string * string) (e : string)
  : M (State W) Report :=
  duration <- call (elapsed_seconds E) ;;
  fin <- shanghai_recent_days ;;
  let finished_at := TimeUtils.now_iso fin in
  let error_text := e +:+ String "010" "" +:+ format_exc E e in
  s <- get_state ;;
  db_finish_run (fst run) "FAILED" finished_at duration
    (total_processed s) (total_new s) (total_duplicate s)
    (Some (Str.take 4000 error_text)) ;;;
  (if feishu_on cfg then send_card (build_error_card finished_at e)
   else ret tt) ;;;
  s <- get_state ;;
  ret (report_of "FAILED" run duration (Some error_text) s).

(** [run_once(cfg)], with its collaborators ([http], [ai], [feishu])
    those of the environment. *)
Definition run_once (cfg : Config) : M (State W) Report :=
  recent <- shanghai_recent_days ;;
  modify (fun s => set_db (Db.Database_init (dedupe_strategy cfg)
                             (Db._conn (db s))) s) ;;;
  db_init_schema ;;;
  run <- db_start_run (run_id_override cfg) ;;
  modify (fun s => set_total_processed 0 s) ;;;
  modify (fun s => set_total_new 0 s) ;;;
  modify (fun s => set_total_duplicate 0 s) ;;;
  modify (fun s => set_item_errors [] s) ;;;
  modify (fun s => set_new_items [] s) ;;;
  try_except (run_try cfg recent run) (run_failed cfg run).

End Run.

End Workflow.

(** ** Vocabulary of the statements *)

Module Shape.

(** The raw shapes of a date: [YYYY-MM-DD] (or [YYYY/MM/DD], by the
    separator) and [MM-DD]. *)
Definition ymd (sep : ascii) (y1 y2 y3 y4 m1 m2 d1 d2 : ascii) : string :=
  Str.of_chars [y1; y2; y3; y4; sep; m1; m2; sep; d1; d2].

Definition md (m1 m2 d1 d2 : ascii) : string :=
  Str.of_chars [m1; m2; "-"%char; d1; d2].

Definition is_ymd (sep : ascii) (s : string) : Prop :=
  exists y1 y2 y3 y4 m1 m2 d1 d2,
    Date.all_digits [y1; y2; y3; y4; m1; m2; d1; d2] = true
    /\ s = ymd sep y1 y2 y3 y4 m1 m2 d1 d2.

Definition is_md (s : string) : Prop :=
  exists m1 m2 d1 d2,
    Date.all_digits [m1; m2; d1; d2] = true /\ s = md m1 m2 d1 d2.

(** What is left of a raw date once the surrounding blanks and the
    brackets are taken off. *)
Definition bare (s : string) : string :=
  Str.strip (Str.remove_char "]" (Str.remove_char "[" (Str.strip s))).

Definition all_space (s : string) : bool := forallb Str.is_space (Str.chars s).

(** A string that does not end in a blank. *)
Fixpoint ends_clean (s : string) : bool :=
  match s with
  | EmptyString => true
  | String c EmptyString => negb (Str.is_space c)
  | String _ s' => ends_clean s'
  end.


(** A list with every later duplicate removed: an element stays when it
    does not occur among the elements [before] it. *)
Fixpoint keep_first {A} `{EqDecision A} (before l : list A) : list A :=
  match l with
  | [] => []
  | x :: l' =>
      (if bool_decide (x ∈ before) then [] else [x])
        ++ keep_first (before ++ [x]) l'
  end%list.

(** The collector's variables after the items of a page were appended,
    and after a turn to the next page. *)
Definition add_page {W} (E : Workflow.Env W) (html : string)
           (c : Workflow.Collect) : Workflow.Collect :=
  Workflow.mkCollect (Workflow.raw c ++ Workflow.page_items E html)%list
    (Workflow.seen_pages c) (Workflow.queue c) (Workflow.c_page_turns c).

Definition turn_page (next_url : string) (c : Workflow.Collect)
  : Workflow.Collect :=
  Workflow.mkCollect (Workflow.raw c) ({[next_url]} ∪ Workflow.seen_pages c)
    (Workflow.queue c) (Workflow.c_page_turns c + 1).

(** The number of [get_text] calls in a trace. *)
Definition fetches (tr : list Workflow.Event) : Z :=
  Z.of_nat (length (List.filter (fun e => match e with
                                     | Workflow.EvFetch _ => true
                                     | _ => false
                                     end) tr)).

(** The pages fetched, in order. *)
Definition fetched (tr : list Workflow.Event) : list string :=
  omap (fun e => match e with
                 | Workflow.EvFetch u => Some u
                 | _ => None
                 end) tr.

End Shape.

(** ** The bookkeeping invariant *)

Module Inv.

(** The three counters agree. *)
Definition counters_ok {W} (s : Workflow.State W) : Prop :=
  Workflow.total_new s + Workflow.total_duplicate s
  = Workflow.total_processed s.

(** A [finish_run] call writes counters that agree. *)
Definition finish_ok (e : Workflow.Event) : Prop :=
  match e with
  | Workflow.EvFinishRun _ _ processed new_ duplicate _ =>
      new_ + duplicate = processed
  | _ => True
  end.

(** [s'] is [s] after some more calls, whose [finish_run]s all write
    counters that agree. *)
Definition extends {W} (s s' : Workflow.State W) : Prop :=
  exists evs, Workflow.trace s' = (Workflow.trace s ++ evs)%list
              /\ Forall finish_ok evs.

Definition report_ok (r : Workflow.Report) : Prop :=
  Workflow.r_total_new r + Workflow.r_total_duplicate r
  = Workflow.r_total_processed r.

(** A computation that keeps the counters in agreement, whether it
    returns or raises, finalizes only with such counters, and returns a
    value that satisfies [Q]. *)
Definition good {W A} (Q : A -> Prop) (m : M (Workflow.State W) A) : Prop :=
  forall s, counters_ok s ->
            counters_ok (snd (m s)) /\ extends s (snd (m s))
            /\ match fst (m s) with
               | Ok a => Q a
               | Raise _ => True
               end.

Definition any {A} : A -> Prop := fun _ => True.

(** The counters of [s'] are those of [s]. *)
Definition same_counters {W} (s s' : Workflow.State W) : Prop :=
  Workflow.total_new s' = Workflow.total_new s
  /\ Workflow.total_duplicate s' = Workflow.total_duplicate s
  /\ Workflow.total_processed s' = Workflow.total_processed s.

(** A computation that leaves the counters alone, whether it returns or
    raises. *)
Definition steady {W A} (m : M (Workflow.State W) A) : Prop :=
  forall s, same_counters s (snd (m s)).

(** Between [s0] and [s'] a [finish_run] call wrote the run id, the
    status and the counters of the report [r]. *)
Definition finalized {W} (s0 : Workflow.State W) (r : Workflow.Report)
           (s' : Workflow.State W) : Prop :=
  exists evs err,
    Workflow.trace s' = (Workflow.trace s0 ++ evs)%list
    /\ Workflow.EvFinishRun (Workflow.r_run_id r) (Workflow.r_status r)
         (Workflow.r_total_processed r) (Workflow.r_total_new r)
         (Workflow.r_total_duplicate r) err ∈ evs.

(** A computation that returns a report only after finalizing the run
    with it. *)
Definition finalizes {W} (m : M (Workflow.State W) Workflow.Report) : Prop :=
  forall s r s', counters_ok s -> m s = (Ok r, s') -> finalized s r s'.

(** Whatever the computation returns satisfies [Q]. *)
Definition returns {S A} (Q : A -> Prop) (m : M S A) : Prop :=
  forall s a s', m s = (Ok a, s') -> Q a.

(** A computation that makes no call that the trace records. *)
Definition quiet {W A} (m : M (Workflow.State W) A) : Prop :=
  forall s, Workflow.trace (snd (m s)) = Workflow.trace s.

(** A change of the state that touches neither the counters nor the
    trace. *)
Definition silent {W} (f : Workflow.State W -> Workflow.State W) : Prop :=
  forall s, Workflow.trace (f s) = Workflow.trace s
            /\ Workflow.total_new (f s) = Workflow.total_new s
            /\ Workflow.total_duplicate (f s) = Workflow.total_duplicate s
            /\ Workflow.total_processed (f s) = Workflow.total_processed s.

End Inv.

(** ** Concrete runs, for the examples *)

Module Scenario.

(** Two announcements that share a title and differ in URL and date,
    written through [insert_announcement_base] into a fresh database
    opened with the strategy [strategy]. *)
Definition fresh_db (strategy : string) : Db.Database :=
  Db.init_schema (Db.Database_init strategy Db.empty_tables).

Definition first_insert (strategy : string) : bool * Db.Database :=
  Db.insert_announcement_base "same title" "http://example.com/a"
    "2026-01-30" "NEW" "2026-02-01T09:00:00+08:00" (fresh_db strategy).

Definition second_insert (strategy : string) : bool * Db.Database :=
  Db.insert_announcement_base "same title" "http://example.com/b"
    "2026-01-31" "NEW" "2026-02-01T09:00:01+08:00"
    (snd (first_insert strategy)).

Definition after_update (strategy : string) : Db.Database :=
  Db.update_announcement_detail "same title" "" Workflow.AI_FAILED "FAILED"
    "2026-02-01T09:00:02+08:00" (snd (second_insert strategy)).


(** A small site.  The start page lists two announcements and links one
    category, whose three pages follow one another; the detail page of
    the second announcement cannot be fetched.  The outside world is the
    number of statements that have reached the database. *)
Definition pages : list (string * string) :=
  [("https://site/list", "START");
   ("https://site/catA", "A1");
   ("https://site/catA?page=2", "A2");
   ("https://site/catA?page=3", "A3");
   ("https://site/d1", "D1");
   ("https://site/d3", "D3")].

Definition lookup (k : string) (l : list (string * string)) : option string :=
  option_map snd (find (fun kv => String.eqb (fst kv) k) l).

Definition get (url : string) : M nat string :=
  match lookup url pages with
  | Some html => ret html
  | None => raise "HTTPError: 404"
  end.

Definition list_page (html : string) : list Parser.ListItem :=
  if String.eqb html "START"
  then [Parser.mkItem "AI platform tender" "/d1" "2026-02-01";
        Parser.mkItem "AI lab upgrade" "/d2" "[2026/01/31]"]
  else if String.eqb html "A1"
  then [Parser.mkItem "AI platform tender" "/d1" "2026-02-01"]
  else [].

Definition notice_page (html : string) : list Parser.ListItem :=
  if String.eqb html "A1"
  then [Parser.mkItem "Old notice" "/d5" "2020-01-01"]
  else if String.eqb html "A3"
  then [Parser.mkItem "Stale notice" "/d6" "2019-01-01"]
  else [].

Definition zcpt_page (html : string) : list Parser.ListItem :=
  if String.eqb html "A1"
  then [Parser.mkItem "AI chips" "/d3" "2026-02-01";
        Parser.mkItem "Old AI item" "/d4" "2020-01-01"]
  else if String.eqb html "A2"
  then [Parser.mkItem "AI chips" "/d3" "2026-02-01"]
  else [].

Definition category_links (html base : string) : list string :=
  if String.eqb html "START" then [base +:+ "/catA"] else [].

Definition next_page (html current : string) : option string :=
  if String.eqb html "A1" then Some "https://site/catA?page=2"
  else if String.eqb html "A2" then Some "https://site/catA?page=3"
  else None.

Definition compile (pattern : string) : Outcome Re.regex :=
  if String.eqb pattern "AI" then Ok (Re.lit "AI")
  else Raise "re.error".

Definition clock : TimeUtils.datetime :=
  TimeUtils.mkdt (Date.mk 2026 2 1) 9 0 0.

(** Another process that writes the announcement "AI chips" just before
    statement number [n] of this one. *)
Definition racing_row : Db.Row :=
  Db.mkRow 100 "AI chips" "https://elsewhere/d3" "2026-02-01" None None
    "NEW" "zpzb.zgpmsm.cn" "2026-02-01T08:59:59+08:00"
    "2026-02-01T08:59:59+08:00".

Definition at_statement (k : option nat) (n : nat) : bool :=
  match k with Some k => Nat.eqb n k | None => false end.

(** Statement number [fault_at] finds the database locked. *)
Definition sync (race_at fault_at : option nat) (t : Db.Tables)
  : M nat Db.Tables :=
  fun n =>
    (if at_statement fault_at n
     then Raise "OperationalError: database is locked"
     else Ok (if at_statement race_at n
              then Db.mkTables (Db.announcements t ++ [racing_row])%list
                     (Db.unique_indexes t) (Db.runs t)
              else t),
     S n).

Definition site (race_at fault_at : option nat) : Workflow.Env nat :=
  Workflow.mkEnv nat
    get list_page notice_page zcpt_page category_links next_page
    (fun html => Ok ("content of " +:+ html))
    (fun _ _ => None)
    (fun _ => raise "FileNotFoundError")
    (fun _ => raise "ConnectionError")
    (fun title _ => Ok ("summary of " +:+ title))
    (fun _ => ret tt)
    (ret clock) (ret 3) (ret "run-1") (fun _ => ret tt)
    (fun _ => "Traceback")
    compile
    (fun base link => Str.rstrip_char "/" base +:+ link)
    (sync race_at fault_at).

Definition cfg : Workflow.Config :=
  Workflow.mkConfig "https://site/list" "https://site" "title" None "AI"
    2 0 50 None "digest" None false true false None None 10 50 1 10 2 3.

Definition start : Workflow.State nat :=
  Workflow.mkState 0%nat (Db.mkDatabase "title" Db.empty_tables) []
    0 0 0 [] [] 0.

Definition earliest_keep : Date.date := Date.mk 2026 1 31.

(** The state of a run whose database is set up and whose loop is about
    to take its first candidate. *)
Definition ready : Workflow.State nat :=
  Workflow.mkState 0%nat (fresh_db "title") [] 0 0 0 [] [] 0.


(** The session of [tests/test_http_relay.py]: every [get] answers
    "direct", every [post] answers "via-relay". *)
Definition fake_session : Http.Session unit :=
  Http.mkSession unit
    (fun _ _ => ret (Http.mkResponse 200 "direct"))
    (fun _ _ _ _ => ret (Http.mkResponse 200 "via-relay"))
    (fun _ => ret tt).

(** The keyword arguments of that test. *)
Definition relay_kwargs : list (string * Http.pyval) :=
  [("user_agent", Http.VStr "pytest");
   ("timeout_ms", Http.VInt 1000);
   ("retry_count", Http.VInt 1);
   ("retry_interval_ms", Http.VInt 0);
   ("relay_zcpt_base_url", Http.VStr "https://cn-relay.example.com");
   ("relay_zcpt_token", Http.VStr "tok")].

Definition zcpt_url : string :=
  "https://zcpt.zgpmsm.com.cn/jyxx/sec_listjyxx.html?pageIndex=2".

End Scenario.

(** * The rest of the package

    The methods and helpers that the workflow reaches, or that sit beside
    the ones above in their files: the second retry loop of
    [http_client.py], the clients built on it, the remaining methods of
    [Database], the settings and the logger. *)

(** ** http_client.py: [post_json], and what a session is asked to do *)

Module HttpClient.

(** What a session was asked to do: a request with the answer it got,
    or a pause of so many seconds. *)
Inductive Action :=
| Sent (r : Http.Request) (answer : Outcome Http.Response)
| Sleep (seconds : Q).

(** A session that keeps the list of what it was asked to do. *)
Definition recorded {W} (ses : Http.Session W)
  : Http.Session (W * list Action) :=
  {| Http.session_get := fun url t '(w, log) =>
       let '(r, w') := Http.session_get ses url t w in
       (r, (w', (log ++ [Sent (Http.GET url) r])%list));
     Http.session_post := fun url h j t '(w, log) =>
       let '(r, w') := Http.session_post ses url h j t w in
       (r, (w', (log ++ [Sent (Http.POST url h j) r])%list));
     Http.sleep := fun d '(w, log) =>
       let '(r, w') := Http.sleep ses d w in
       (r, (w', (log ++ [Sleep d])%list)) |}.

(** The exception that the [try] block of [get_text] raises on an
    answer: the one [session.get] raised, or the [HTTPError] of
    [raise_for_status]. *)
Definition refused (answer : Outcome Http.Response) : option string :=
  match answer with
  | Raise e => Some e
  | Ok r =>
      if (400 <=? Http.status_code r) && (Http.status_code r <? 600)
      then Some "HTTPError" else None
  end.

(** [ms / 1000] *)
Definition seconds (ms : Z) : Q := (inject_Z ms / inject_Z 1000)%Q.

(** The actions of attempts that were refused and retried: each request
    is followed by the pause before the next one. *)
Definition retried (r : Http.Request) (pause : Q)
           (answers : list (Outcome Http.Response)) : list Action :=
  flat_map (fun a => [Sent r a; Sleep pause]) answers.

Section PostJson.
Context {W J : Type} (ses : Http.Session W).
(** The encoding [requests] gives the [json=] argument, and
    [resp.json()] on a body. *)
Context (dumps : J -> string) (loads : string -> Outcome J).

(** The [try] block of [post_json]. *)
Definition post_attempt (url : string) (headers : list (string * string))
           (payload : J) (timeout_ms : Z) : M W J :=
  resp <- Http.session_post ses url headers (dumps payload)
            (seconds timeout_ms) ;;
  Http.raise_for_status resp ;;;
  lift_outcome (loads (Http.text resp)).

(** The loop of [post_json] with [n] attempts left. *)
Fixpoint post_json_loop (n : nat) (attempt : Z) (last_err : option string)
         (url : string) (headers : list (string * string)) (payload : J)
         (timeout_ms retry_count retry_interval_ms : Z) : M W J :=
  match n with
  | O =>
      (* assert last_err is not None; raise last_err *)
      match last_err with
      | None => raise "AssertionError"
      | Some e => raise e
      end
  | S k =>
      try_except (post_attempt url headers payload timeout_ms)
        (fun e =>
           (if attempt <? retry_count
            then Http.sleep_ms ses retry_interval_ms else ret tt) ;;;
           post_json_loop k (attempt + 1) (Some e) url headers payload
             timeout_ms retry_count retry_interval_ms)
  end.

(** [HttpClient.post_json(url, headers, payload, timeout_ms,
    retry_count, retry_interval_ms)] *)
Definition post_json (url : string) (headers : list (string * string))
           (payload : J) (timeout_ms retry_count retry_interval_ms : Z)
  : M W J :=
  post_json_loop (Z.to_nat retry_count) 1 None url headers payload
    timeout_ms retry_count retry_interval_ms.

(** The exception that the [try] block of [post_json] raises on an
    answer: as for [get_text], or the one [resp.json()] raises. *)
Definition declined (answer : Outcome Http.Response) : option string :=
  match refused answer with
  | Some e => Some e
  | None =>
      match answer with
      | Ok r => match loads (Http.text r) with
                | Raise e => Some e
                | Ok _ => None
                end
      | Raise e => Some e
      end
  end.

End PostJson.

End HttpClient.

(** ** Text helpers of the clients *)

Module Text.

Definition nl : string := String "010" "".

(** [s.split()]: the maximal runs of characters that are not white
    space; [cur] is the run being read, last character first. *)
Fixpoint split_from (cur : list ascii) (l : list ascii) : list string :=
  match l with
  | [] => match cur with
          | [] => []
          | _ => [Str.of_chars (rev cur)]
          end
  | c :: l' =>
      if Str.is_space c
      then match cur with
           | [] => split_from [] l'
           | _ => Str.of_chars (rev cur) :: split_from [] l'
           end
      else split_from (c :: cur) l'
  end.

Definition split (s : string) : list string := split_from [] (Str.chars s).

(** [s.replace(a, b)] for one-character [a] and [b]. *)
Fixpoint replace_char (a b : ascii) (s : string) : string :=
  match s with
  | EmptyString => EmptyString
  | String c s' =>
      String (if Ascii.eqb c a then b else c) (replace_char a b s')
  end.

End Text.

(** ** The values [json.loads] builds *)

Module Json.

Inductive number :=
| Int (z : Z)
| Float (q : Q)
| NaN
| Infinity (negative : bool).

(** [None], [bool], [int] and [float], [str], [list] and [dict]; a
    [dict] is the list of its items as they were read, and a later item
    replaces an earlier one of the same key. *)
Local Unset Elimination Schemes.
Inductive value :=
| Null
| Bool (b : bool)
| Num (n : number)
| Str (s : string)
| Arr (items : list value)
| Obj (members : list (string * value)).
Local Set Elimination Schemes.

(** [bool(x)] *)
Definition truthy (x : value) : bool :=
  match x with
  | Null => false
  | Bool b => b
  | Num (Int z) => negb (z =? 0)
  | Num (Float q) => negb (Qeq_bool q 0)
  | Num NaN | Num (Infinity _) => true
  | Str s => Str.truthy s
  | Arr [] => false
  | Arr (_ :: _) => true
  | Obj [] => false
  | Obj (_ :: _) => true
  end.

(** [x or d] *)
Definition or_ (x d : value) : value := if truthy x then x else d.

Definition lookup (k : string) (members : list (string * value))
  : option value :=
  fold_left (fun found kv => if String.eqb (fst kv) k then Some (snd kv)
                             else found)
            members None.

(** [x.get(k)]: only a [dict] has the method. *)
Definition get (x : value) (k : string) : Outcome value :=
  match x with
  | Obj members =>
      Ok (match lookup k members with Some v => v | None => Null end)
  | Null => Raise "AttributeError: 'NoneType' object has no attribute 'get'"
  | Bool _ => Raise "AttributeError: 'bool' object has no attribute 'get'"
  | Num (Int _) => Raise "AttributeError: 'int' object has no attribute 'get'"
  | Num _ => Raise "AttributeError: 'float' object has no attribute 'get'"
  | Str _ => Raise "AttributeError: 'str' object has no attribute 'get'"
  | Arr _ => Raise "AttributeError: 'list' object has no attribute 'get'"
  end.

(** [x[0]]; the keys of a [dict] read from JSON are strings. *)
Definition item0 (x : value) : Outcome value :=
  match x with
  | Arr (v :: _) => Ok v
  | Arr [] => Raise "IndexError: list index out of range"
  | Str (String c _) => Ok (Str (String c EmptyString))
  | Str EmptyString => Raise "IndexError: string index out of range"
  | Obj _ => Raise "KeyError: 0"
  | _ => Raise "TypeError: object is not subscriptable"
  end.

(** [x.strip()]: only a [str] has the method. *)
Definition strip (x : value) : Outcome string :=
  match x with
  | Str s => Ok (Str.strip s)
  | _ => Raise "AttributeError: object has no attribute 'strip'"
  end.

End Json.

(** ** ai_client.py *)

Module AiClient.

Record AiConfig := mkAiConfig {
  api_key : string;
  base_url : string;
  model : string;
  temperature : Q;
  timeout_ms : Z;
  retry_count : Z;
  retry_interval_ms : Z
}.

Section Summarize.
Context {W : Type} (ses : Http.Session W).
Context (dumps : Json.value -> string)
        (loads : string -> Outcome Json.value).
Context (cfg : AiConfig).

(** Lines 26 and 27 *)
Definition clean (content : string) : string :=
  Str.take 4000 (Str.strip (Str.join " " (Text.split content))).

Definition messages (content : string) : Json.value :=
  Json.Arr
    [Json.Obj [("role", Json.Str "system");
               ("content", Json.Str "你是一个专业的招投标分析助手。")];
     Json.Obj [("role", Json.Str "user");
               ("content",
                Json.Str
                  ("请总结以下公告内容。" +:+ Text.nl +:+ Text.nl
                   +:+ "公告原文：" +:+ clean content +:+ Text.nl +:+ Text.nl
                   +:+ "要求：" +:+ Text.nl
                   +:+ "1. 提取项目名称、预算金额、截止日期、关键联系人（如有）。"
                   +:+ Text.nl
                   +:+ "2. 总结核心需求。" +:+ Text.nl
                   +:+ "3. 输出格式简洁，字数控制在200字以内。"))]].

Definition payload (content : string) : Json.value :=
  Json.Obj [("model", Json.Str (model cfg));
            ("messages", messages content);
            ("temperature", Json.Num (Json.Float (temperature cfg)))].

Definition headers : list (string * string) :=
  [("Authorization", "Bearer " +:+ api_key cfg);
   ("Content-Type", "application/json")].

Definition url : string :=
  Str.rstrip_char "/" (base_url cfg) +:+ "/chat/completions".

(** Lines 68 to 76: the second [try] statement. *)
Definition read_answer (data : Json.value) : M W string :=
  try_except
    (found <- lift_outcome (Json.get data "choices") ;;
     let choices := Json.or_ found (Json.Arr []) in
     if negb (Json.truthy choices) then ret Workflow.AI_FAILED
     else
       first <- lift_outcome (Json.item0 choices) ;;
       message <- lift_outcome (Json.get first "message") ;;
       let msg := Json.or_ message (Json.Obj []) in
       content <- lift_outcome (Json.get msg "content") ;;
       text <- lift_outcome (Json.strip (Json.or_ content (Json.Str ""))) ;;
       ret (if Str.truthy text then text else Workflow.AI_FAILED))
    (fun _ => ret Workflow.AI_FAILED).

(** [AiClient.summarize(content)] *)
Definition summarize (content : string) : M W string :=
  answer <- try_except
              (data <- HttpClient.post_json ses dumps loads url headers
                         (payload content) (timeout_ms cfg)
                         (retry_count cfg) (retry_interval_ms cfg) ;;
               ret (Some data))
              (fun _ => ret None) ;;
  match answer with
  | None => ret Workflow.AI_FAILED
  | Some data => read_answer data
  end.

End Summarize.

End AiClient.

(** ** feishu_client.py: the client *)

Module FeishuClient.

Record FeishuConfig := mkFeishuConfig {
  webhook_url : string;
  timeout_ms : Z;
  retry_count : Z;
  retry_interval_ms : Z
}.

(** [FeishuClient.send_card(card_payload)] *)
Definition send_card {W} (ses : Http.Session W)
           (dumps : Json.value -> string)
           (loads : string -> Outcome Json.value) (cfg : FeishuConfig)
           (card_payload : Json.value) : M W unit :=
  HttpClient.post_json ses dumps loads (webhook_url cfg)
    [("Content-Type", "application/json")] card_payload (timeout_ms cfg)
    (retry_count cfg) (retry_interval_ms cfg) ;;;
  ret tt.

(** [_digest_summary(text, max_len)] *)
Definition _digest_summary (text : string) (max_len : nat) : string :=
  let t := Str.strip (Text.replace_char "010" " " text) in
  if negb (Str.truthy t) then "(无摘要)"
  else if (String.length t <=? max_len)%nat then t
  else Str.rstrip (Str.take max_len t) +:+ "…".

End FeishuClient.

(** ** db.py: the lookups, and the [tasks] table *)

Module Database.

(** [get_run(run_id)] *)
Definition get_run (run_id : string) (db : Db.Database) : option Db.RunRow :=
  find (fun r => String.eqb (Db.run_id r) run_id) (Db.runs (Db._conn db)).

(** The unique index of the active strategy is in place and holds: two
    rows that agree on its columns are one row. *)
Definition strategy_key_unique (db : Db.Database) : Prop :=
  Db.has_index (Db.strategy_index db) db = true
  /\ forall r1 r2,
       In r1 (Db.announcements (Db._conn db)) ->
       In r2 (Db.announcements (Db._conn db)) ->
       Db.same_key (Db.strategy_index db) (Db.title r1) (Db.url r1)
         (Db.date r1) r2 = true ->
       Db.id r1 = Db.id r2.

(** The databases that a [Database] object leaves behind: [init_schema]
    has run, on whatever file it found, and then any of the methods that
    write, in any order. *)
Inductive served : Db.Database -> Prop :=
| served_init_schema db : served (Db.init_schema db)
| served_start_run rid now db :
    served db -> served (snd (Db.start_run rid now db))
| served_finish_run rid status_ finished duration processed new_ duplicate
                    err db :
    served db ->
    served (Db.finish_run rid status_ finished duration processed new_
              duplicate err db)
| served_insert t u d st now db :
    served db -> served (snd (Db.insert_announcement_base t u d st now db))
| served_update t c summary st now db :
    served db -> served (Db.update_announcement_detail t c summary st now db).

(** A row of [tasks]. *)
Record TaskRow := mkTaskRow {
  task_id : string;
  name : string;
  enabled : Z;
  schedule_type : string;
  cron_expr : option string;
  interval_seconds : option Z;
  config_json : string;
  created_at : string;
  updated_at : string
}.

(** What [get_task] returns: the columns, [enabled] as a [bool], and
    the decoded [config]. *)
Record Task := mkTask {
  row : TaskRow;
  is_enabled : bool;
  config : Json.value
}.

Section Tasks.
(** [json.dumps(config, ensure_ascii=False)] and [json.loads] *)
Context (dumps : Json.value -> string)
        (loads : string -> Outcome Json.value).

(** [get_task(task_id)] on the table [tasks]. *)
Definition get_task (tid : string) (tasks : list TaskRow) : option Task :=
  match find (fun r => String.eqb (task_id r) tid) tasks with
  | None => None
  | Some r =>
      Some (mkTask r (negb (enabled r =? 0))
              (match loads (if Str.truthy (config_json r)
                            then config_json r else "{}") with
               | Ok c => c
               | Raise _ => Json.Obj []
               end))
  end.

(** [upsert_task(...)] at time [now]: [INSERT ... ON CONFLICT(task_id)
    DO UPDATE SET] every column but [task_id] and [created_at]. *)
Definition upsert_task (tid name_ : string) (enabled_ : bool)
           (schedule_type_ : string) (cron_expr_ : option string)
           (interval_seconds_ : option Z) (config_ : Json.value)
           (now : string) (tasks : list TaskRow) : list TaskRow :=
  if existsb (fun r => String.eqb (task_id r) tid) tasks
  then map (fun r =>
              if String.eqb (task_id r) tid
              then mkTaskRow (task_id r) name_ (if enabled_ then 1 else 0)
                     schedule_type_ cron_expr_ interval_seconds_
                     (dumps config_) (created_at r) now
              else r)
           tasks
  else (tasks
        ++ [mkTaskRow tid name_ (if enabled_ then 1 else 0) schedule_type_
              cron_expr_ interval_seconds_ (dumps config_) now now])%list.

(** [set_task_enabled(task_id, enabled)] at time [now]. *)
Definition set_task_enabled (tid : string) (enabled_ : bool) (now : string)
           (tasks : list TaskRow) : list TaskRow :=
  map (fun r =>
         if String.eqb (task_id r) tid
         then mkTaskRow (task_id r) (name r) (if enabled_ then 1 else 0)
                (schedule_type r) (cron_expr r) (interval_seconds r)
                (config_json r) (created_at r) now
         else r)
      tasks.

(** [delete_task(task_id)] *)
Definition delete_task (tid : string) (tasks : list TaskRow)
  : list TaskRow :=
  List.filter (fun r => negb (String.eqb (task_id r) tid)) tasks.

End Tasks.

End Database.

(** ** Vocabulary of the statements about the calls of a run *)

Module Calls.

(** Every call that the computation adds to the trace satisfies [P],
    whether it returns or raises. *)
Definition only {W A} (P : Workflow.Event -> Prop)
           (m : M (Workflow.State W) A) : Prop :=
  forall s, exists evs,
    Workflow.trace (snd (m s)) = (Workflow.trace s ++ evs)%list
    /\ Forall P evs.

(** The kind of card that the notify mode sends: a card per item in
    the mode [per_item], digest cards in the mode [digest], the summary
    card of a run in every mode but [digest]; the error card in every
    mode. *)
Definition card_fits (cfg : Workflow.Config) (c : Workflow.Card) : Prop :=
  match c with
  | Workflow.build_new_item_card _ _ _ _ =>
      String.eqb (Workflow.feishu_notify_mode cfg) "per_item" = true
  | Workflow.build_digest_card _ _ _ _ _ _ _ _ _ _ _ _ _ =>
      String.eqb (Workflow.feishu_notify_mode cfg) "digest" = true
  | Workflow.build_summary_card _ _ _ _ _ =>
      String.eqb (Workflow.feishu_notify_mode cfg) "digest" = false
  | Workflow.build_error_card _ _ => True
  end.

(** What the switches of the configuration permit: a page is fetched
    only without fixtures, an announcement is written only outside a dry
    run, and a card is sent only with a webhook, of the kind of the
    notify mode. *)
Definition allowed (cfg : Workflow.Config) (e : Workflow.Event) : Prop :=
  match e with
  | Workflow.EvFetch _ => Workflow.use_test_fixtures cfg = false
  | Workflow.EvInsert _ _ _ _
  | Workflow.EvUpdateDetail _ _ _ _ => Workflow.dry_run cfg = false
  | Workflow.EvFinishRun _ _ _ _ _ _ => True
  | Workflow.EvSendCard c =>
      Workflow.feishu_on cfg = true /\ card_fits cfg c
  end.

(** A computation that counts at most [n] items as processed, and
    exactly [n] when it returns. *)
Definition adds {W A} (n : Z) (m : M (Workflow.State W) A) : Prop :=
  forall s,
    Workflow.total_processed s <= Workflow.total_processed (snd (m s))
    <= Workflow.total_processed s + n
    /\ (forall a, fst (m s) = Ok a ->
                  Workflow.total_processed (snd (m s))
                  = Workflow.total_processed s + n).

(** The iterations that the loop over [n] candidates makes from index
    [idx] on under the cap [max_items] ([0]: no cap). *)
Definition planned (max_items idx : Z) (n : nat) : Z :=
  if max_items =? 0 then Z.of_nat n
  else Z.max 0 (Z.min (Z.of_nat n) (max_items - idx)).

(** A computation that keeps the delay between two items within [J],
    whether it returns or raises. *)
Definition delay_in {W A} (J : Q -> Prop) (m : M (Workflow.State W) A)
  : Prop :=
  forall s, J (Workflow.current_delay s) ->
            J (Workflow.current_delay (snd (m s))).

(** A computation that returns from every state. *)
Definition succeeds {S A} (m : M S A) : Prop :=
  forall s, exists a s', m s = (Ok a, s').

(** The items a digest card lists. *)
Definition card_items (c : Workflow.Card) : list Workflow.NewItem :=
  match c with
  | Workflow.build_digest_card _ _ _ _ _ _ items _ _ _ _ _ _ => items
  | _ => []
  end.

(** Digest cards whose ranges follow one another from [offset] on: each
    card is numbered from the item after the last one of the card
    before to its own last item, out of [total]. *)
Fixpoint numbered (offset total : nat) (cards : list Workflow.Card) : Prop :=
  match cards with
  | [] => True
  | Workflow.build_digest_card _ _ _ _ _ _ items _ _ _ range_start range_end
      total_items :: rest =>
      range_start = Z.of_nat offset + 1
      /\ range_end = Z.of_nat (offset + length items)
      /\ total_items = Z.of_nat total
      /\ numbered (offset + length items) total rest
  | _ :: _ => False
  end.

(** The collaborators [E] with another AI client. *)
Definition with_ai {W} (E : Workflow.Env W) (summarize : string -> M W string)
  : Workflow.Env W :=
  Workflow.mkEnv W
    (Workflow.http_get_text E) (Workflow.parse_list_page E)
    (Workflow.parse_notice_list_page E) (Workflow.parse_zcpt_list_page E)
    (Workflow.parse_category_links E) (Workflow.parse_next_page_url E)
    (Workflow.extract_detail_content E) (Workflow._zcpt_next_page_url E)
    (Workflow._read_fixture E) summarize (Workflow.build_fallback_summary E)
    (Workflow.feishu_send_card E) (Workflow.clock_now E)
    (Workflow.elapsed_seconds E) (Workflow.uuid4 E) (Workflow.time_sleep E)
    (Workflow.format_exc E) (Workflow.re_compile E) (Workflow.urljoin E)
    (Workflow.db_sync E).

(** Two computations that do the same from every state. *)
Definition same {S A} (m m' : M S A) : Prop := forall s, m s = m' s.

(** The title of an announcement that a call writes. *)
Definition written_title (e : Workflow.Event) : option string :=
  match e with
  | Workflow.EvInsert title _ _ _
  | Workflow.EvUpdateDetail title _ _ _ => Some title
  | _ => None
  end.

(** The keyword pattern of the configuration compiles, and finds a
    match in the title. *)
Definition keyword_found {W} (E : Workflow.Env W) (cfg : Workflow.Config)
           (title : string) : Prop :=
  exists keyword_re,
    Workflow.re_compile E (Workflow.keyword_regex cfg) = Ok keyword_re
    /\ Re.search keyword_re title = true.

(** A call that writes an announcement writes one that the keyword
    pattern finds. *)
Definition writes_found {W} (E : Workflow.Env W) (cfg : Workflow.Config)
           (e : Workflow.Event) : Prop :=
  match written_title e with
  | Some title => keyword_found E cfg title
  | None => True
  end.

Definition is_write (e : Workflow.Event) : bool :=
  match e with
  | Workflow.EvInsert _ _ _ _ | Workflow.EvUpdateDetail _ _ _ _ => true
  | _ => false
  end.

Definition is_fetch (e : Workflow.Event) : bool :=
  match e with Workflow.EvFetch _ => true | _ => false end.

Definition is_card (e : Workflow.Event) : bool :=
  match e with Workflow.EvSendCard _ => true | _ => false end.

End Calls.

(** ** logger.py *)

Module Logger.

Record Logger := mkLogger {
  enabled : bool;
  json_mode : bool;
  level : string
}.

(** [_level_value()] *)
Definition _level_value (l : Logger) : Z :=
  let v := Str.lower (Str.strip (if Str.truthy (level l) then level l
                                 else "info")) in
  if String.eqb v "debug" then 10
  else if String.eqb v "info" then 20
  else if String.eqb v "warn" then 30
  else if String.eqb v "warning" then 30
  else if String.eqb v "error" then 40
  else 20.

(** The dictionary of [_should_emit]; a missing key is a [KeyError]. *)
Definition severity (level : string) : Outcome Z :=
  if String.eqb level "DEBUG" then Ok 10
  else if String.eqb level "INFO" then Ok 20
  else if String.eqb level "WARN" then Ok 30
  else if String.eqb level "ERROR" then Ok 40
  else Raise ("KeyError: " +:+ level).

(** [_should_emit(level)] *)
Definition _should_emit (l : Logger) (level : string) : Outcome bool :=
  if negb (enabled l) then Ok false
  else match severity level with
       | Ok n => Ok (_level_value l <=? n)
       | Raise e => Raise e
       end.

End Logger.

(** ** web/task_scheduler.py: the output kept of a task *)

Module TaskScheduler.

(** [TaskRuntime], without the process handle. *)
Record TaskRuntime := mkTaskRuntime {
  task_id : string;
  running : bool;
  last_status : string;
  last_started_at : option Q;
  last_finished_at : option Q;
  last_exit_code : option Z;
  lines : list string
}.

(** [l[-n:]] for a positive [n]. *)
Definition last_lines (n : nat) (l : list string) : list string :=
  skipn (length l - n) l.

(** [_append_line(task_id, line)] on the dictionary [_runtime]. *)
Definition _append_line (tid line : string)
           (_runtime : gmap string TaskRuntime) : gmap string TaskRuntime :=
  match _runtime !! tid with
  | None => _runtime
  | Some rt =>
      let appended := (lines rt ++ [line])%list in
      <[tid := mkTaskRuntime (task_id rt) (running rt) (last_status rt)
                 (last_started_at rt) (last_finished_at rt)
                 (last_exit_code rt)
                 (if (2000 <? length appended)%nat
                  then last_lines 2000 appended else appended)]> _runtime
  end.

End TaskScheduler.

(** ** config.py *)

Module Config.

(** [_parse_bool(value, default)] *)
Definition _parse_bool (value : option string) (default : bool) : bool :=
  match value with
  | None => default
  | Some value =>
      let v := Str.lower (Str.strip value) in
      if existsb (String.eqb v) ["1"; "true"; "t"; "yes"; "y"; "on"]
      then true
      else if existsb (String.eqb v) ["0"; "false"; "f"; "no"; "n"; "off"]
           then false
      else default
  end.

(** [Config], with the floats in a type [F]. *)
Record Config (F : Type) := mkConfig {
  list_url : string;
  base_url : string;
  user_agent : string;
  db_path : string;
  dedupe_strategy : string;
  run_id_override : option string;
  keyword_regex : string;
  days_lookback : Z;
  loop_delay_seconds : F;
  max_items_per_run : Z;
  http_timeout_ms : Z;
  http_retry_count : Z;
  http_retry_interval_ms : Z;
  ai_api_key : string;
  ai_base_url : string;
  ai_model : string;
  ai_temperature : F;
  ai_timeout_ms : Z;
  ai_retry_count : Z;
  ai_retry_interval_ms : Z;
  feishu_webhook_url : option string;
  zcpt_relay_base_url : option string;
  zcpt_relay_token : option string;
  feishu_notify_mode : string;
  feishu_card_image_url : option string;
  dry_run : bool;
  ai_disabled : bool;
  use_test_fixtures : bool;
  log_json : bool;
  log_level : string;
  keywords_label : option string;
  webui_public_url : option string;
  adaptive_delay_threshold_pages : Z;
  batch_size : Z;
  delay_increment_seconds : F;
  max_loop_delay_seconds : F;
  max_pages_total : Z;
  max_pages_per_category : Z
}.
Arguments mkConfig {F}.
Arguments run_id_override {F}.
Arguments days_lookback {F}.
Arguments ai_api_key {F}.
Arguments feishu_webhook_url {F}.
Arguments zcpt_relay_base_url {F}.
Arguments zcpt_relay_token {F}.
Arguments feishu_notify_mode {F}.
Arguments feishu_card_image_url {F}.
Arguments dry_run {F}.
Arguments ai_disabled {F}.
Arguments keywords_label {F}.
Arguments webui_public_url {F}.
Arguments adaptive_delay_threshold_pages {F}.
Arguments batch_size {F}.
Arguments max_pages_total {F}.
Arguments max_pages_per_category {F}.

Section FromEnv.
Context {F : Type}.
(** [int(value)] and [float(value)] on a string; [None] is the
    [ValueError]. *)
Context (int_ : string -> option Z) (float_ : string -> option F).
(** [os.environ] *)
Context (environ : gmap string string).

(** [_parse_int(value, default)] *)
Definition _parse_int (value : option string) (default : Z) : Z :=
  match value with
  | None => default
  | Some value =>
      match int_ value with
      | Some n => n
      | None => default
      end
  end.

(** [os.environ.get(key, default)] *)
Definition get (key default : string) : string :=
  match environ !! key with
  | Some v => v
  | None => default
  end.

(** [(os.environ.get(key) or "").strip() or None] *)
Definition stripped (key : string) : option string :=
  let s := Str.strip (get key "") in
  if Str.truthy s then Some s else None.

(** [float(os.environ.get(key, default))] *)
Definition float_of (key default : string) : Outcome F :=
  match float_ (get key default) with
  | Some x => Ok x
  | None => Raise "ValueError: could not convert string to float"
  end.

(** Lines 96 to 98 *)
Definition feishu_webhook : option string :=
  match environ !! "FEISHU_WEBHOOK_URL" with
  | Some w =>
      if Str.truthy w
      then (if Str.truthy (Str.strip w) then Some (Str.strip w) else None)
      else Some w
  | None => None
  end.

(** Lines 100 to 104 *)
Definition notify_mode : string :=
  let m := Str.lower (Str.strip
                        (match environ !! "FEISHU_NOTIFY_MODE" with
                         | Some m => if Str.truthy m then m else "digest"
                         | None => "digest"
                         end)) in
  if String.eqb m "digest" || String.eqb m "per_item" then m else "digest".

(** [Config.from_env()] *)
Definition from_env : Outcome (Config F) :=
  let dry_run_ := _parse_bool (environ !! "DRY_RUN") false in
  let ai_disabled_ := _parse_bool (environ !! "AI_DISABLED") false in
  let ai_api_key_ := Str.strip (get "AI_API_KEY" "") in
  if negb (Str.truthy ai_api_key_) && negb (dry_run_ || ai_disabled_)
  then Raise ("RuntimeError: AI_API_KEY is required "
              +:+ "(unless DRY_RUN=true or AI_DISABLED=true)")
  else
    match float_of "LOOP_DELAY" "1" with
    | Raise e => Raise e
    | Ok loop_delay =>
    match float_of "AI_TEMPERATURE" "0.5" with
    | Raise e => Raise e
    | Ok temperature =>
    match float_of "DELAY_INCREMENT_SECONDS" "1" with
    | Raise e => Raise e
    | Ok increment =>
    match float_of "MAX_LOOP_DELAY_SECONDS" "10" with
    | Raise e => Raise e
    | Ok max_delay =>
        Ok (mkConfig
              (get "LIST_URL"
                 "https://zcpt.zgpmsm.com.cn/jyxx/sec_listjyxx.html")
              (get "BASE_URL" "https://zcpt.zgpmsm.com.cn")
              (get "USER_AGENT"
                 ("Mozilla/5.0 (Windows NT 10.0; Win64; x64) "
                  +:+ "Chrome/120.0.0.0 Safari/537.36"))
              (get "DB_PATH" "data/zhaocai.db")
              (get "DEDUPE_STRATEGY" "title")
              (stripped "RUN_ID_OVERRIDE")
              (get "KEYWORD_REGEX" "(系统|软件|平台|大数据|AI|采购|招标)")
              (Z.max 1 (_parse_int (environ !! "DAYS_LOOKBACK") 2))
              loop_delay
              (_parse_int (environ !! "MAX_ITEMS_PER_RUN") 50)
              (_parse_int (environ !! "HTTP_TIMEOUT_MS") 30000)
              (_parse_int (environ !! "HTTP_RETRY_COUNT") 3)
              (_parse_int (environ !! "HTTP_RETRY_INTERVAL_MS") 2000)
              ai_api_key_
              (get "AI_BASE_URL" "https://api.yuweixun.site/v1")
              (get "AI_MODEL" "llama-3.3-70b-versatile")
              temperature
              (_parse_int (environ !! "AI_TIMEOUT_MS") 60000)
              (_parse_int (environ !! "AI_RETRY_COUNT") 2)
              (_parse_int (environ !! "AI_RETRY_INTERVAL_MS") 3000)
              feishu_webhook
              (stripped "ZCPT_RELAY_BASE_URL")
              (stripped "ZCPT_RELAY_TOKEN")
              notify_mode
              (stripped "FEISHU_CARD_IMAGE_URL")
              dry_run_ ai_disabled_
              (_parse_bool (environ !! "USE_TEST_FIXTURES") false)
              (_parse_bool (environ !! "LOG_JSON") false)
              (get "LOG_LEVEL" "info")
              (stripped "KEYWORDS_LABEL")
              (stripped "WEBUI_PUBLIC_URL")
              (Z.max 0 (_parse_int
                          (environ !! "ADAPTIVE_DELAY_THRESHOLD_PAGES") 10))
              (Z.max 1 (_parse_int (environ !! "BATCH_SIZE") 50))
              increment max_delay
              (Z.max 1 (_parse_int (environ !! "MAX_PAGES_TOTAL") 200))
              (Z.max 1 (_parse_int
                          (environ !! "MAX_PAGES_PER_CATEGORY") 50)))
    end end end end.

End FromEnv.

End Config.

(** ** Examples *)

Module Cases.

(** A server that answers 503 to its first [busy] requests and the page
    afterwards; the state counts the requests received. *)
Definition flaky (busy : nat) : Http.Session nat :=
  {| Http.session_get := fun _ _ n =>
       (Ok (if (n <? busy)%nat then Http.mkResponse 503 "busy"
            else Http.mkResponse 200 "page"), S n);
     Http.session_post := fun _ _ _ _ n =>
       (Ok (if (n <? busy)%nat then Http.mkResponse 503 "busy"
            else Http.mkResponse 200 "{}"), S n);
     Http.sleep := fun _ n => (Ok tt, n) |}.

(** A gateway whose first [bad] answers are an HTML page, with a
    decoder that knows the one JSON body it sends afterwards. *)
Definition gateway (bad : nat) : Http.Session nat :=
  {| Http.session_get := fun _ _ n => (Raise "ConnectionError", S n);
     Http.session_post := fun _ _ _ _ n =>
       (Ok (Http.mkResponse 200 (if (n <? bad)%nat then "<html>" else "{}")),
        S n);
     Http.sleep := fun _ n => (Ok tt, n) |}.

Definition decode (body : string) : Outcome Json.value :=
  if String.eqb body "{}" then Ok (Json.Obj [])
  else Raise "JSONDecodeError".

Definition encode (v : Json.value) : string := "{}".

Definition patient : Http.HttpConfig := Http.mkHttpConfig "pytest" 1000 3 500.
Definition hasty : Http.HttpConfig := Http.mkHttpConfig "pytest" 1000 3 (-1).

(** The example configuration as a dry run, on fixtures, and with a
    webhook in the mode [per_item]. *)
Definition dry : Workflow.Config :=
  Workflow.mkConfig "https://site/list" "https://site" "title" None "AI"
    2 0 50 None "digest" None true true false None None 10 50 1 10 2 3.

Definition on_fixtures : Workflow.Config :=
  Workflow.mkConfig "https://site/list" "https://site" "title" None "AI"
    2 0 50 None "digest" None false true true None None 10 50 1 10 2 3.

Definition notifying : Workflow.Config :=
  Workflow.mkConfig "https://site/list" "https://site" "title" None "AI"
    2 0 50 (Some "https://hook") "per_item" None false true false None None
    10 50 1 10 2 3.

(** The example site with the two fixture files in place. *)
Definition with_fixtures : Workflow.Env nat :=
  Workflow.mkEnv nat
    Scenario.get Scenario.list_page Scenario.notice_page Scenario.zcpt_page
    Scenario.category_links Scenario.next_page
    (fun html => Ok ("content of " +:+ html))
    (fun _ _ => None)
    (fun name => ret (if String.eqb name "sample_list.html" then "START"
                      else "D1"))
    (fun _ => raise "ConnectionError")
    (fun title _ => Ok ("summary of " +:+ title))
    (fun _ => ret tt)
    (ret Scenario.clock) (ret 3) (ret "run-1") (fun _ => ret tt)
    (fun _ => "Traceback")
    Scenario.compile
    (fun base link => Str.rstrip_char "/" base +:+ link)
    (Scenario.sync None None).

(** A run that has buffered twelve new items for its digest. *)
Definition buffered : Workflow.State nat :=
  Workflow.mkState 0%nat (Scenario.fresh_db "title") [] 12 12 0 []
    (map (fun n => Workflow.mkNewItem "AI tender" "2026-02-01" "summary"
                     (String (Str.digit_chr (Z.of_nat n)) ""))
         (seq 0 12))
    0.

Definition digesting : Workflow.Config :=
  Workflow.mkConfig "https://site/list" "https://site" "title" None "AI"
    2 0 50 (Some "https://hook") "digest" None false true false None None
    10 50 1 10 2 3.

(** The example configuration with a keyword pattern that does not
    compile, and what [run_once] holds when its [try] statement
    starts. *)
Definition bad_pattern : Workflow.Config :=
  Workflow.mkConfig "https://site/list" "https://site" "title" None "("
    2 0 50 None "digest" None false true false None None 10 50 1 10 2 3.

Definition recent : TimeUtils.RecentDays :=
  TimeUtils.mkRecent "2026-02-01" "2026-01-31" "2026-02-01T09:00:00+08:00".

Definition run : string * string := ("run-1", "2026-02-01T09:00:00+08:00").

(** An environment for a dry run with a batch size of zero, read with
    an [int] that knows the one number and a [float] that knows none. *)
Definition environ : gmap string string :=
  <["DRY_RUN" := " True "]> (<["BATCH_SIZE" := "0"]> ∅).

Definition to_int (s : string) : option Z :=
  if String.eqb s "0" then Some 0 else None.

Definition to_float (s : string) : option string := Some s.

End Cases.

(** * Properties *)

(** ** Strings *)

Lemma digit_not_space c : Str.is_digit c = true -> Str.is_space c = false.
Proof.
  unfold Str.is_digit, Str.is_space. intros H.
  apply andb_prop in H as [H1 H2].
  apply Nat.leb_le in H1. apply Nat.leb_le in H2.
  repeat match goal with
         | |- context [(?a <=? ?b)%nat] => destruct (Nat.leb_spec a b)
         | |- context [(?a =? ?b)%nat] => destruct (Nat.eqb_spec a b)
         end; simpl; try reflexivity; lia.
Qed.

Lemma digit_neq c x :
  Str.is_digit x = false -> Str.is_digit c = true -> Ascii.eqb c x = false.
Proof.
  intros Hx Hc. destruct (Ascii.eqb_spec c x); [congruence | reflexivity].
Qed.

Lemma rstrip_id s : Shape.ends_clean s = true -> Str.rstrip s = s.
Proof.
  induction s as [| c s IH]; simpl; [reflexivity |].
  destruct s as [| c' s'].
  - simpl. intros H. apply negb_true_iff in H. now rewrite H.
  - intros H. rewrite (IH H). reflexivity.
Qed.

Lemma rstrip_ends_clean s : Shape.ends_clean (Str.rstrip s) = true.
Proof.
  induction s as [| c s IH]; simpl; [reflexivity |].
  destruct (Str.rstrip s) as [| c' r] eqn:Hr.
  - destruct (Str.is_space c) eqn:Hc; simpl; [reflexivity | now rewrite Hc].
  - exact IH.
Qed.

Lemma strip_ends_clean s : Shape.ends_clean (Str.strip s) = true.
Proof. apply rstrip_ends_clean. Qed.

Lemma strip_id c s :
  Str.is_space c = false -> Shape.ends_clean (String c s) = true ->
  Str.strip (String c s) = String c s.
Proof.
  intros Hc He. unfold Str.strip. simpl Str.lstrip. rewrite Hc.
  now apply rstrip_id.
Qed.

Lemma lstrip_all_space s : Shape.all_space s = true -> Str.lstrip s = "".
Proof.
  unfold Shape.all_space. induction s as [| c s IH]; simpl; [reflexivity |].
  intros H. apply andb_prop in H as [Hc Hs]. rewrite Hc. now apply IH.
Qed.

Lemma remove_char_absent c s :
  forallb (fun a => negb (Ascii.eqb a c)) (Str.chars s) = true ->
  Str.remove_char c s = s.
Proof.
  induction s as [| a s IH]; simpl; [reflexivity |].
  intros H. apply andb_prop in H as [Ha Hs].
  apply negb_true_iff in Ha. rewrite Ha. now rewrite IH.
Qed.

Lemma all_digits_cons c l :
  Date.all_digits (c :: l) = true ->
  Str.is_digit c = true /\ Date.all_digits l = true.
Proof. unfold Date.all_digits. simpl. apply andb_prop. Qed.

Ltac digits H :=
  repeat (apply all_digits_cons in H;
          let D := fresh "D" in destruct H as [D H]).

Ltac no_char c :=
  rewrite (remove_char_absent c);
  [| simpl;
     repeat match goal with
            | D : Str.is_digit ?a = true |- context [Ascii.eqb ?a ?x] =>
                rewrite (digit_neq a x) by (reflexivity || assumption)
            | H : Ascii.eqb _ _ = false |- _ => rewrite H
            end;
     reflexivity ].

Ltac strip_same d :=
  rewrite strip_id;
  [| now apply digit_not_space | simpl; now rewrite (digit_not_space d) ].

Lemma bare_ymd sep y1 y2 y3 y4 m1 m2 d1 d2 :
  Ascii.eqb sep "[" = false -> Ascii.eqb sep "]" = false ->
  Date.all_digits [y1; y2; y3; y4; m1; m2; d1; d2] = true ->
  Shape.bare (Shape.ymd sep y1 y2 y3 y4 m1 m2 d1 d2)
  = Shape.ymd sep y1 y2 y3 y4 m1 m2 d1 d2.
Proof.
  intros Hs3 Hs4 H. digits H.
  unfold Shape.bare, Shape.ymd, Str.of_chars. simpl string_of_list_ascii.
  strip_same d2. no_char "["%char. no_char "]"%char. strip_same d2. reflexivity.
Qed.

Lemma bare_md m1 m2 d1 d2 :
  Date.all_digits [m1; m2; d1; d2] = true ->
  Shape.bare (Shape.md m1 m2 d1 d2) = Shape.md m1 m2 d1 d2.
Proof.
  intros H. digits H.
  unfold Shape.bare, Shape.md, Str.of_chars. simpl string_of_list_ascii.
  strip_same d2. no_char "["%char. no_char "]"%char. strip_same d2. reflexivity.
Qed.


Lemma app_cons c a b : String c a +:+ b = String c (a +:+ b).
Proof. reflexivity. Qed.

Lemma app_empty_l s : "" +:+ s = s.
Proof. reflexivity. Qed.

Lemma app_empty_r s : s +:+ "" = s.
Proof.
  induction s as [| c s IH]; [reflexivity | now rewrite app_cons, IH].
Qed.

Lemma remove_char_app c a b :
  Str.remove_char c (a +:+ b) = Str.remove_char c a +:+ Str.remove_char c b.
Proof.
  induction a as [| x a IH]; [reflexivity |].
  rewrite app_cons. simpl. rewrite IH.
  destruct (Ascii.eqb x c); reflexivity.
Qed.

Lemma ends_clean_snoc a c :
  Shape.ends_clean (a +:+ String c "") = negb (Str.is_space c).
Proof.
  induction a as [| x a IH]; [reflexivity |].
  rewrite app_cons. simpl.
  destruct (a +:+ String c "") eqn:Ha; [| exact IH].
  destruct a; discriminate.
Qed.

(** Brackets around a bare date leave the date behind. *)
Lemma bare_wrapped s :
  forallb (fun a => negb (Ascii.eqb a "[")) (Str.chars s) = true ->
  forallb (fun a => negb (Ascii.eqb a "]")) (Str.chars s) = true ->
  Str.strip s = s ->
  Shape.bare ("[" +:+ s +:+ "]") = s.
Proof.
  intros H1 H2 H3. unfold Shape.bare.
  change ("[" +:+ s +:+ "]") with (String "[" (s +:+ "]")).
  rewrite strip_id; [| reflexivity |].
  - change (String "[" (s +:+ "]")) with ("[" +:+ (s +:+ "]")).
    rewrite !remove_char_app.
    rewrite (remove_char_absent "[" s H1), (remove_char_absent "]" s H2).
    simpl. rewrite app_empty_l, app_empty_r. exact H3.
  - destruct s as [| c s]; [reflexivity |].
    change (Shape.ends_clean (String c s +:+ "]") = true).
    now rewrite ends_clean_snoc.
Qed.

(** ** time_utils.py: [normalize_date] *)

Lemma normalize_date_bare s now :
  TimeUtils.normalize_date s now =
  let b := Shape.bare s in
  if negb (Str.truthy b) then None
  else match TimeUtils._RE_YYYY_MM_DD b with
       | Some _ => Some b
       | None =>
           match TimeUtils._RE_YYYY_MM_DD_SLASH b with
           | Some (y, mm, dd) => Some (y +:+ "-" +:+ mm +:+ "-" +:+ dd)
           | None =>
               match TimeUtils._RE_MM_DD b with
               | Some (mm, dd) =>
                   Some (Date.pad4 (TimeUtils.dt_year now)
                         +:+ "-" +:+ mm +:+ "-" +:+ dd)
               | None => None
               end
           end
       end.
Proof. reflexivity. Qed.

Lemma chars_inv b l : Str.chars b = l -> b = Str.of_chars l.
Proof.
  intros <-. unfold Str.of_chars, Str.chars.
  now rewrite string_of_list_ascii_of_string.
Qed.

Lemma match_sep3_ymd sep y1 y2 y3 y4 m1 m2 d1 d2 :
  Date.all_digits [y1; y2; y3; y4; m1; m2; d1; d2] = true ->
  TimeUtils.match_sep3 sep (Shape.ymd sep y1 y2 y3 y4 m1 m2 d1 d2)
  = Some (Str.of_chars [y1; y2; y3; y4], Str.of_chars [m1; m2],
          Str.of_chars [d1; d2]).
Proof.
  intros H. unfold TimeUtils.match_sep3, Shape.ymd, Str.of_chars, Str.chars.
  rewrite list_ascii_of_string_of_list_ascii.
  rewrite H, Ascii.eqb_refl. reflexivity.
Qed.

Lemma match_sep3_other sep sep' y1 y2 y3 y4 m1 m2 d1 d2 :
  Ascii.eqb sep' sep = false ->
  TimeUtils.match_sep3 sep (Shape.ymd sep' y1 y2 y3 y4 m1 m2 d1 d2) = None.
Proof.
  intros H. unfold TimeUtils.match_sep3, Shape.ymd, Str.of_chars, Str.chars.
  rewrite list_ascii_of_string_of_list_ascii.
  rewrite H, !andb_false_r. reflexivity.
Qed.

Lemma match_sep3_inv sep b g :
  Shape.ends_clean b = true ->
  TimeUtils.match_sep3 sep b = Some g -> Shape.is_ymd sep b.
Proof.
  intros Hc. unfold TimeUtils.match_sep3.
  destruct (Str.chars b)
    as [| y1 [| y2 [| y3 [| y4 [| s1 [| m1 [| m2 [| s2 [| d1 [| d2 [| nl [| ? ?]]]]]]]]]]]]
    eqn:Hb; try discriminate.
  - destruct (Date.all_digits _) eqn:Hd; [| discriminate].
    destruct (Ascii.eqb_spec s1 sep) as [-> |]; [| discriminate].
    destruct (Ascii.eqb_spec s2 sep) as [-> |]; [| discriminate].
    intros _. exists y1, y2, y3, y4, m1, m2, d1, d2.
    split; [exact Hd | now apply chars_inv].
  - destruct (Date.all_digits _) eqn:Hd; [| discriminate].
    destruct (Ascii.eqb_spec s1 sep) as [-> |]; [| discriminate].
    destruct (Ascii.eqb_spec s2 sep) as [-> |]; [| discriminate].
    destruct (Ascii.eqb_spec nl "010") as [-> |]; [| discriminate].
    apply chars_inv in Hb. subst b. discriminate Hc.
Qed.

Lemma match_md_shape m1 m2 d1 d2 :
  Date.all_digits [m1; m2; d1; d2] = true ->
  TimeUtils._RE_MM_DD (Shape.md m1 m2 d1 d2)
  = Some (Str.of_chars [m1; m2], Str.of_chars [d1; d2]).
Proof.
  intros H. unfold TimeUtils._RE_MM_DD, Shape.md, Str.of_chars, Str.chars.
  rewrite list_ascii_of_string_of_list_ascii.
  rewrite H. reflexivity.
Qed.

Lemma match_md_inv b g :
  Shape.ends_clean b = true ->
  TimeUtils._RE_MM_DD b = Some g -> Shape.is_md b.
Proof.
  intros Hc. unfold TimeUtils._RE_MM_DD.
  destruct (Str.chars b)
    as [| m1 [| m2 [| s1 [| d1 [| d2 [| nl [| ? ?]]]]]]] eqn:Hb;
    try discriminate.
  - destruct (Date.all_digits _) eqn:Hd; [| discriminate].
    destruct (Ascii.eqb_spec s1 "-") as [-> |]; [| discriminate].
    intros _. exists m1, m2, d1, d2.
    split; [exact Hd | now apply chars_inv].
  - destruct (Date.all_digits _) eqn:Hd; [| discriminate].
    destruct (Ascii.eqb_spec s1 "-") as [-> |]; [| discriminate].
    destruct (Ascii.eqb_spec nl "010") as [-> |]; [| discriminate].
    apply chars_inv in Hb. subst b. discriminate Hc.
Qed.

Lemma match_sep3_md sep m1 m2 d1 d2 :
  TimeUtils.match_sep3 sep (Shape.md m1 m2 d1 d2) = None.
Proof. reflexivity. Qed.

Lemma bare_ends_clean s : Shape.ends_clean (Shape.bare s) = true.
Proof. apply strip_ends_clean. Qed.




(** ** db.py *)

Lemma map_lookup {A B} (f : A -> B) (l : list A) (i : nat) :
  map f l !! i = option_map f (l !! i).
Proof.
  revert i. induction l as [| a l IH]; intros [| i]; simpl; auto.
Qed.

(** C10. [update_announcement_detail] selects by title alone: whatever the
    strategy, every row with the given title receives the new content,
    summary, status and update time and keeps its other columns; every
    other row, the indexes, the runs and the strategy are left as they
    were.  With the strategies [url] and [title_date] two announcements may
    share a title, and one update then rewrites both. *)
Theorem update_announcement_detail_by_title :
  (forall (db : Db.Database) (t c summary st now : string),
      let db' := Db.update_announcement_detail t c summary st now db in
      Db._dedupe_strategy db' = Db._dedupe_strategy db
      /\ Db.unique_indexes (Db._conn db') = Db.unique_indexes (Db._conn db)
      /\ Db.runs (Db._conn db') = Db.runs (Db._conn db)
      /\ length (Db.announcements (Db._conn db'))
         = length (Db.announcements (Db._conn db))
      /\ forall (i : nat) (r : Db.Row),
          Db.announcements (Db._conn db) !! i = Some r ->
          (Db.title r = t ->
           Db.announcements (Db._conn db') !! i
           = Some (Db.mkRow (Db.id r) (Db.title r) (Db.url r) (Db.date r)
                     (Some c) (Some summary) st (Db.source r)
                     (Db.created_at r) now))
          /\ (Db.title r <> t ->
              Db.announcements (Db._conn db') !! i = Some r))
  /\ (forall strategy,
         strategy = "url" \/ strategy = "title_date" ->
         fst (Scenario.first_insert strategy) = true
         /\ fst (Scenario.second_insert strategy) = true
         /\ map Db.url (Db.announcements
                          (Db._conn (Scenario.after_update strategy)))
            = ["http://example.com/a"; "http://example.com/b"]
         /\ map Db.status (Db.announcements
                             (Db._conn (snd (Scenario.second_insert strategy))))
            = ["NEW"; "NEW"]
         /\ map Db.status (Db.announcements
                             (Db._conn (Scenario.after_update strategy)))
            = ["FAILED"; "FAILED"]).
Proof.
  split.
  - intros db t c summary st now db'. subst db'.
    unfold Db.update_announcement_detail, Db.with_announcements. simpl.
    repeat split; try reflexivity.
    + apply length_map.
    + intros Ht. rewrite map_lookup, H. simpl.
      apply String.eqb_eq in Ht. now rewrite Ht.
    + intros Ht. rewrite map_lookup, H. simpl.
      apply String.eqb_neq in Ht. now rewrite Ht.
  - intros strategy [-> | ->]; vm_compute; repeat split; reflexivity.
Qed.

Lemma update_announcement_detail_by_title_witness :
  Db.announcements (Db._conn (Scenario.after_update "url")) !! 1%nat
  = Some (Db.mkRow 2 "same title" "http://example.com/b" "2026-01-31"
            (Some "") (Some Workflow.AI_FAILED) "FAILED" "zpzb.zgpmsm.cn"
            "2026-02-01T09:00:01+08:00" "2026-02-01T09:00:02+08:00").
Proof.
  destruct update_announcement_detail_by_title as [Hframe _].
  destruct (Hframe (snd (Scenario.second_insert "url")) "same title" ""
              Workflow.AI_FAILED "FAILED" "2026-02-01T09:00:02+08:00")
    as (_ & _ & _ & _ & Hrow).
  exact (proj1 (Hrow 1%nat
                  (Db.mkRow 2 "same title" "http://example.com/b" "2026-01-31"
                     None None "NEW" "zpzb.zgpmsm.cn"
                     "2026-02-01T09:00:01+08:00" "2026-02-01T09:00:01+08:00")
                  eq_refl) eq_refl).
Defined.

(** ** workflow.py: the de-duplication of the collected items *)

Lemma dedupe_keep_first (raw before out : list Workflow.Item) :
  Workflow.dedupe raw (list_to_set before) out
  = (out ++ Shape.keep_first before raw)%list.
Proof.
  revert before out. induction raw as [| key rest IH]; intros before out.
  - simpl. now rewrite app_nil_r.
  - simpl.
    assert (Hset : {[key]} ∪ list_to_set before
                   = (list_to_set (before ++ [key]) : gset Workflow.Item)).
    { rewrite list_to_set_app_L. simpl. set_solver. }
    destruct (bool_decide_reflect (key ∈ (list_to_set before : gset _)))
      as [Hin | Hnin].
    + rewrite bool_decide_eq_true_2 by (now apply elem_of_list_to_set in Hin).
      assert (Hsame : (list_to_set before : gset Workflow.Item)
                      = list_to_set (before ++ [key])).
      { rewrite <- Hset. set_solver. }
      rewrite Hsame. apply IH.
    + rewrite bool_decide_eq_false_2
        by (intros Hx; apply Hnin; now apply elem_of_list_to_set).
      rewrite Hset, IH. now rewrite <- app_assoc.
Qed.

Lemma keep_first_elem {A} `{EqDecision A} (before l : list A) (x : A) :
  x ∈ Shape.keep_first before l <-> x ∈ l /\ x ∉ before.
Proof.
  revert before. induction l as [| y l IH]; intros before; simpl.
  - split; [intros H; inversion H | intros [H _]; inversion H].
  - rewrite elem_of_app, IH, elem_of_cons, elem_of_app, list_elem_of_singleton.
    case_bool_decide as Hy.
    + split.
      * intros [Hx | [Hx Hn]]; [inversion Hx |]. split; [now right |].
        intros Hb. apply Hn. now left.
      * intros [[-> | Hx] Hn]; [contradiction |].
        right. split; [assumption |]. intros [Hb | ->]; contradiction.
    + split.
      * intros [Hx | [Hx Hn]].
        -- apply list_elem_of_singleton in Hx as ->. split; [now left | assumption].
        -- split; [now right |]. intros Hb. apply Hn. now left.
      * intros [[-> | Hx] Hn].
        -- left. now apply list_elem_of_singleton.
        -- destruct (decide (x = y)) as [-> | Hne].
           ++ left. now apply list_elem_of_singleton.
           ++ right. split; [assumption |]. intros [Hb | ->]; contradiction.
Qed.

Lemma keep_first_NoDup {A} `{EqDecision A} (before l : list A) :
  NoDup (Shape.keep_first before l).
Proof.
  revert before. induction l as [| y l IH]; intros before; simpl.
  - constructor.
  - case_bool_decide as Hy; simpl; [apply IH |].
    constructor; [| apply IH].
    rewrite keep_first_elem. intros [_ Hn]. apply Hn.
    apply elem_of_app. right. now apply list_elem_of_singleton.
Qed.

(** C9. The items the crawl returns are the raw items with every later
    copy of an equal [(title, link, date_raw)] triple removed: no triple
    occurs twice, every raw triple occurs, and the order is that of the
    first occurrences. *)
Theorem collected_items_first_seen {W} (E : Workflow.Env W)
        (cfg : Workflow.Config) (earliest_keep : Date.date)
        (s s' : Workflow.State W) (r : Workflow.ListCollectionResult) :
  Workflow.use_test_fixtures cfg = false ->
  Workflow._collect_list_items E cfg earliest_keep s = (Ok r, s') ->
  exists c : Workflow.Collect,
    Workflow.crawl E cfg earliest_keep s = (Ok c, s')
    /\ Workflow.items r = Shape.keep_first [] (Workflow.raw c)
    /\ NoDup (Workflow.items r)
    /\ (forall x, x ∈ Workflow.items r <-> x ∈ Workflow.raw c).
Proof.
  intros Hfix H. unfold Workflow._collect_list_items in H. rewrite Hfix in H.
  unfold bind in H.
  destruct (Workflow.crawl E cfg earliest_keep s) as [[c | e] s1] eqn:Hc;
    [| discriminate].
  unfold ret in H. injection H as <- <-.
  exists c. split; [reflexivity |]. cbn [Workflow.items].
  change (∅ : gset Workflow.Item) with (list_to_set [] : gset Workflow.Item).
  rewrite dedupe_keep_first. cbn [app].
  split; [reflexivity |]. split; [apply keep_first_NoDup |].
  intros x. rewrite keep_first_elem. split; [tauto |].
  intros Hx. split; [assumption |]. apply not_elem_of_nil.
Qed.

Lemma collected_items_first_seen_witness :
  exists c s' r,
    Workflow._collect_list_items (Scenario.site None None) Scenario.cfg
      Scenario.earliest_keep Scenario.start = (Ok r, s')
    /\ Workflow.raw c
       = [("AI platform tender", "/d1", "2026-02-01");
          ("AI lab upgrade", "/d2", "[2026/01/31]");
          ("AI platform tender", "/d1", "2026-02-01");
          ("Old notice", "/d5", "2020-01-01");
          ("AI chips", "/d3", "2026-02-01");
          ("Old AI item", "/d4", "2020-01-01");
          ("AI chips", "/d3", "2026-02-01");
          ("Stale notice", "/d6", "2019-01-01")]
    /\ Workflow.items r
       = [("AI platform tender", "/d1", "2026-02-01");
          ("AI lab upgrade", "/d2", "[2026/01/31]");
          ("Old notice", "/d5", "2020-01-01");
          ("AI chips", "/d3", "2026-02-01");
          ("Old AI item", "/d4", "2020-01-01");
          ("Stale notice", "/d6", "2019-01-01")]
    /\ NoDup (Workflow.items r).
Proof.
  destruct (Workflow._collect_list_items (Scenario.site None None) Scenario.cfg
              Scenario.earliest_keep Scenario.start) as [[r | e] s'] eqn:Hrun;
    [| vm_compute in Hrun; discriminate].
  destruct (collected_items_first_seen (Scenario.site None None) Scenario.cfg
              Scenario.earliest_keep Scenario.start s' r eq_refl Hrun)
    as (c & Hc & Hitems & Hnodup & _).
  exists c, s', r. split; [reflexivity |].
  assert (Hraw : Workflow.raw c
       = [("AI platform tender", "/d1", "2026-02-01");
          ("AI lab upgrade", "/d2", "[2026/01/31]");
          ("AI platform tender", "/d1", "2026-02-01");
          ("Old notice", "/d5", "2020-01-01");
          ("AI chips", "/d3", "2026-02-01");
          ("Old AI item", "/d4", "2020-01-01");
          ("AI chips", "/d3", "2026-02-01");
          ("Stale notice", "/d6", "2019-01-01")]).
  { vm_compute in Hc. injection Hc as <- _. reflexivity. }
  split; [exact Hraw |]. split; [| exact Hnodup].
  rewrite Hitems, Hraw. vm_compute. reflexivity.
Defined.

(** ** http_client.py *)

Lemma traced_get_attempt {W} (ses : Http.Session W) (cfg : Http.HttpConfig)
      (url : string) (w : W) (log : list Http.Request) :
  snd (snd (Http.get_attempt (Http.traced ses) cfg url (w, log)))
  = (log ++ [Http.GET url])%list.
Proof.
  unfold Http.get_attempt, bind. simpl.
  destruct (Http.session_get ses url _ w) as [[resp | e] w1]; simpl;
    [| reflexivity].
  unfold Http.raise_for_status.
  destruct ((400 <=? Http.status_code resp) && (Http.status_code resp <? 600));
    reflexivity.
Qed.

Lemma traced_sleep_ms {W} (ses : Http.Session W) (ms : Z) (w : W)
      (log : list Http.Request) :
  snd (snd (Http.sleep_ms (Http.traced ses) ms (w, log))) = log.
Proof.
  unfold Http.sleep_ms. destruct (ms <? 0); [reflexivity |].
  simpl. destruct (Http.sleep ses _ w) as [r w1]. reflexivity.
Qed.

Lemma traced_get_text_loop {W} (ses : Http.Session W) (cfg : Http.HttpConfig)
      (url : string) (n : nat) :
  forall (attempt : Z) (last_err : option string) (w : W)
         (log : list Http.Request),
  exists k : nat,
    snd (snd (Http.get_text_loop (Http.traced ses) cfg n attempt last_err url
                (w, log)))
    = (log ++ repeat (Http.GET url) k)%list.
Proof.
  induction n as [| n IH]; intros attempt last_err w log.
  - exists 0%nat. simpl. rewrite app_nil_r.
    destruct last_err; reflexivity.
  - cbn [Http.get_text_loop]. unfold try_except.
    pose proof (traced_get_attempt ses cfg url w log) as Hat.
    destruct (Http.get_attempt (Http.traced ses) cfg url (w, log))
      as [[t | e] [w1 log1]]; simpl in Hat; subst log1.
    + exists 1%nat. reflexivity.
    + unfold bind.
      assert (Hsl : forall m : M (W * list Http.Request) unit,
                 (m = Http.sleep_ms (Http.traced ses)
                        (Http.retry_interval_ms cfg) \/ m = ret tt) ->
                 snd (snd (m (w1, (log ++ [Http.GET url])%list)))
                 = (log ++ [Http.GET url])%list).
      { intros m [-> | ->]; [apply traced_sleep_ms | reflexivity]. }
      specialize (Hsl (if attempt <? Http.retry_count cfg
                       then Http.sleep_ms (Http.traced ses)
                              (Http.retry_interval_ms cfg)
                       else ret tt)).
      destruct ((if attempt <? Http.retry_count cfg
                 then Http.sleep_ms (Http.traced ses)
                        (Http.retry_interval_ms cfg)
                 else ret tt) (w1, (log ++ [Http.GET url])%list))
        as [[[] | e'] [w2 log2]] eqn:Hs.
      * simpl in Hsl.
        rewrite Hsl by (destruct (attempt <? Http.retry_count cfg); auto).
        destruct (IH (attempt + 1) (Some e) w2 (log ++ [Http.GET url])%list)
          as [k Hk].
        exists (S k). rewrite Hk. rewrite <- app_assoc. reflexivity.
      * simpl in Hsl.
        rewrite Hsl by (destruct (attempt <? Http.retry_count cfg); auto).
        exists 1%nat. reflexivity.
Qed.

(** C3, as the code has it.  [HttpConfig] declares no relay field, so the
    configuration of the relay test is refused with a [TypeError]; and
    [get_text] has one path: for every session, configuration and URL,
    each request it sends is a [GET] of that URL, never a [POST].  With the
    session of the relay test the URL on the relayed origin is answered
    "direct", where the test expects "via-relay". *)
Theorem get_text_never_relays :
  (exists e, Http.HttpConfig_init Scenario.relay_kwargs = Raise e)
  /\ (forall W (ses : Http.Session W) (cfg : Http.HttpConfig) (url : string)
             (w : W),
         Forall (fun r => r = Http.GET url)
           (snd (snd (Http.get_text (Http.traced ses) cfg url (w, [])))))
  /\ Http.get_text (Http.traced Scenario.fake_session)
       (Http.mkHttpConfig "pytest" 1000 1 0) Scenario.zcpt_url (tt, [])
     = (Ok "direct", (tt, [Http.GET Scenario.zcpt_url])).
Proof.
  split; [| split].
  - eexists. vm_compute. reflexivity.
  - intros W ses cfg url w. unfold Http.get_text.
    destruct (traced_get_text_loop ses cfg url
                (Z.to_nat (Http.retry_count cfg)) 1 None w []) as [k ->].
    simpl. apply Forall_forall. intros r Hr.
    apply list_elem_of_In in Hr. now apply repeat_spec in Hr.
  - vm_compute. reflexivity.
Qed.

(** ** Dates *)

Lemma date_ltb_lt a b :
  Date.ltb a b = true <->
  (Date.year a < Date.year b
   \/ (Date.year a = Date.year b
       /\ (Date.month a < Date.month b
           \/ (Date.month a = Date.month b /\ Date.day a < Date.day b)))).
Proof.
  unfold Date.ltb.
  rewrite orb_true_iff, andb_true_iff, orb_true_iff, andb_true_iff.
  rewrite !Z.ltb_lt, !Z.eqb_eq. tauto.
Qed.

Lemma date_ltb_ge a b :
  Date.ltb a b = false <->
  ~ (Date.year a < Date.year b
     \/ (Date.year a = Date.year b
         /\ (Date.month a < Date.month b
             \/ (Date.month a = Date.month b /\ Date.day a < Date.day b)))).
Proof. rewrite <- date_ltb_lt. destruct (Date.ltb a b); split; congruence. Qed.

Ltac date_order :=
  repeat match goal with
         | H : Date.ltb _ _ = true |- _ => apply date_ltb_lt in H
         | H : Date.ltb _ _ = false |- _ => apply date_ltb_ge in H
         | |- Date.ltb _ _ = true => apply date_ltb_lt
         | |- Date.ltb _ _ = false => apply date_ltb_ge
         end;
  lia.

Lemma max2_lt a b c :
  Date.ltb (Date.max2 a b) c = true <->
  Date.ltb a c = true /\ Date.ltb b c = true.
Proof.
  unfold Date.max2. destruct (Date.ltb a b) eqn:Hab; split.
  - intros H. split; [date_order | exact H].
  - intros [_ H]. exact H.
  - intros H. split; [exact H |].
    destruct (Date.ltb b c) eqn:Hbc; [reflexivity | exfalso; date_order].
  - intros [H _]. exact H.
Qed.

Lemma min2_lt a b c :
  Date.ltb (Date.min2 a b) c = true <->
  Date.ltb a c = true \/ Date.ltb b c = true.
Proof.
  unfold Date.min2. destruct (Date.ltb b a) eqn:Hba; split.
  - intros H. now right.
  - intros [H | H]; [date_order | exact H].
  - intros H. now left.
  - intros [H | H]; [exact H |].
    destruct (Date.ltb a c) eqn:Hac; [reflexivity | exfalso; date_order].
Qed.

(** The largest date of a page is older than [c] exactly when every date
    is. *)
Lemma max_date_lt d ds c :
  Date.ltb (Workflow.max_date d ds) c = true <->
  Forall (fun x => Date.ltb x c = true) (d :: ds).
Proof.
  unfold Workflow.max_date. revert d.
  induction ds as [| x ds IH]; intros d; simpl.
  - split; [intros H; repeat constructor; exact H | intros H; now inversion H].
  - rewrite IH. split.
    + intros H. inversion H as [| ? ? Hm Hrest]; subst.
      apply max2_lt in Hm as [Hd Hx]. repeat constructor; assumption.
    + intros H. inversion H as [| ? ? Hd Hrest]; subst.
      inversion Hrest as [| ? ? Hx Hds]; subst.
      constructor; [apply max2_lt; now split | assumption].
Qed.

(** The smallest date of a page is older than [c] exactly when some date
    is. *)
Lemma min_date_lt d ds c :
  Date.ltb (Workflow.min_date d ds) c = true <->
  Exists (fun x => Date.ltb x c = true) (d :: ds).
Proof.
  unfold Workflow.min_date. revert d.
  induction ds as [| x ds IH]; intros d; simpl.
  - split; [intros H; now constructor | intros H].
    inversion H as [? ? Hd | ? ? Hn]; subst; [exact Hd | inversion Hn].
  - rewrite IH. split.
    + intros H. inversion H as [? ? Hm | ? ? Hrest]; subst.
      * apply min2_lt in Hm as [Hd | Hx];
          [now constructor | constructor 2; now constructor].
      * constructor 2. now constructor 2.
    + intros H. inversion H as [? ? Hd | ? ? Hrest]; subst.
      * constructor. apply min2_lt. now left.
      * inversion Hrest as [? ? Hx | ? ? Hds]; subst.
        -- constructor. apply min2_lt. now right.
        -- now constructor 2.
Qed.

(** ** workflow.py: when a category stops paging *)

Section Paging.
Context {W : Type} (E : Workflow.Env W).

Lemma paginate_step ek k url c s :
  Workflow.paginate E ek (S k) url c s =
  match Workflow.fetch E url s with
  | (Raise _, s1) => (Ok c, s1)
  | (Ok html, s1) =>
      if Workflow.should_stop_paging (Workflow.parse_zcpt_list_page E html)
           (Workflow.parse_notice_list_page E html) ek
      then (Ok (Shape.add_page E html c), s1)
      else
        match Workflow.resolve_next E html url with
        | Some next_url =>
            if negb (Str.truthy next_url)
               || bool_decide (next_url ∈ Workflow.seen_pages c)
            then (Ok (Shape.add_page E html c), s1)
            else Workflow.paginate E ek k next_url
                   (Shape.turn_page next_url (Shape.add_page E html c)) s1
        | None => (Ok (Shape.add_page E html c), s1)
        end
  end.
Proof.
  cbn [Workflow.paginate]. unfold bind at 1, try_except, bind at 1.
  destruct (Workflow.fetch E url s) as [[html | e] s1]; [| reflexivity].
  cbn [ret]. unfold ret at 1. cbv beta iota.
  destruct (Workflow.should_stop_paging _ _ ek); [reflexivity |].
  destruct (Workflow.resolve_next E html url) as [next_url |];
    [| reflexivity].
  cbn [Workflow.seen_pages].
  destruct (negb (Str.truthy next_url) || _); reflexivity.
Qed.
End Paging.




(** ** workflow.py: the page budgets *)

Section Budgets.
Context {W : Type} (E : Workflow.Env W).

Lemma fetches_app tr tr' :
  Shape.fetches (tr ++ tr') = Shape.fetches tr + Shape.fetches tr'.
Proof.
  unfold Shape.fetches. rewrite List.filter_app, List.length_app. lia.
Qed.

Lemma fetch_trace url (s : Workflow.State W) :
  Workflow.trace (snd (Workflow.fetch E url s))
  = (Workflow.trace s ++ [Workflow.EvFetch url])%list.
Proof.
  unfold Workflow.fetch, bind, Workflow.emit, modify, Workflow.call.
  cbn [fst snd].
  destruct (Workflow.http_get_text E url _) as [r w]. reflexivity.
Qed.

Lemma fetch_fetches url (s : Workflow.State W) :
  Shape.fetches (Workflow.trace (snd (Workflow.fetch E url s)))
  = Shape.fetches (Workflow.trace s) + 1.
Proof. rewrite fetch_trace, fetches_app. reflexivity. Qed.

(** Paging a branch never raises, fetches at most one page per
    iteration, and only adds to the visited pages, at most one per
    iteration. *)
Lemma paginate_bounds ek n :
  forall url c (s : Workflow.State W),
  exists c',
    fst (Workflow.paginate E ek n url c s) = Ok c'
    /\ Shape.fetches (Workflow.trace (snd (Workflow.paginate E ek n url c s)))
       <= Shape.fetches (Workflow.trace s) + Z.of_nat n
    /\ Workflow.seen_pages c ⊆ Workflow.seen_pages c'
    /\ (size (Workflow.seen_pages c') <= size (Workflow.seen_pages c) + n)%nat.
Proof.
  induction n as [| n IH]; intros url c s.
  - exists c. simpl. repeat split; [lia | set_solver | lia].
  - rewrite paginate_step.
    pose proof (fetch_fetches url s) as Hf.
    destruct (Workflow.fetch E url s) as [[html | e] s1]; cbn [snd] in Hf.
    + destruct (Workflow.should_stop_paging _ _ ek).
      { exists (Shape.add_page E html c). cbn [fst snd Shape.add_page Workflow.seen_pages].
        repeat split; [lia | set_solver | lia]. }
      destruct (Workflow.resolve_next E html url) as [next_url |].
      2:{ exists (Shape.add_page E html c). cbn [fst snd Shape.add_page Workflow.seen_pages].
          repeat split; [lia | set_solver | lia]. }
      destruct (negb (Str.truthy next_url) || _).
      { exists (Shape.add_page E html c). cbn [fst snd Shape.add_page Workflow.seen_pages].
        repeat split; [lia | set_solver | lia]. }
      destruct (IH next_url (Shape.turn_page next_url (Shape.add_page E html c)) s1)
        as (c' & Hok & Hfe & Hsub & Hsz).
      exists c'. cbn [Shape.turn_page Shape.add_page Workflow.seen_pages] in Hsub, Hsz.
      repeat split; [exact Hok | lia | set_solver |].
      pose proof (size_union_alt {[next_url]} (Workflow.seen_pages c)) as Hu.
      assert (size (Workflow.seen_pages c ∖ {[next_url]})
              <= size (Workflow.seen_pages c))%nat
        by (apply subseteq_size; set_solver).
      rewrite size_singleton in Hu. lia.
    + exists c. cbn [fst snd]. repeat split; [lia | set_solver | lia].
Qed.

(** The second fetch of a category root never raises, is one fetch and
    leaves the visited pages as they are. *)
Lemma discover_bounds base url c (s : Workflow.State W) :
  exists c',
    fst (Workflow.discover E base url c s) = Ok c'
    /\ Shape.fetches (Workflow.trace (snd (Workflow.discover E base url c s)))
       = Shape.fetches (Workflow.trace s) + 1
    /\ Workflow.seen_pages c' = Workflow.seen_pages c.
Proof.
  unfold Workflow.discover, try_except, bind.
  pose proof (fetch_fetches url s) as Hf.
  destruct (Workflow.fetch E url s) as [[html | e] s1]; cbn [snd] in Hf.
  - eexists. unfold ret. cbn [fst snd].
    split; [reflexivity |]. split; [exact Hf | reflexivity].
  - exists c. unfold ret. cbn [fst snd].
    split; [reflexivity |]. split; [exact Hf | reflexivity].
Qed.

(** One category: at most [per_category] fetches of its pages and one
    more of its root; the category itself is a new visited page, and at
    most [per_category] more are added. *)
Lemma visit_category_bounds base ek per_category url rest c
      (s : Workflow.State W) :
  url ∉ Workflow.seen_pages c ->
  exists c',
    fst (Workflow.visit_category E base ek per_category url rest c s) = Ok c'
    /\ Shape.fetches
         (Workflow.trace
            (snd (Workflow.visit_category E base ek per_category url rest c s)))
       <= Shape.fetches (Workflow.trace s)
          + Z.of_nat (Z.to_nat per_category) + 1
    /\ (size (Workflow.seen_pages c) + 1 <= size (Workflow.seen_pages c'))%nat
    /\ (size (Workflow.seen_pages c')
        <= size (Workflow.seen_pages c) + 1 + Z.to_nat per_category)%nat.
Proof.
  intros Hnew. unfold Workflow.visit_category, bind.
  set (c0 := Workflow.mkCollect (Workflow.raw c)
               ({[url]} ∪ Workflow.seen_pages c) rest
               (Workflow.c_page_turns c)).
  destruct (paginate_bounds ek (Z.to_nat per_category) url c0 s)
    as (c1 & Hok & Hfe & Hsub & Hsz).
  destruct (Workflow.paginate E ek (Z.to_nat per_category) url c0 s)
    as [r s1]. cbn [fst snd] in Hok, Hfe. subst r.
  destruct (discover_bounds base url c1 s1) as (c2 & Hok2 & Hfe2 & Hseen2).
  exists c2. split; [exact Hok2 |]. split; [lia |].
  rewrite Hseen2.
  assert (Hs0 : size (Workflow.seen_pages c0)
                = S (size (Workflow.seen_pages c))).
  { subst c0. cbn [Workflow.seen_pages].
    rewrite size_union by set_solver. now rewrite size_singleton. }
  pose proof (subseteq_size _ _ Hsub). lia.
Qed.

Lemma drop_seen_head seen q url rest :
  Workflow.drop_seen seen q = url :: rest -> url ∉ seen.
Proof.
  induction q as [| u q IH]; simpl; [discriminate |].
  case_bool_decide as Hu; [exact IH |].
  intros H. injection H as <- _. exact Hu.
Qed.

Ltac budget_arith :=
  cbn [Workflow.seen_pages fst snd];
  try lia;
  match goal with
  | |- context [Z.max 0 ?a * ?b] =>
      assert (0 <= Z.max 0 a * b) by (apply Z.mul_nonneg_nonneg; lia); lia
  end.

(** The loop over the categories.  It never raises.  With [t] pages
    visited at its start it fetches at most
    [(total - t) * (per_category + 1)] times, and it leaves at most
    [total + per_category] pages visited (or [t], when that is more). *)
Lemma category_loop_bounds base ek total per_category fuel :
  0 <= per_category ->
  forall c (s : Workflow.State W),
  exists c',
    fst (Workflow.category_loop E base ek total per_category fuel c s) = Ok c'
    /\ Shape.fetches
         (Workflow.trace
            (snd (Workflow.category_loop E base ek total per_category fuel c s)))
       <= Shape.fetches (Workflow.trace s)
          + Z.max 0 (total - Z.of_nat (size (Workflow.seen_pages c)))
            * (per_category + 1)
    /\ Z.of_nat (size (Workflow.seen_pages c'))
       <= Z.max (Z.of_nat (size (Workflow.seen_pages c)))
                (total + per_category).
Proof.
  intros Hp. induction fuel as [| k IH]; intros c s.
  - exists c. cbn [Workflow.category_loop ret fst snd]. unfold ret.
    cbn [fst snd]. split; [reflexivity |]. split; budget_arith.
  - cbn [Workflow.category_loop].
    destruct (Z.of_nat (size (Workflow.seen_pages c)) <? total) eqn:Hlt;
      cbn [negb].
    2:{ exists c. unfold ret. cbn [fst snd].
        split; [reflexivity |]. split; budget_arith. }
    apply Z.ltb_lt in Hlt.
    destruct (Workflow.drop_seen (Workflow.seen_pages c) (Workflow.queue c))
      as [| url rest] eqn:Hq.
    { eexists. unfold ret. cbn [fst snd Workflow.seen_pages].
      split; [reflexivity |]. split; budget_arith. }
    unfold bind.
    destruct (visit_category_bounds base ek per_category url rest c s
                (drop_seen_head _ _ _ _ Hq))
      as (c1 & Hok & Hfe & Hlo & Hhi).
    destruct (Workflow.visit_category E base ek per_category url rest c s)
      as [r s1]. cbn [fst snd] in Hok, Hfe. subst r.
    destruct (IH c1 s1) as (c2 & Hok2 & Hfe2 & Hsz2).
    exists c2. split; [exact Hok2 |].
    rewrite Z2Nat.id in Hfe by exact Hp.
    split; [nia |].
    assert (Z.of_nat (size (Workflow.seen_pages c1))
            <= Z.of_nat (size (Workflow.seen_pages c)) + 1 + per_category)
      by (pose proof (Z2Nat.id per_category Hp); lia).
    lia.
Qed.

(** The [while] loop ends by its own condition: with fuel for every
    page still within the total budget, the queue has run out of
    unvisited categories or the visited pages have reached the total. *)
Lemma category_loop_exits base ek total per_category fuel :
  forall c (s : Workflow.State W) c',
    total - Z.of_nat (size (Workflow.seen_pages c)) <= Z.of_nat fuel ->
    fst (Workflow.category_loop E base ek total per_category fuel c s) = Ok c' ->
    total <= Z.of_nat (size (Workflow.seen_pages c'))
    \/ Workflow.queue c' = [].
Proof.
  induction fuel as [| k IH]; intros c s c' Hfuel.
  - cbn [Workflow.category_loop]. unfold ret. cbn [fst].
    intros H. injection H as <-. left. lia.
  - cbn [Workflow.category_loop].
    destruct (Z.of_nat (size (Workflow.seen_pages c)) <? total) eqn:Hlt;
      cbn [negb].
    2:{ unfold ret. cbn [fst]. intros H. injection H as <-.
        apply Z.ltb_ge in Hlt. now left. }
    apply Z.ltb_lt in Hlt.
    destruct (Workflow.drop_seen (Workflow.seen_pages c) (Workflow.queue c))
      as [| url rest] eqn:Hq.
    { unfold ret. cbn [fst]. intros H. injection H as <-. now right. }
    unfold bind.
    destruct (visit_category_bounds base ek per_category url rest c s
                (drop_seen_head _ _ _ _ Hq))
      as (c1 & Hok & Hfe & Hlo & Hhi).
    destruct (Workflow.visit_category E base ek per_category url rest c s)
      as [r s1]. cbn [fst snd] in Hok, Hfe. subst r.
    apply IH. lia.
Qed.
End Budgets.

(** C4, as the code has it.  The total budget is checked where a category
    is entered, not where its pages are turned: a category is entered only
    while fewer than [max_pages_total] pages (at least 1) are visited.  So
    the crawl visits at most [max_pages_total + max_pages_per_category]
    pages and calls [get_text] at most
    [1 + (max_pages_total - 1) * (max_pages_per_category + 1)] times, the
    start page and the second fetch of every category root included; its
    loop ends with the queue exhausted or the total reached.  Within one
    category it fetches at most [max_pages_per_category] pages (at least
    1) while paging. *)
Theorem crawl_page_budgets {W} (E : Workflow.Env W) (cfg : Workflow.Config)
        (earliest_keep : Date.date) (s : Workflow.State W) :
  let total := Z.max 1 (Workflow.max_pages_total cfg) in
  let per_category := Z.max 1 (Workflow.max_pages_per_category cfg) in
  Shape.fetches (Workflow.trace (snd (Workflow.crawl E cfg earliest_keep s)))
  <= Shape.fetches (Workflow.trace s) + 1 + (total - 1) * (per_category + 1)
  /\ (forall c,
         fst (Workflow.crawl E cfg earliest_keep s) = Ok c ->
         Z.of_nat (size (Workflow.seen_pages c)) <= total + per_category
         /\ (total <= Z.of_nat (size (Workflow.seen_pages c))
             \/ Workflow.queue c = []))
  /\ (forall url c0 s0,
         Shape.fetches
           (Workflow.trace
              (snd (Workflow.paginate E earliest_keep (Z.to_nat per_category)
                      url c0 s0)))
         <= Shape.fetches (Workflow.trace s0) + per_category).
Proof.
  intros total per_category.
  assert (Hp : 0 <= per_category) by (subst per_category; lia).
  assert (Ht : 1 <= total) by (subst total; lia).
  split; [| split].
  - unfold Workflow.crawl, bind. fold total per_category.
    pose proof (fetch_fetches E (Workflow.list_url cfg) s) as Hf.
    destruct (Workflow.fetch E (Workflow.list_url cfg) s) as [[html | e] s1];
      cbn [snd] in Hf |- *; [| nia].
    match goal with
    | |- context [Workflow.category_loop E ?b ?ek ?t ?p ?f ?c ?st] =>
        destruct (category_loop_bounds E b ek t p f Hp c st)
          as (c' & _ & Hfe & _)
    end.
    cbn [Workflow.seen_pages] in Hfe. rewrite size_singleton in Hfe.
    rewrite Z.max_r in Hfe by lia.
    change (Z.of_nat 1) with 1 in Hfe. lia.
  - intros c. unfold Workflow.crawl, bind. fold total per_category.
    destruct (Workflow.fetch E (Workflow.list_url cfg) s) as [[html | e] s1];
      cbn [fst]; [| discriminate].
    intros Hc.
    match type of Hc with
    | context [Workflow.category_loop E ?b ?ek ?t ?p ?f ?c0 ?st] =>
        destruct (category_loop_bounds E b ek t p f Hp c0 st)
          as (c' & Hok & _ & Hsz);
        pose proof (category_loop_exits E b ek t p f c0 st c) as Hex
    end.
    rewrite Hc in Hok. injection Hok as <-.
    cbn [Workflow.seen_pages] in Hsz, Hex. rewrite size_singleton in Hsz, Hex.
    split; [lia |]. apply Hex; [| exact Hc].
    rewrite Z2Nat.id by lia. lia.
  - intros url c0 s0.
    destruct (paginate_bounds E earliest_keep (Z.to_nat per_category) url c0 s0)
      as (c' & _ & Hfe & _).
    rewrite Z2Nat.id in Hfe by exact Hp. exact Hfe.
Qed.

Lemma crawl_page_budgets_witness :
  exists c,
    Workflow.crawl (Scenario.site None None) Scenario.cfg Scenario.earliest_keep
      Scenario.start = (Ok c, snd (Workflow.crawl (Scenario.site None None)
                                     Scenario.cfg Scenario.earliest_keep
                                     Scenario.start))
    /\ Z.of_nat (size (Workflow.seen_pages c)) <= 2 + 3
    /\ Workflow.queue c = [].
Proof.
  destruct (Workflow.crawl (Scenario.site None None) Scenario.cfg
              Scenario.earliest_keep Scenario.start) as [[c | e] s'] eqn:Hrun;
    [| vm_compute in Hrun; discriminate].
  exists c. split; [reflexivity |].
  destruct (crawl_page_budgets (Scenario.site None None) Scenario.cfg
              Scenario.earliest_keep Scenario.start) as (_ & Hseen & _).
  rewrite Hrun in Hseen. destruct (Hseen c eq_refl) as [Hsz _].
  split; [exact Hsz |].
  vm_compute in Hrun. injection Hrun as <- _. reflexivity.
Defined.

(** The total budget read as a bound on the pages fetched fails on the
    example site: with [max_pages_total = 2] and
    [max_pages_per_category = 3] the crawl calls [get_text] five times and
    fetches four different pages. *)
Lemma total_budget_exceeded_counterexample :
  Workflow.max_pages_total Scenario.cfg = 2
  /\ Workflow.max_pages_per_category Scenario.cfg = 3
  /\ Shape.fetched
       (Workflow.trace
          (snd (Workflow.crawl (Scenario.site None None) Scenario.cfg
                  Scenario.earliest_keep Scenario.start)))
     = ["https://site/list"; "https://site/catA"; "https://site/catA?page=2";
        "https://site/catA?page=3"; "https://site/catA"]
  /\ ~ (Shape.fetches
          (Workflow.trace
             (snd (Workflow.crawl (Scenario.site None None) Scenario.cfg
                     Scenario.earliest_keep Scenario.start)))
        <= Workflow.max_pages_total Scenario.cfg).
Proof.
  split; [reflexivity |]. split; [reflexivity |]. split.
  - vm_compute. reflexivity.
  - vm_compute. intros H. apply H. reflexivity.
Qed.

(** ** Dates: walking back, and the ISO text *)

Lemma days_in_month_bounds y m : 28 <= Date.days_in_month y m <= 31.
Proof.
  unfold Date.days_in_month.
  destruct (m =? 2); [destruct (Date.is_leap y); lia |].
  destruct ((m =? 4) || (m =? 6) || (m =? 9) || (m =? 11)); lia.
Qed.

Lemma valid_spec d :
  Date.valid d = true <->
  1 <= Date.year d <= 9999 /\ 1 <= Date.month d <= 12
  /\ 1 <= Date.day d <= Date.days_in_month (Date.year d) (Date.month d).
Proof.
  unfold Date.valid. rewrite !andb_true_iff, !Z.leb_le. tauto.
Qed.

Lemma prev_day_valid d d' :
  Date.valid d = true -> Date.prev_day d = Some d' ->
  Date.valid d' = true /\ Date.ltb d' d = true.
Proof.
  rewrite !valid_spec, date_ltb_lt. intros (Hy & Hm & Hd).
  unfold Date.prev_day.
  destruct (Z.ltb_spec 1 (Date.day d)).
  { intros Heq. injection Heq as <-. cbn [Date.year Date.month Date.day]. lia. }
  destruct (Z.ltb_spec 1 (Date.month d)).
  { intros Heq. injection Heq as <-. cbn [Date.year Date.month Date.day].
    pose proof (days_in_month_bounds (Date.year d) (Date.month d - 1)). lia. }
  destruct (Z.ltb_spec 1 (Date.year d)); [| discriminate].
  intros Heq. injection Heq as <-. cbn [Date.year Date.month Date.day].
  change (Date.days_in_month (Date.year d - 1) 12) with 31. lia.
Qed.

Lemma date_ltb_trans a b c :
  Date.ltb a b = true -> Date.ltb b c = true -> Date.ltb a c = true.
Proof. intros. date_order. Qed.

Lemma date_ltb_irrefl a : Date.ltb a a = false.
Proof. date_order. Qed.

Lemma minus_days_valid n :
  forall d d', Date.valid d = true -> Date.minus_days d n = Some d' ->
               Date.valid d' = true.
Proof.
  induction n as [| n IH]; intros d d' Hv; simpl.
  - intros H. now injection H as <-.
  - destruct (Date.prev_day d) as [p |] eqn:Hp; [| discriminate].
    apply IH. now destruct (prev_day_valid d p Hv Hp).
Qed.

Lemma minus_days_older n :
  forall d d', Date.valid d = true -> Date.minus_days d (S n) = Some d' ->
               Date.ltb d' d = true.
Proof.
  induction n as [| n IH]; intros d d' Hv; cbn [Date.minus_days].
  - destruct (Date.prev_day d) as [p |] eqn:Hp; [| discriminate].
    intros H. injection H as <-. now destruct (prev_day_valid d p Hv Hp).
  - destruct (Date.prev_day d) as [p |] eqn:Hp; [| discriminate].
    destruct (prev_day_valid d p Hv Hp) as [Hvp Hlt].
    intros H. apply (date_ltb_trans _ p); [| exact Hlt].
    apply IH; [exact Hvp |]. exact H.
Qed.

Lemma minus_days_add i k :
  forall d, Date.minus_days d (i + k)
            = match Date.minus_days d i with
              | Some d' => Date.minus_days d' k
              | None => None
              end.
Proof.
  induction i as [| i IH]; intros d; simpl; [reflexivity |].
  destruct (Date.prev_day d); [apply IH | reflexivity].
Qed.

(** Of two days reached by walking back from a date, the one reached by
    the longer walk is the older. *)
Lemma minus_days_strict d i j di dj :
  Date.valid d = true -> (i < j)%nat ->
  Date.minus_days d i = Some di -> Date.minus_days d j = Some dj ->
  Date.ltb dj di = true.
Proof.
  intros Hv Hij Hi Hj.
  replace j with (i + S (j - i - 1))%nat in Hj by lia.
  rewrite minus_days_add, Hi in Hj.
  eapply minus_days_older; [| exact Hj].
  eapply minus_days_valid; eassumption.
Qed.

Lemma digit_chr_val n :
  0 <= n <= 9 ->
  Str.is_digit (Str.digit_chr n) = true /\ Str.digit_val (Str.digit_chr n) = n.
Proof.
  intros Hn. unfold Str.is_digit, Str.digit_val, Str.digit_chr.
  rewrite nat_ascii_embedding by lia.
  split.
  - apply andb_true_iff. split; apply Nat.leb_le; lia.
  - lia.
Qed.

Lemma digits_of_10 n : 0 <= n mod 10 <= 9.
Proof. pose proof (Z.mod_pos_bound n 10). lia. Qed.

(** Reading back the ISO text of a valid date gives the date. *)
Lemma fromisoformat_isoformat d :
  Date.valid d = true -> Date.fromisoformat (Date.isoformat d) = Some d.
Proof.
  intros Hv. pose proof Hv as Hv'. apply valid_spec in Hv' as (Hy & Hm & Hd).
  pose proof (days_in_month_bounds (Date.year d) (Date.month d)) as Hdim.
  unfold Date.fromisoformat.
  change (Str.chars (Date.isoformat d)) with
    [Str.digit_chr (Date.year d / 1000 mod 10);
     Str.digit_chr (Date.year d / 100 mod 10);
     Str.digit_chr (Date.year d / 10 mod 10);
     Str.digit_chr (Date.year d mod 10); "-"%char;
     Str.digit_chr (Date.month d / 10 mod 10);
     Str.digit_chr (Date.month d mod 10); "-"%char;
     Str.digit_chr (Date.day d / 10 mod 10);
     Str.digit_chr (Date.day d mod 10)].
  cbv iota beta.
  unfold Date.all_digits, Date.num4, Date.num2. cbn [forallb].
  rewrite !(proj1 (digit_chr_val _ (digits_of_10 _))).
  rewrite !(proj2 (digit_chr_val _ (digits_of_10 _))).
  cbn [andb Ascii.eqb Bool.eqb].
  assert (Hyear : 1000 * (Date.year d / 1000 mod 10)
                  + 100 * (Date.year d / 100 mod 10)
                  + 10 * (Date.year d / 10 mod 10) + Date.year d mod 10
                  = Date.year d)
    by (Z.div_mod_to_equations; lia).
  assert (Hmonth : 10 * (Date.month d / 10 mod 10) + Date.month d mod 10
                   = Date.month d)
    by (Z.div_mod_to_equations; lia).
  assert (Hday : 10 * (Date.day d / 10 mod 10) + Date.day d mod 10
                 = Date.day d)
    by (Z.div_mod_to_equations; lia).
  rewrite Hyear, Hmonth, Hday.
  destruct d as [y m dd]. cbn [Date.year Date.month Date.day] in *.
  now rewrite Hv.
Qed.

Lemma isoformat_inj a b :
  Date.valid a = true -> Date.valid b = true ->
  Date.isoformat a = Date.isoformat b -> a = b.
Proof.
  intros Ha Hb H.
  apply fromisoformat_isoformat in Ha. apply fromisoformat_isoformat in Hb.
  rewrite H in Ha. congruence.
Qed.

(** ** Regular expressions: what [search] finds *)

Lemma app_eq_empty m b : m +:+ b = "" -> m = "" /\ b = "".
Proof. destruct m; [intros H; now split | discriminate]. Qed.

Lemma match_prefix s :
  forall r, Re.match_ r s = true <->
            exists m b, s = m +:+ b /\ Re.fullmatch r m = true.
Proof.
  induction s as [| c s IH]; intros r; cbn [Re.match_].
  - rewrite orb_false_r. split.
    + intros H. exists "", "". now split.
    + intros (m & b & Hs & Hm). symmetry in Hs.
      apply app_eq_empty in Hs as [-> _]. exact Hm.
  - rewrite orb_true_iff, IH. split.
    + intros [Hn | (m & b & -> & Hm)].
      * exists "", (String c s). now split.
      * exists (String c m), b. now split.
    + intros (m & b & Hs & Hm). destruct m as [| c' m].
      * left. exact Hm.
      * right. rewrite app_cons in Hs. injection Hs as <- ->.
        exists m, b. now split.
Qed.

Lemma search_substring s :
  forall r, Re.search r s = true <->
            exists a m b, s = a +:+ m +:+ b /\ Re.fullmatch r m = true.
Proof.
  induction s as [| c s IH]; intros r; cbn [Re.search].
  - rewrite orb_false_r, match_prefix. split.
    + intros (m & b & Hs & Hm). exists "", m, b. now split.
    + intros (a & m & b & Hs & Hm). symmetry in Hs.
      apply app_eq_empty in Hs as [-> Hs]. exists m, b. now split.
  - rewrite orb_true_iff, match_prefix, IH. split.
    + intros [(m & b & Hs & Hm) | (a & m & b & -> & Hm)].
      * exists "", m, b. now split.
      * exists (String c a), m, b. now split.
    + intros (a & m & b & Hs & Hm). destruct a as [| c' a].
      * left. exists m, b. now split.
      * right. rewrite app_cons in Hs. injection Hs as <- ->.
        exists a, m, b. now split.
Qed.

(** ** workflow.py: filter and plan *)

Lemma lookback_dates_spec {W} (base : Date.date) (n : nat) :
  forall (i : nat) (s : Workflow.State W),
    match Workflow.lookback_dates base i n s with
    | (Ok ds, s') =>
        s' = s
        /\ forall d, d ∈ ds <->
                     exists j day, (i <= j < i + n)%nat
                                   /\ Date.minus_days base j = Some day
                                   /\ d = Date.isoformat day
    | (Raise _, s') =>
        s' = s /\ exists j, (i <= j < i + n)%nat
                            /\ Date.minus_days base j = None
    end.
Proof.
  induction n as [| n IH]; intros i s; cbn [Workflow.lookback_dates].
  - unfold ret. split; [reflexivity |]. intros d. split.
    + intros H. inversion H.
    + intros (j & day & Hj & _). lia.
  - unfold bind, Workflow.date_minus_days.
    destruct (Date.minus_days base i) as [di |] eqn:Hi.
    + unfold ret at 1. specialize (IH (S i) s).
      destruct (Workflow.lookback_dates base (S i) n s) as [[ds | e] s1].
      * destruct IH as [-> IH]. unfold ret. split; [reflexivity |].
        intros d. rewrite elem_of_cons, IH. split.
        -- intros [-> | (j & day & Hj & Hday & ->)].
           ++ exists i, di. repeat split; [lia | lia | exact Hi].
           ++ exists j, day. repeat split; [lia | lia | exact Hday].
        -- intros (j & day & Hj & Hday & ->).
           destruct (Nat.eq_dec j i) as [-> | Hne].
           ++ left. congruence.
           ++ right. exists j, day. repeat split; [lia | lia | exact Hday].
      * destruct IH as [-> (j & Hj & Hnone)]. split; [reflexivity |].
        exists j. split; [lia | exact Hnone].
    + unfold raise. split; [reflexivity |]. exists i. split; [lia | exact Hi].
Qed.

Lemma allowed_dates_spec {W} (base : Date.date) (lookback : Z)
      (s s' : Workflow.State W) (allowed : gset string) :
  Workflow.allowed_dates base lookback s = (Ok allowed, s') ->
  s' = s
  /\ forall d, d ∈ allowed <->
               exists i day, (i < Z.to_nat lookback)%nat
                             /\ Date.minus_days base i = Some day
                             /\ d = Date.isoformat day.
Proof.
  unfold Workflow.allowed_dates, bind.
  pose proof (lookback_dates_spec base (Z.to_nat lookback) 0 s) as H.
  destruct (Workflow.lookback_dates base 0 (Z.to_nat lookback) s)
    as [[ds | e] s1]; [| discriminate].
  destruct H as [-> H]. unfold ret. intros Heq. injection Heq as <- <-.
  split; [reflexivity |]. intros d. rewrite elem_of_list_to_set, H.
  split; intros (j & day & Hj & Hrest); exists j, day; (split; [lia | exact Hrest]).
Qed.

Lemma filter_items_elem (allowed : gset string) (re : Re.regex)
      (normalized : list Workflow.Item) (title link d : string) :
  (title, link, d) ∈ Workflow.filter_items allowed re normalized
  <-> (title, link, d) ∈ normalized /\ d ∈ allowed
      /\ Re.search re title = true.
Proof.
  unfold Workflow.filter_items.
  rewrite !list_elem_of_In, filter_In, andb_true_iff, bool_decide_eq_true.
  tauto.
Qed.

Lemma filter_sublist {A} (f : A -> bool) (l : list A) :
  sublist (List.filter f l) l.
Proof.
  induction l as [| x l IH]; simpl; [constructor |].
  destruct (f x); now constructor.
Qed.

Lemma clamp_lookback_pos days : 1 <= Workflow.clamp_lookback days.
Proof. unfold Workflow.clamp_lookback. destruct (Z.ltb_spec days 1); lia. Qed.



(** ** workflow.py: the counters of a run *)

Section Counters.
Context {W : Type} (E : Workflow.Env W).

Lemma extends_refl (s : Workflow.State W) : Inv.extends s s.
Proof. exists []. split; [now rewrite app_nil_r | constructor]. Qed.

Lemma extends_trans (a b c : Workflow.State W) :
  Inv.extends a b -> Inv.extends b c -> Inv.extends a c.
Proof.
  intros (e1 & H1 & F1) (e2 & H2 & F2). exists (e1 ++ e2)%list.
  split; [rewrite H2, H1; now rewrite app_assoc |].
  apply Forall_app. now split.
Qed.

Lemma extends_same_trace (a b : Workflow.State W) :
  Workflow.trace b = Workflow.trace a -> Inv.extends a b.
Proof. intros H. exists []. split; [now rewrite app_nil_r | constructor]. Qed.

Lemma good_ret {A} (Q : A -> Prop) (a : A) : Q a -> Inv.good (W:=W) Q (ret a).
Proof. intros Hq s Hs. cbn. auto using extends_refl. Qed.

Lemma good_raise {A} (Q : A -> Prop) (e : string) :
  Inv.good (W:=W) Q (raise e).
Proof. intros s Hs. cbn. auto using extends_refl. Qed.

Lemma good_lift {A} (Q : A -> Prop) (o : Outcome A) :
  (forall a, o = Ok a -> Q a) -> Inv.good (W:=W) Q (lift_outcome o).
Proof.
  intros Hq s Hs. cbn. split; [exact Hs |]. split; [apply extends_refl |].
  destruct o; auto.
Qed.

Lemma good_weaken {A} (Q Q' : A -> Prop) (m : M (Workflow.State W) A) :
  (forall a, Q a -> Q' a) -> Inv.good Q m -> Inv.good Q' m.
Proof.
  intros Hq Hm s Hs. destruct (Hm s Hs) as (H1 & H2 & H3).
  split; [exact H1 |]. split; [exact H2 |].
  destruct (fst (m s)); auto.
Qed.

Lemma good_bind {A B} (Qa : A -> Prop) (Q : B -> Prop) (m : M (Workflow.State W) A)
      (k : A -> M (Workflow.State W) B) :
  Inv.good Qa m -> (forall a, Qa a -> Inv.good Q (k a)) ->
  Inv.good Q (bind m k).
Proof.
  intros Hm Hk s Hs. unfold bind. destruct (Hm s Hs) as (H1 & H2 & H3).
  destruct (m s) as [[a | e] s1]; cbn [fst snd] in *.
  - destruct (Hk a H3 s1 H1) as (K1 & K2 & K3).
    split; [exact K1 |]. split; [eapply extends_trans; eassumption | exact K3].
  - auto.
Qed.

Lemma good_bind_any {A B} (Q : B -> Prop) (m : M (Workflow.State W) A) (k : A -> M (Workflow.State W) B) :
  Inv.good Inv.any m -> (forall a, Inv.good Q (k a)) -> Inv.good Q (bind m k).
Proof. intros Hm Hk. apply (good_bind Inv.any); auto. Qed.

Lemma good_try {A} (Q : A -> Prop) (m : M (Workflow.State W) A) (h : string -> M (Workflow.State W) A) :
  Inv.good Q m -> (forall e, Inv.good Q (h e)) -> Inv.good Q (try_except m h).
Proof.
  intros Hm Hh s Hs. unfold try_except. destruct (Hm s Hs) as (H1 & H2 & H3).
  destruct (m s) as [[a | e] s1]; cbn [fst snd] in *.
  - auto.
  - destruct (Hh e s1 H1) as (K1 & K2 & K3).
    split; [exact K1 |]. split; [eapply extends_trans; eassumption | exact K3].
Qed.

Lemma good_get : Inv.good (W:=W) Inv.counters_ok get_state.
Proof. intros s Hs. cbn. auto using extends_refl. Qed.

Lemma good_bind_get {B} (Q : B -> Prop) (k : Workflow.State W -> M (Workflow.State W) B) :
  (forall s0, Inv.counters_ok s0 -> Inv.good Q (k s0)) ->
  Inv.good Q (bind get_state k).
Proof. intros Hk. apply (good_bind Inv.counters_ok); [apply good_get | exact Hk]. Qed.

Lemma good_call {A} (m : M W A) : Inv.good Inv.any (Workflow.call m).
Proof.
  intros s Hs. unfold Workflow.call. destruct (m (Workflow.ext s)) as [r w].
  cbn [fst snd]. split; [exact Hs |].
  split; [now apply extends_same_trace |]. destruct r; exact I.
Qed.

Lemma good_modify (f : Workflow.State W -> Workflow.State W) : Inv.silent f -> Inv.good Inv.any (modify f).
Proof.
  intros Hf s Hs. destruct (Hf s) as (Ht & Hn & Hd & Hp). cbn.
  split; [unfold Inv.counters_ok in *; lia |].
  split; [now apply extends_same_trace | exact I].
Qed.

Lemma good_on_db {A} (f : Db.Database -> A * Db.Database) :
  Inv.good Inv.any (Workflow.on_db (W:=W) f).
Proof.
  intros s Hs. unfold Workflow.on_db. destruct (f (Workflow.db s)) as [a d].
  cbn. split; [exact Hs |]. split; [now apply extends_same_trace | exact I].
Qed.

Lemma good_emit (e : Workflow.Event) :
  Inv.finish_ok e -> Inv.good Inv.any (Workflow.emit (W:=W) e).
Proof.
  intros He s Hs. cbn. split; [exact Hs |]. split; [| exact I].
  exists [e]. split; [reflexivity | now repeat constructor].
Qed.

(** Two assignments in a row that together keep the counters in
    agreement. *)
Lemma good_modify2 (f g : Workflow.State W -> Workflow.State W) :
  (forall s, Inv.counters_ok s -> Inv.counters_ok (g (f s))) ->
  (forall s, Workflow.trace (g (f s)) = Workflow.trace s) ->
  Inv.good Inv.any (bind (modify f) (fun _ => modify g)).
Proof.
  intros Hc Ht s Hs. cbn. split; [now apply Hc |].
  split; [apply extends_same_trace, Ht | exact I].
Qed.

Lemma good_modify2_then {B} (Q : B -> Prop) (f g : Workflow.State W -> Workflow.State W) (k : M (Workflow.State W) B) :
  (forall s, Inv.counters_ok s -> Inv.counters_ok (g (f s))) ->
  (forall s, Workflow.trace (g (f s)) = Workflow.trace s) ->
  Inv.good Q k ->
  Inv.good Q (bind (modify f) (fun _ => bind (modify g) (fun _ => k))).
Proof.
  intros Hc Ht Hk s Hs. cbn.
  destruct (Hk (g (f s)) (Hc s Hs)) as (K1 & K2 & K3).
  split; [exact K1 |]. split; [| exact K3].
  eapply extends_trans; [apply extends_same_trace, Ht | exact K2].
Qed.
End Counters.

Create HintDb good.

Ltac good_step :=
  lazymatch goal with
  | |- Inv.good _ (ret _) => apply good_ret; try exact I
  | |- Inv.good _ (raise _) => apply good_raise
  | |- Inv.good _ (lift_outcome _) => apply good_lift; intros; exact I
  | |- Inv.good _ (bind (modify _) (fun _ => modify _)) =>
      apply good_modify2;
      [ intros ? ?; unfold Inv.counters_ok in *; cbn; lia
      | intros ?; reflexivity ]
  | |- Inv.good _ (bind (modify _) (fun _ => bind (modify _) (fun _ => _))) =>
      apply good_modify2_then;
      [ intros ? ?; unfold Inv.counters_ok in *; cbn; lia
      | intros ?; reflexivity
      | ]
  | |- Inv.good _ (bind get_state _) => apply good_bind_get; intros ? ?
  | |- Inv.good _ (bind _ _) => apply good_bind_any; [| intros ?]
  | |- Inv.good _ (try_except _ _) => apply good_try; [| intros ?]
  | |- Inv.good _ (Workflow.call _) => apply good_call
  | |- Inv.good _ (Workflow.on_db _) => apply good_on_db
  | |- Inv.good _ (modify _) =>
      apply good_modify; intros ?; repeat split
  | |- Inv.good _ (Workflow.emit _) => apply good_emit; exact I
  | |- Inv.good _ (if ?b then _ else _) => destruct b
  | |- Inv.good _ (match ?x with _ => _ end) => destruct x
  end.

Ltac good_auto := repeat first [ good_step | solve [eauto with good] ].

Section CountersOfCalls.
Context {W : Type} (E : Workflow.Env W).

Lemma good_fetch url : Inv.good Inv.any (Workflow.fetch E url).
Proof. unfold Workflow.fetch. good_auto. Qed.
Hint Resolve good_fetch : good.

Lemma good_paginate ek n :
  forall url c, Inv.good Inv.any (Workflow.paginate E ek n url c).
Proof.
  induction n as [| n IH]; intros url c; cbn [Workflow.paginate]; good_auto.
Qed.
Hint Resolve good_paginate : good.

Lemma good_discover base url c :
  Inv.good Inv.any (Workflow.discover E base url c).
Proof. unfold Workflow.discover. good_auto. Qed.
Hint Resolve good_discover : good.

Lemma good_visit_category base ek p url rest c :
  Inv.good Inv.any (Workflow.visit_category E base ek p url rest c).
Proof. unfold Workflow.visit_category. good_auto. Qed.
Hint Resolve good_visit_category : good.

Lemma good_category_loop base ek t p fuel :
  forall c, Inv.good Inv.any (Workflow.category_loop E base ek t p fuel c).
Proof.
  induction fuel as [| k IH]; intros c; cbn [Workflow.category_loop];
    good_auto.
Qed.
Hint Resolve good_category_loop : good.

Lemma good_crawl cfg ek : Inv.good Inv.any (Workflow.crawl E cfg ek).
Proof. unfold Workflow.crawl. good_auto. Qed.
Hint Resolve good_crawl : good.

Lemma good_collect cfg ek :
  Inv.good Inv.any (Workflow._collect_list_items E cfg ek).
Proof. unfold Workflow._collect_list_items. good_auto. Qed.

Lemma good_db_statement : Inv.good Inv.any (Workflow.db_statement E).
Proof. unfold Workflow.db_statement. good_auto. Qed.
Hint Resolve good_db_statement : good.

Lemma good_now_text : Inv.good Inv.any (Workflow.now_text E).
Proof. unfold Workflow.now_text. good_auto. Qed.
Hint Resolve good_now_text : good.

Lemma good_db_init_schema : Inv.good Inv.any (Workflow.db_init_schema E).
Proof. unfold Workflow.db_init_schema. good_auto. Qed.

Lemma good_db_start_run o : Inv.good Inv.any (Workflow.db_start_run E o).
Proof. unfold Workflow.db_start_run. good_auto. Qed.

Lemma good_db_finish_run rid st fin dur p n d err :
  n + d = p ->
  Inv.good Inv.any (Workflow.db_finish_run E rid st fin dur p n d err).
Proof.
  intros H. unfold Workflow.db_finish_run.
  apply good_bind_any; [apply good_emit; exact H | intros _]. good_auto.
Qed.

Lemma good_db_is_duplicate t u d :
  Inv.good Inv.any (Workflow.db_is_duplicate E t u d).
Proof. unfold Workflow.db_is_duplicate. good_auto. Qed.

Lemma good_db_insert t u d st :
  Inv.good Inv.any (Workflow.db_insert_announcement_base E t u d st).
Proof. unfold Workflow.db_insert_announcement_base. good_auto. Qed.

Lemma good_db_update t c a st :
  Inv.good Inv.any (Workflow.db_update_announcement_detail E t c a st).
Proof. unfold Workflow.db_update_announcement_detail. good_auto. Qed.

Lemma good_send_card c : Inv.good Inv.any (Workflow.send_card E c).
Proof. unfold Workflow.send_card. good_auto. Qed.

Lemma good_shanghai : Inv.good Inv.any (Workflow.shanghai_recent_days E).
Proof. unfold Workflow.shanghai_recent_days. good_auto. Qed.

Lemma good_date_fromisoformat x :
  Inv.good (W:=W) Inv.any (Workflow.date_fromisoformat x).
Proof. unfold Workflow.date_fromisoformat. good_auto. Qed.

Lemma good_date_minus_days d n :
  Inv.good (W:=W) Inv.any (Workflow.date_minus_days d n).
Proof. unfold Workflow.date_minus_days. good_auto. Qed.
Hint Resolve good_date_minus_days : good.

Lemma good_lookback_dates base n :
  forall i, Inv.good (W:=W) Inv.any (Workflow.lookback_dates base i n).
Proof.
  induction n as [| n IH]; intros i; cbn [Workflow.lookback_dates];
    good_auto.
Qed.
Hint Resolve good_lookback_dates : good.

Lemma good_allowed_dates base n :
  Inv.good (W:=W) Inv.any (Workflow.allowed_dates base n).
Proof. unfold Workflow.allowed_dates. good_auto. Qed.
Hint Resolve good_collect good_db_init_schema good_db_start_run
     good_db_is_duplicate good_db_insert good_db_update good_send_card
     good_shanghai good_date_fromisoformat good_allowed_dates : good.

Lemma good_base_date_of cfg recent normalized :
  Inv.good (W:=W) Inv.any (Workflow.base_date_of cfg recent normalized).
Proof.
  unfold Workflow.base_date_of.
  destruct (Workflow.use_test_fixtures cfg); [| good_auto].
  destruct normalized as [| [[? ?] ?] ?]; good_auto.
Qed.
Hint Resolve good_base_date_of : good.

Lemma good_summarize cfg title content :
  Inv.good Inv.any (Workflow.summarize E cfg title content).
Proof. unfold Workflow.summarize. good_auto. Qed.
Hint Resolve good_summarize : good.

Lemma good_notify_item cfg title d summary abs_url :
  Inv.good Inv.any (Workflow.notify_item E cfg title d summary abs_url).
Proof. unfold Workflow.notify_item. good_auto. Qed.
Hint Resolve good_notify_item : good.

Lemma good_item_detail cfg title d abs_url :
  Inv.good Inv.any (Workflow.item_detail E cfg title d abs_url).
Proof. unfold Workflow.item_detail. good_auto. Qed.
Hint Resolve good_item_detail : good.

Lemma good_item_failed title e :
  Inv.good Inv.any (Workflow.item_failed E title e).
Proof. unfold Workflow.item_failed. good_auto. Qed.
Hint Resolve good_item_failed : good.

Lemma good_throttle_step cfg adaptive :
  Inv.good (W:=W) Inv.any (Workflow.throttle_step cfg adaptive).
Proof. unfold Workflow.throttle_step. good_auto. Qed.
Hint Resolve good_throttle_step : good.

(** One candidate leaves the counters in agreement, however its
    processing ends. *)
Lemma good_process_item cfg adaptive idx it :
  Inv.good Inv.any (Workflow.process_item E cfg adaptive idx it).
Proof.
  unfold Workflow.process_item, Workflow.item_delay,
    Workflow.count_duplicate, Workflow.count_new, Workflow.downgrade_new,
    Workflow.item_enrich.
  destruct it as [[title link] d]. good_auto.
Qed.
Hint Resolve good_process_item : good.

Lemma good_ingest_loop cfg adaptive max_items filtered :
  forall idx,
    Inv.good Inv.any
      (Workflow.ingest_loop E cfg adaptive max_items idx filtered).
Proof.
  induction filtered as [| it rest IH]; intros idx;
    cbn [Workflow.ingest_loop]; good_auto.
Qed.
Hint Resolve good_ingest_loop : good.

Lemma good_send_digest cfg t dur fuel :
  forall i, Inv.good Inv.any (Workflow.send_digest E cfg t dur fuel i).
Proof.
  induction fuel as [| k IH]; intros i; cbn [Workflow.send_digest];
    good_auto.
Qed.
Hint Resolve good_send_digest : good.

Lemma good_notify_run cfg t dur :
  Inv.good Inv.any (Workflow.notify_run E cfg t dur).
Proof. unfold Workflow.notify_run. good_auto. Qed.
Hint Resolve good_notify_run : good.

Lemma report_of_ok status run dur err (s : Workflow.State W) :
  Inv.counters_ok s -> Inv.report_ok (Workflow.report_of status run dur err s).
Proof. intros H. exact H. Qed.

(** The body of the outer [try]: both calls of [finish_run] write
    counters that agree, and so does the report. *)
Lemma good_run_try cfg recent run :
  Inv.good Inv.report_ok (Workflow.run_try E cfg recent run).
Proof.
  unfold Workflow.run_try.
  apply good_bind_any; [good_auto | intros today_].
  apply good_bind_any; [good_auto | intros earliest_keep].
  apply good_bind_any; [good_auto | intros collected].
  destruct (Workflow.items collected) as [| it raw_items].
  - apply good_bind_any; [good_auto | intros duration].
    apply good_bind_any; [good_auto | intros fin].
    apply good_bind_any; [now apply good_db_finish_run | intros _].
    apply good_ret. reflexivity.
  - apply good_bind_any; [good_auto | intros keyword_re].
    apply good_bind_any; [good_auto | intros now_dt].
    apply good_bind_any; [good_auto | intros base_date].
    apply good_bind_any; [good_auto | intros allowed].
    apply good_bind_any; [good_auto | intros _].
    apply good_bind_any; [good_auto | intros _].
    apply good_bind_any; [good_auto | intros duration].
    apply good_bind_any; [good_auto | intros fin].
    apply good_bind_get. intros s Hs.
    apply good_bind_any; [now apply good_db_finish_run | intros _].
    apply good_bind_any; [good_auto | intros _].
    apply good_bind_get. intros s' Hs'.
    apply good_ret. now apply report_of_ok.
Qed.

(** The outer handler: [finish_run] is called with the counters as the
    failing run left them. *)
Lemma good_run_failed cfg run e :
  Inv.good Inv.report_ok (Workflow.run_failed E cfg run e).
Proof.
  unfold Workflow.run_failed.
  apply good_bind_any; [good_auto | intros duration].
  apply good_bind_any; [good_auto | intros fin].
  apply good_bind_get. intros s Hs.
  apply good_bind_any; [now apply good_db_finish_run | intros _].
  apply good_bind_any; [good_auto | intros _].
  apply good_bind_get. intros s' Hs'.
  apply good_ret. now apply report_of_ok.
Qed.
End CountersOfCalls.

Section Finalization.
Context {W : Type} (E : Workflow.Env W).

Lemma quiet_bind {A B} (m : M (Workflow.State W) A)
      (k : A -> M (Workflow.State W) B) :
  Inv.quiet m -> (forall a, Inv.quiet (k a)) -> Inv.quiet (bind m k).
Proof.
  intros Hm Hk s. unfold bind. specialize (Hm s).
  destruct (m s) as [[a | e] s1]; cbn [snd] in *; [| exact Hm].
  now rewrite Hk.
Qed.

Lemma quiet_call {A} (m : M W A) : Inv.quiet (Workflow.call m).
Proof.
  intros s. unfold Workflow.call. now destruct (m (Workflow.ext s)).
Qed.

Lemma quiet_modify (f : Workflow.State W -> Workflow.State W) :
  Inv.silent f -> Inv.quiet (modify f).
Proof. intros Hf s. apply Hf. Qed.

Lemma quiet_on_db {A} (f : Db.Database -> A * Db.Database) :
  Inv.quiet (Workflow.on_db (W:=W) f).
Proof.
  intros s. unfold Workflow.on_db. now destruct (f (Workflow.db s)).
Qed.

Lemma quiet_lift {A} (o : Outcome A) : Inv.quiet (W:=W) (lift_outcome o).
Proof. intros s. reflexivity. Qed.

Lemma quiet_get : Inv.quiet (W:=W) get_state.
Proof. intros s. reflexivity. Qed.

Lemma quiet_ret {A} (a : A) : Inv.quiet (W:=W) (ret a).
Proof. intros s. reflexivity. Qed.

Ltac quiet_auto :=
  repeat first
    [ apply quiet_bind; [| intros ?]
    | apply quiet_call | apply quiet_on_db | apply quiet_lift
    | apply quiet_get | apply quiet_ret
    | apply quiet_modify; intros ?; repeat split ].

Lemma quiet_db_statement : Inv.quiet (Workflow.db_statement E).
Proof. unfold Workflow.db_statement. quiet_auto. Qed.

Lemma quiet_shanghai : Inv.quiet (Workflow.shanghai_recent_days E).
Proof. unfold Workflow.shanghai_recent_days. quiet_auto. Qed.

Lemma quiet_db_init_schema : Inv.quiet (Workflow.db_init_schema E).
Proof.
  unfold Workflow.db_init_schema.
  apply quiet_bind; [apply quiet_db_statement | intros _]. quiet_auto.
Qed.

Lemma quiet_db_start_run o : Inv.quiet (Workflow.db_start_run E o).
Proof.
  unfold Workflow.db_start_run, Workflow.now_text.
  apply quiet_bind;
    [destruct (Str.truthy _); quiet_auto | intros fresh].
  apply quiet_bind; [quiet_auto | intros now].
  apply quiet_bind; [apply quiet_db_statement | intros _]. quiet_auto.
Qed.

End Finalization.

(** ** workflow.py: one candidate *)

Section Steady.
Context {W : Type} (E : Workflow.Env W).

Lemma same_counters_refl (s : Workflow.State W) : Inv.same_counters s s.
Proof. repeat split. Qed.

Lemma same_counters_trans (a b c : Workflow.State W) :
  Inv.same_counters a b -> Inv.same_counters b c -> Inv.same_counters a c.
Proof. unfold Inv.same_counters. intuition congruence. Qed.

Lemma steady_ret {A} (a : A) : Inv.steady (W:=W) (ret a).
Proof. intros s. apply same_counters_refl. Qed.

Lemma steady_raise {A} e : Inv.steady (W:=W) (A:=A) (raise e).
Proof. intros s. apply same_counters_refl. Qed.

Lemma steady_lift {A} (o : Outcome A) : Inv.steady (W:=W) (lift_outcome o).
Proof. intros s. apply same_counters_refl. Qed.

Lemma steady_get : Inv.steady (W:=W) get_state.
Proof. intros s. apply same_counters_refl. Qed.

Lemma steady_bind {A B} (m : M (Workflow.State W) A)
      (k : A -> M (Workflow.State W) B) :
  Inv.steady m -> (forall a, Inv.steady (k a)) -> Inv.steady (bind m k).
Proof.
  intros Hm Hk s. unfold bind. specialize (Hm s).
  destruct (m s) as [[a | e] s1]; cbn [snd] in *; [| exact Hm].
  eapply same_counters_trans; [exact Hm | apply Hk].
Qed.

Lemma steady_try {A} (m : M (Workflow.State W) A)
      (h : string -> M (Workflow.State W) A) :
  Inv.steady m -> (forall e, Inv.steady (h e)) -> Inv.steady (try_except m h).
Proof.
  intros Hm Hh s. unfold try_except. specialize (Hm s).
  destruct (m s) as [[a | e] s1]; cbn [snd] in *; [exact Hm |].
  eapply same_counters_trans; [exact Hm | apply Hh].
Qed.

Lemma steady_call {A} (m : M W A) : Inv.steady (Workflow.call m).
Proof.
  intros s. unfold Workflow.call. destruct (m (Workflow.ext s)).
  repeat split.
Qed.

Lemma steady_on_db {A} (f : Db.Database -> A * Db.Database) :
  Inv.steady (Workflow.on_db (W:=W) f).
Proof.
  intros s. unfold Workflow.on_db. destruct (f (Workflow.db s)).
  repeat split.
Qed.

Lemma steady_emit e : Inv.steady (Workflow.emit (W:=W) e).
Proof. intros s. repeat split. Qed.

Lemma steady_modify (f : Workflow.State W -> Workflow.State W) :
  Inv.silent f -> Inv.steady (modify f).
Proof. intros Hf s. destruct (Hf s) as (_ & H). exact H. Qed.
End Steady.

Create HintDb steady.

Ltac steady_step :=
  lazymatch goal with
  | |- Inv.steady (ret _) => apply steady_ret
  | |- Inv.steady (raise _) => apply steady_raise
  | |- Inv.steady (lift_outcome _) => apply steady_lift
  | |- Inv.steady get_state => apply steady_get
  | |- Inv.steady (bind _ _) => apply steady_bind; [| intros ?]
  | |- Inv.steady (try_except _ _) => apply steady_try; [| intros ?]
  | |- Inv.steady (Workflow.call _) => apply steady_call
  | |- Inv.steady (Workflow.on_db _) => apply steady_on_db
  | |- Inv.steady (Workflow.emit _) => apply steady_emit
  | |- Inv.steady (modify _) => apply steady_modify; intros ?; repeat split
  | |- Inv.steady (if ?b then _ else _) => destruct b
  | |- Inv.steady (match ?x with _ => _ end) => destruct x
  end.

Ltac steady_auto := repeat first [ steady_step | solve [eauto with steady] ].

Section SteadyCalls.
Context {W : Type} (E : Workflow.Env W).

Lemma steady_db_statement : Inv.steady (Workflow.db_statement E).
Proof. unfold Workflow.db_statement. steady_auto. Qed.
Hint Resolve steady_db_statement : steady.

Lemma steady_now_text : Inv.steady (Workflow.now_text E).
Proof. unfold Workflow.now_text. steady_auto. Qed.
Hint Resolve steady_now_text : steady.

Lemma steady_item_delay idx : Inv.steady (Workflow.item_delay E idx).
Proof. unfold Workflow.item_delay. steady_auto. Qed.

Lemma steady_db_is_duplicate t u d :
  Inv.steady (Workflow.db_is_duplicate E t u d).
Proof. unfold Workflow.db_is_duplicate. steady_auto. Qed.

Lemma steady_db_insert t u d st :
  Inv.steady (Workflow.db_insert_announcement_base E t u d st).
Proof. unfold Workflow.db_insert_announcement_base. steady_auto. Qed.

Lemma steady_db_update t c a st :
  Inv.steady (Workflow.db_update_announcement_detail E t c a st).
Proof. unfold Workflow.db_update_announcement_detail. steady_auto. Qed.
Hint Resolve steady_db_update : steady.

Lemma steady_send_card c : Inv.steady (Workflow.send_card E c).
Proof. unfold Workflow.send_card. steady_auto. Qed.
Hint Resolve steady_send_card : steady.

Lemma steady_fetch url : Inv.steady (Workflow.fetch E url).
Proof. unfold Workflow.fetch. steady_auto. Qed.
Hint Resolve steady_fetch : steady.

Lemma steady_summarize cfg title content :
  Inv.steady (Workflow.summarize E cfg title content).
Proof. unfold Workflow.summarize. steady_auto. Qed.
Hint Resolve steady_summarize : steady.

Lemma steady_notify_item cfg title d summary abs_url :
  Inv.steady (Workflow.notify_item E cfg title d summary abs_url).
Proof. unfold Workflow.notify_item. steady_auto. Qed.
Hint Resolve steady_notify_item : steady.

Lemma steady_item_detail cfg title d abs_url :
  Inv.steady (Workflow.item_detail E cfg title d abs_url).
Proof. unfold Workflow.item_detail. steady_auto. Qed.
Hint Resolve steady_item_detail : steady.

Lemma steady_item_failed title e :
  Inv.steady (Workflow.item_failed E title e).
Proof. unfold Workflow.item_failed. steady_auto. Qed.
Hint Resolve steady_item_failed : steady.

Lemma steady_throttle_step cfg adaptive :
  Inv.steady (W:=W) (Workflow.throttle_step cfg adaptive).
Proof. unfold Workflow.throttle_step. steady_auto. Qed.
Hint Resolve steady_throttle_step : steady.

(** Fetching, summarizing and storing the detail of an item, failed or
    not, changes no counter. *)
Lemma steady_item_enrich cfg adaptive title d abs_url :
  Inv.steady (Workflow.item_enrich E cfg adaptive title d abs_url).
Proof. unfold Workflow.item_enrich. steady_auto. Qed.
End SteadyCalls.

Ltac quiet_step :=
  lazymatch goal with
  | |- Inv.quiet (ret _) => apply quiet_ret
  | |- Inv.quiet (lift_outcome _) => apply quiet_lift
  | |- Inv.quiet get_state => apply quiet_get
  | |- Inv.quiet (bind _ _) => apply quiet_bind; [| intros ?]
  | |- Inv.quiet (Workflow.call _) => apply quiet_call
  | |- Inv.quiet (Workflow.on_db _) => apply quiet_on_db
  | |- Inv.quiet (Workflow.db_statement _) => apply quiet_db_statement
  | |- Inv.quiet (modify _) => apply quiet_modify; intros ?; repeat split
  | |- Inv.quiet (if ?b then _ else _) => destruct b
  end.

Ltac quiet_calls := repeat quiet_step.

Section OneItem.
Context {W : Type} (E : Workflow.Env W).

Lemma quiet_item_delay idx : Inv.quiet (Workflow.item_delay E idx).
Proof. unfold Workflow.item_delay. quiet_calls. Qed.

Lemma quiet_db_is_duplicate t u d :
  Inv.quiet (Workflow.db_is_duplicate E t u d).
Proof. unfold Workflow.db_is_duplicate. quiet_calls. Qed.

Lemma db_insert_trace t u d st (s : Workflow.State W) :
  Workflow.trace (snd (Workflow.db_insert_announcement_base E t u d st s))
  = (Workflow.trace s ++ [Workflow.EvInsert t u d st])%list.
Proof.
  unfold Workflow.db_insert_announcement_base, Workflow.now_text.
  unfold bind at 1. cbn [Workflow.emit modify].
  match goal with
  | |- Workflow.trace (snd (?m ?s0)) = _ =>
      assert (Hq : Inv.quiet m) by quiet_calls; rewrite (Hq s0)
  end.
  reflexivity.
Qed.

(** [INSERT OR IGNORE] writes nothing exactly when the new row would
    violate a unique index of the table; the index of the active
    strategy is one of them once [init_schema] has run, so a row that
    [is_duplicate] finds is rejected. *)
Lemma insert_rejected_iff t u d st now db :
  fst (Db.insert_announcement_base t u d st now db) = false
  <-> Db.conflicts t u d db = true.
Proof.
  unfold Db.insert_announcement_base.
  destruct (Db.conflicts t u d db); cbn; split; congruence.
Qed.

Lemma insert_rejected_same_db t u d st now db :
  fst (Db.insert_announcement_base t u d st now db) = false ->
  snd (Db.insert_announcement_base t u d st now db) = db.
Proof.
  unfold Db.insert_announcement_base.
  destruct (Db.conflicts t u d db); cbn; [reflexivity | discriminate].
Qed.

Lemma create_index_has_index db :
  Db.has_index (Db.strategy_index (Db._create_strategy_unique_index db))
    (Db._create_strategy_unique_index db) = true.
Proof.
  unfold Db._create_strategy_unique_index.
  destruct (Db.has_index (Db.strategy_index db) db) eqn:Hi; [exact Hi |].
  change (Db.strategy_index (Db.with_unique_indexes db _))
    with (Db.strategy_index db).
  unfold Db.has_index, Db.with_unique_indexes. cbn.
  rewrite existsb_app. cbn.
  destruct (Db.strategy_index db); cbn; now rewrite orb_true_r.
Qed.

Lemma init_schema_has_strategy_index db :
  Db.has_index (Db.strategy_index (Db.init_schema db)) (Db.init_schema db)
  = true.
Proof.
  unfold Db.init_schema, Db._ensure_announcements_table.
  apply create_index_has_index.
Qed.

Lemma duplicate_is_rejected t u d st now db :
  Db.has_index (Db.strategy_index db) db = true ->
  Db.is_duplicate t u d db = true ->
  fst (Db.insert_announcement_base t u d st now db) = false.
Proof.
  intros Hix Hdup. apply insert_rejected_iff.
  unfold Db.conflicts. apply existsb_exists.
  exists (Db.strategy_index db). split.
  - unfold Db.has_index in Hix. apply existsb_exists in Hix as (ix & Hin & Heq).
    destruct (Db.strategy_index db), ix; try discriminate; exact Hin.
  - unfold Db.is_duplicate, Db.strategy_index in *.
    destruct (String.eqb (Db._dedupe_strategy db) "url"); [exact Hdup |].
    destruct (String.eqb (Db._dedupe_strategy db) "title_date"); exact Hdup.
Qed.
End OneItem.

Section Downgrade.
Context {W : Type} (E : Workflow.Env W).

Lemma count_new_runs (s : Workflow.State W) :
  Workflow.count_new s = (Ok tt, snd (Workflow.count_new s)).
Proof. reflexivity. Qed.

Lemma downgrade_new_runs (s : Workflow.State W) :
  Workflow.downgrade_new s = (Ok tt, snd (Workflow.downgrade_new s)).
Proof. reflexivity. Qed.

Lemma count_duplicate_runs (s : Workflow.State W) :
  Workflow.count_duplicate s = (Ok tt, snd (Workflow.count_duplicate s)).
Proof. reflexivity. Qed.

Lemma ingest_loop_cons cfg adaptive max_items idx it rest :
  Workflow.ingest_loop E cfg adaptive max_items idx (it :: rest)
  = if negb (max_items =? 0) && (max_items <=? idx) then ret tt
    else bind (Workflow.process_item E cfg adaptive idx it)
           (fun _ => Workflow.ingest_loop E cfg adaptive max_items
                       (idx + 1) rest).
Proof. reflexivity. Qed.

(** What [process_item] does once the delay has passed and the
    duplicate check has answered "new". *)
Lemma process_new_item cfg adaptive idx title link d
      (s s0 s1 : Workflow.State W) :
  Workflow.item_delay E idx s = (Ok tt, s0) ->
  Workflow.db_is_duplicate E title (Workflow.abs_url_of E cfg link) d s0
  = (Ok false, s1) ->
  Workflow.process_item E cfg adaptive idx (title, link, d) s
  = if Workflow.dry_run cfg then (Ok tt, snd (Workflow.count_new s1))
    else
      match Workflow.db_insert_announcement_base E title
              (Workflow.abs_url_of E cfg link) d "NEW"
              (snd (Workflow.count_new s1)) with
      | (Ok true, s2) =>
          Workflow.item_enrich E cfg adaptive title d
            (Workflow.abs_url_of E cfg link) s2
      | (Ok false, s2) => (Ok tt, snd (Workflow.downgrade_new s2))
      | (Raise e, s2) => (Raise e, s2)
      end.
Proof.
  intros Hdelay Hdup. unfold Workflow.process_item.
  unfold bind at 1. rewrite Hdelay. cbv zeta.
  unfold bind at 1. rewrite Hdup. cbv iota beta.
  unfold bind at 1. rewrite count_new_runs.
  destruct (Workflow.dry_run cfg); [reflexivity |].
  unfold bind at 1.
  destruct (Workflow.db_insert_announcement_base E title _ d "NEW" _)
    as [[[] | e] s2]; reflexivity.
Qed.

(** C6.  A candidate that the duplicate check classified as new and
    whose stub insert is rejected is counted as a duplicate instead:
    [total_new] goes down by one, back to its value before the item,
    [total_duplicate] goes up by one, the only call the item adds is the
    insert (no detail fetch, no update), and the loop goes on with the
    next candidate.  No other path takes a "new" back: in every other
    case an item classified as new leaves [total_new] one higher. *)
Theorem rejected_insert_downgrades_new cfg adaptive idx title link d
        (s s0 s1 : Workflow.State W) :
  Workflow.item_delay E idx s = (Ok tt, s0) ->
  Workflow.db_is_duplicate E title (Workflow.abs_url_of E cfg link) d s0
  = (Ok false, s1) ->
  let abs_url := Workflow.abs_url_of E cfg link in
  let insert := Workflow.db_insert_announcement_base E title abs_url d "NEW"
                  (snd (Workflow.count_new s1)) in
  (forall s2,
      Workflow.dry_run cfg = false ->
      insert = (Ok false, s2) ->
      let s' := snd (Workflow.downgrade_new s2) in
      Workflow.process_item E cfg adaptive idx (title, link, d) s = (Ok tt, s')
      /\ Workflow.total_new s' = Workflow.total_new s2 - 1
      /\ Workflow.total_duplicate s' = Workflow.total_duplicate s2 + 1
      /\ Workflow.total_new s' = Workflow.total_new s
      /\ Workflow.total_duplicate s' = Workflow.total_duplicate s + 1
      /\ Workflow.total_processed s' = Workflow.total_processed s + 1
      /\ Workflow.trace s'
         = (Workflow.trace s
            ++ [Workflow.EvInsert title abs_url d "NEW"])%list
      /\ forall max_items rest,
          max_items = 0 \/ idx < max_items ->
          Workflow.ingest_loop E cfg adaptive max_items idx
            ((title, link, d) :: rest) s
          = Workflow.ingest_loop E cfg adaptive max_items (idx + 1) rest s')
  /\ (forall r s',
         Workflow.process_item E cfg adaptive idx (title, link, d) s = (r, s') ->
         Workflow.total_new s' = Workflow.total_new s + 1
         \/ (Workflow.dry_run cfg = false
             /\ exists s2, insert = (Ok false, s2)
                           /\ s' = snd (Workflow.downgrade_new s2)
                           /\ Workflow.total_new s' = Workflow.total_new s)).
Proof.
  intros Hdelay Hdup abs_url insert.
  pose proof (steady_item_delay E idx s) as C0. rewrite Hdelay in C0.
  pose proof (steady_db_is_duplicate E title abs_url d s0) as C1.
  fold abs_url in Hdup. rewrite Hdup in C1.
  pose proof (steady_db_insert E title abs_url d "NEW"
                (snd (Workflow.count_new s1))) as C2.
  fold insert in C2.
  pose proof (quiet_item_delay E idx s) as T0. rewrite Hdelay in T0.
  pose proof (quiet_db_is_duplicate E title abs_url d s0) as T1.
  rewrite Hdup in T1.
  pose proof (db_insert_trace E title abs_url d "NEW"
                (snd (Workflow.count_new s1))) as T2.
  fold insert in T2.
  cbn [snd] in C0, C1, T0, T1.
  destruct C0 as (N0 & D0 & P0), C1 as (N1 & D1 & P1).
  pose proof (process_new_item cfg adaptive idx title link d s s0 s1
                Hdelay Hdup) as Hstep.
  fold abs_url in Hstep. fold insert in Hstep.
  split.
  - intros s2 Hdry Hins s'. rewrite Hdry, Hins in Hstep.
    rewrite Hins in C2, T2. cbn [snd] in C2, T2.
    destruct C2 as (N2 & D2 & P2). cbn in N2, D2, P2, T2.
    split; [exact Hstep |].
    assert (Hloop : forall max_items rest,
               max_items = 0 \/ idx < max_items ->
               Workflow.ingest_loop E cfg adaptive max_items idx
                 ((title, link, d) :: rest) s
               = Workflow.ingest_loop E cfg adaptive max_items (idx + 1)
                   rest s').
    { intros max_items rest Hcap. rewrite ingest_loop_cons.
      replace (negb (max_items =? 0) && (max_items <=? idx)) with false.
      - unfold bind at 1. now rewrite Hstep.
      - symmetry. destruct Hcap as [-> | Hlt]; [reflexivity |].
        apply andb_false_iff. right. apply Z.leb_gt. exact Hlt. }
    subst s'. cbn [Workflow.downgrade_new bind modify snd
                     Workflow.total_new Workflow.total_duplicate
                     Workflow.total_processed Workflow.trace
                     Workflow.set_total_new Workflow.set_total_duplicate].
    repeat split; try lia; try exact Hloop.
    rewrite T2, T1, T0. reflexivity.
  - intros r s' Hrun. rewrite Hrun in Hstep.
    destruct (Workflow.dry_run cfg).
    { left. injection Hstep as _ ->. cbn. lia. }
    destruct insert as [[[] | e] s2] eqn:Hins; cbn [snd] in C2, T2;
      destruct C2 as (N2 & D2 & P2); cbn in N2, D2, P2.
    + left.
      pose proof (steady_item_enrich E cfg adaptive title d abs_url s2)
        as (N3 & _).
      rewrite <- Hstep in N3. cbn [snd] in N3. lia.
    + right. split; [reflexivity |]. exists s2.
      injection Hstep as _ ->. split; [reflexivity |].
      split; [reflexivity |]. cbn. lia.
    + left. injection Hstep as _ ->. lia.
Qed.
End Downgrade.

Section DetailFailure.
Context {W : Type} (E : Workflow.Env W).

Lemma updated_rows t c a st now db r :
  r ∈ Db.announcements (Db._conn (Db.update_announcement_detail t c a st now db)) ->
  Db.title r = t ->
  Db.status r = st /\ Db.content r = Some c /\ Db.ai_summary r = Some a.
Proof.
  unfold Db.update_announcement_detail, Db.with_announcements. cbn.
  rewrite list_elem_of_In, in_map_iff. intros (r0 & Hr & _) Ht.
  destruct (String.eqb_spec (Db.title r0) t) as [Heq | Hne].
  - subst r. cbn. auto.
  - subst r. contradiction.
Qed.

(** A completed [update_announcement_detail]: one call recorded, the
    local lists untouched, the rows rewritten by title. *)
Lemma db_update_done t c a st (s s2 : Workflow.State W) :
  Workflow.db_update_announcement_detail E t c a st s = (Ok tt, s2) ->
  Workflow.trace s2
  = (Workflow.trace s ++ [Workflow.EvUpdateDetail t c a st])%list
  /\ Workflow.item_errors s2 = Workflow.item_errors s
  /\ Workflow.new_items s2 = Workflow.new_items s
  /\ exists now db0,
      Workflow.db s2 = Db.update_announcement_detail t c a st now db0.
Proof.
  unfold Workflow.db_update_announcement_detail, Workflow.now_text,
    Workflow.db_statement, Workflow.emit, Workflow.call, bind, modify,
    get_state, ret.
  cbn [Workflow.ext Workflow.add_event Workflow.db Workflow.set_ext].
  destruct (Workflow.clock_now E (Workflow.ext s)) as [[n | e] w1];
    [| discriminate].
  cbn [Workflow.ext Workflow.add_event Workflow.db Workflow.set_ext].
  destruct (Workflow.db_sync E (Db._conn (Workflow.db s)) w1)
    as [[tb | e] w2]; [| discriminate].
  intros H. injection H as <-. cbn.
  split; [reflexivity |]. split; [reflexivity |]. split; [reflexivity |].
  eauto.
Qed.

Lemma item_failed_done title e (s1 s2 : Workflow.State W) :
  Workflow.item_failed E title e s1 = (Ok tt, s2) ->
  Workflow.item_errors s2
  = (Workflow.item_errors s1
     ++ ["item_failed: " +:+ title +:+ ": " +:+ e])%list
  /\ Workflow.trace s2
     = (Workflow.trace s1
        ++ [Workflow.EvUpdateDetail title "" Workflow.AI_FAILED "FAILED"])%list
  /\ (forall r, r ∈ Db.announcements (Db._conn (Workflow.db s2)) ->
                Db.title r = title ->
                Db.status r = "FAILED" /\ Db.content r = Some ""
                /\ Db.ai_summary r = Some Workflow.AI_FAILED).
Proof.
  unfold Workflow.item_failed. unfold bind at 1. cbn [modify].
  intros H. apply db_update_done in H as (Ht & He & _ & now & db0 & Hdb).
  cbn in Ht, He. split; [exact He |]. split; [exact Ht |].
  intros r Hr Htitle. rewrite Hdb in Hr.
  exact (updated_rows _ _ _ _ _ _ _ Hr Htitle).
Qed.

Lemma item_enrich_failed cfg adaptive title d abs_url e
      (s s1 : Workflow.State W) :
  Workflow.item_detail E cfg title d abs_url s = (Raise e, s1) ->
  Workflow.item_enrich E cfg adaptive title d abs_url s
  = match Workflow.item_failed E title e s1 with
    | (Ok _, s2) => (Ok tt, s2)
    | (Raise e', s2) => (Raise e', s2)
    end.
Proof.
  intros H. unfold Workflow.item_enrich, bind, try_except. rewrite H.
  destruct (Workflow.item_failed E title e s1) as [[[] | e'] s2];
    reflexivity.
Qed.

(** Each of the three stages of the detail processing passes its
    exception on to the handler of the item. *)
Lemma detail_stage_raises cfg title d abs_url e (s : Workflow.State W) :
  Workflow.use_test_fixtures cfg = false ->
  (forall s1,
      Workflow.fetch E abs_url s = (Raise e, s1) ->
      Workflow.item_detail E cfg title d abs_url s = (Raise e, s1))
  /\ (forall html s1,
         Workflow.fetch E abs_url s = (Ok html, s1) ->
         Workflow.extract_detail_content E html = Raise e ->
         Workflow.item_detail E cfg title d abs_url s = (Raise e, s1))
  /\ (forall html s1 content s2,
         Workflow.fetch E abs_url s = (Ok html, s1) ->
         Workflow.extract_detail_content E html = Ok content ->
         Workflow.summarize E cfg title content s1 = (Raise e, s2) ->
         Workflow.item_detail E cfg title d abs_url s = (Raise e, s2)).
Proof.
  intros Hfix. unfold Workflow.item_detail. rewrite Hfix.
  repeat split.
  - intros s1 Hf. unfold bind at 1. now rewrite Hf.
  - intros html s1 Hf Hx. unfold bind at 1. rewrite Hf.
    unfold bind at 1. now rewrite Hx.
  - intros html s1 content s2 Hf Hx Hs. unfold bind at 1. rewrite Hf.
    unfold bind at 1. rewrite Hx. cbn [lift_outcome].
    unfold bind at 1. now rewrite Hs.
Qed.
End DetailFailure.

Section Completed.
Context {W : Type} (E : Workflow.Env W).

Lemma returns_bind {S A B} (Q : B -> Prop) (m : M S A) (k : A -> M S B) :
  (forall a, Inv.returns Q (k a)) -> Inv.returns Q (bind m k).
Proof.
  intros Hk s b s'. unfold bind.
  destruct (m s) as [[a | e] s1]; [apply Hk | discriminate].
Qed.

Lemma returns_ret {S A} (Q : A -> Prop) (a : A) :
  Q a -> Inv.returns (S:=S) Q (ret a).
Proof. intros Hq s a' s' H. injection H as <- _. exact Hq. Qed.

(** A report that the body of the outer [try] returns says
    COMPLETED. *)
Lemma run_try_completed cfg recent run :
  Inv.returns (fun r => Workflow.r_status r = "COMPLETED")
    (Workflow.run_try E cfg recent run).
Proof.
  unfold Workflow.run_try.
  do 3 (apply returns_bind; intros ?).
  destruct (Workflow.items _);
    repeat (apply returns_bind; intros ?);
    apply returns_ret; reflexivity.
Qed.
End Completed.

Section Contained.
Context {W : Type} (E : Workflow.Env W).

End Contained.


(** ** workflow.py: the run is finalized with the counters it reports *)

Section Finalized.
Context {W : Type} (E : Workflow.Env W).

Lemma steady_send_digest cfg t dur fuel :
  forall i, Inv.steady (Workflow.send_digest E cfg t dur fuel i).
Proof.
  induction fuel as [| k IH]; intros i; cbn [Workflow.send_digest];
    steady_auto; first [apply steady_send_card | apply IH].
Qed.

Lemma steady_notify_run cfg t dur :
  Inv.steady (Workflow.notify_run E cfg t dur).
Proof.
  unfold Workflow.notify_run. steady_auto;
    first [apply steady_send_card | apply steady_send_digest].
Qed.

Lemma db_finish_run_done rid st fin dur p n d err (s s2 : Workflow.State W) :
  Workflow.db_finish_run E rid st fin dur p n d err s = (Ok tt, s2) ->
  Workflow.trace s2
  = (Workflow.trace s ++ [Workflow.EvFinishRun rid st p n d err])%list
  /\ Inv.same_counters s s2.
Proof.
  unfold Workflow.db_finish_run, Workflow.db_statement, Workflow.emit,
    Workflow.call, bind, modify, get_state.
  cbn [Workflow.ext Workflow.add_event Workflow.db Workflow.set_ext].
  destruct (Workflow.db_sync E (Db._conn (Workflow.db s)) (Workflow.ext s))
    as [[tb | e] w2]; [| discriminate].
  intros H. injection H as <-. cbn. repeat split.
Qed.

Lemma finalized_after (s0 s1 : Workflow.State W) r s' :
  Inv.extends s0 s1 -> Inv.finalized s1 r s' -> Inv.finalized s0 r s'.
Proof.
  intros (e0 & H0 & _) (evs & err & H1 & Hin).
  exists (e0 ++ evs)%list, err. split.
  - rewrite H1, H0. now rewrite app_assoc.
  - apply elem_of_app. now right.
Qed.

Lemma finalizes_bind {A} (Q : A -> Prop) (m : M (Workflow.State W) A)
      (k : A -> M (Workflow.State W) Workflow.Report) :
  Inv.good Q m -> (forall a, Inv.finalizes (k a)) ->
  Inv.finalizes (bind m k).
Proof.
  intros Hm Hk s r s' Hs. unfold bind.
  destruct (Hm s Hs) as (J1 & X1 & _).
  destruct (m s) as [[a | e] s1]; cbn [snd] in *; [| discriminate].
  intros H. eapply finalized_after; [exact X1 |]. now apply (Hk a).
Qed.

Lemma finalizes_try (m : M (Workflow.State W) Workflow.Report)
      (h : string -> M (Workflow.State W) Workflow.Report) :
  Inv.good Inv.any m -> Inv.finalizes m -> (forall e, Inv.finalizes (h e)) ->
  Inv.finalizes (try_except m h).
Proof.
  intros Hg Hm Hh s r s' Hs. unfold try_except.
  destruct (Hg s Hs) as (J1 & X1 & _). specialize (Hm s).
  destruct (m s) as [[a | e] s1]; cbn [snd] in *.
  - intros H. injection H as <- <-. now apply Hm.
  - intros H. eapply finalized_after; [exact X1 |]. now apply (Hh e).
Qed.

(** The shape both ends of [run_once] share: the counters are read,
    [finish_run] writes them, something that changes no counter follows,
    and the report is made of the counters read again. *)
Lemma finalizes_finish status run fin dur
      (err_written : Workflow.State W -> option string)
      (err_reported : option string) (then_ : M (Workflow.State W) unit) :
  Inv.steady then_ -> Inv.good Inv.any then_ ->
  Inv.finalizes
    (s <- get_state ;;
     Workflow.db_finish_run E (fst run) status fin dur
       (Workflow.total_processed s) (Workflow.total_new s)
       (Workflow.total_duplicate s) (err_written s) ;;;
     then_ ;;;
     s <- get_state ;;
     ret (Workflow.report_of status run dur err_reported s)).
Proof.
  intros Hst Hgood s r s' Hs. unfold bind at 1. cbn [get_state].
  unfold bind at 1.
  destruct (Workflow.db_finish_run E _ _ _ _ _ _ _ _ s) as [[[] | e] s1]
    eqn:Hfin; [| discriminate].
  apply db_finish_run_done in Hfin as (Ht1 & N1 & D1 & P1).
  unfold bind at 1.
  assert (Hs1 : Inv.counters_ok s1)
    by (unfold Inv.counters_ok in *; lia).
  destruct (Hgood s1 Hs1) as (_ & (evs & Ht2 & _) & _).
  pose proof (Hst s1) as (N2 & D2 & P2).
  destruct (then_ s1) as [[[] | e] s2]; cbn [snd] in *; [| discriminate].
  cbn. intros H. injection H as <- <-.
  exists ([Workflow.EvFinishRun (fst run) status (Workflow.total_processed s)
             (Workflow.total_new s) (Workflow.total_duplicate s)
             (err_written s)] ++ evs)%list, (err_written s).
  split; [rewrite Ht2, Ht1; now rewrite <- app_assoc |].
  cbn [Workflow.report_of Workflow.r_run_id Workflow.r_status
         Workflow.r_total_processed Workflow.r_total_new
         Workflow.r_total_duplicate].
  rewrite N2, D2, P2, N1, D1, P1. apply elem_of_app. left.
  apply list_elem_of_singleton. reflexivity.
Qed.

Lemma finalizes_finish_empty rid st fin dur started :
  Inv.finalizes
    (Workflow.db_finish_run E rid st fin dur 0 0 0 None ;;;
     ret (Workflow.mkReport st rid started dur 0 0 0 None)).
Proof.
  intros s r s' Hs. unfold bind.
  destruct (Workflow.db_finish_run E rid st fin dur 0 0 0 None s)
    as [[[] | e] s1] eqn:Hfin; [| discriminate].
  apply db_finish_run_done in Hfin as (Ht1 & _).
  intros H. injection H as <- <-.
  exists [Workflow.EvFinishRun rid st 0 0 0 None], None.
  split; [exact Ht1 |]. apply list_elem_of_singleton. reflexivity.
Qed.

(** A report from the body of the outer [try] was written by
    [finish_run] first. *)
Lemma finalizes_run_try cfg recent run :
  Inv.finalizes (Workflow.run_try E cfg recent run).
Proof.
  unfold Workflow.run_try.
  eapply finalizes_bind; [apply good_date_fromisoformat | intros today_].
  eapply finalizes_bind; [apply good_date_minus_days | intros ek].
  eapply finalizes_bind; [apply good_collect | intros collected].
  destruct (Workflow.items collected) as [| it raw_items].
  - eapply finalizes_bind; [apply good_call | intros duration].
    eapply finalizes_bind; [apply good_shanghai | intros fin].
    apply finalizes_finish_empty.
  - eapply finalizes_bind; [apply good_lift; intros; exact I | intros re].
    eapply finalizes_bind; [good_auto | intros now_dt].
    eapply finalizes_bind; [apply good_base_date_of | intros base_date].
    eapply finalizes_bind; [apply good_allowed_dates | intros allowed].
    eapply finalizes_bind; [good_auto | intros _].
    eapply finalizes_bind; [apply good_ingest_loop | intros _].
    eapply finalizes_bind; [apply good_call | intros duration].
    eapply finalizes_bind; [apply good_shanghai | intros fin].
    apply (finalizes_finish "COMPLETED" run (TimeUtils.now_iso fin) duration
             (fun s => match Workflow.item_errors s with
                       | [] => None
                       | errs => Some (Str.take 4000
                                         (Str.join (String "010" "") errs))
                       end)
             None (Workflow.notify_run E cfg (snd run) duration)).
    + apply steady_notify_run.
    + apply good_notify_run.
Qed.

(** And so was a report from the outer handler. *)
Lemma finalizes_run_failed cfg run e :
  Inv.finalizes (Workflow.run_failed E cfg run e).
Proof.
  unfold Workflow.run_failed.
  eapply finalizes_bind; [apply good_call | intros duration].
  eapply finalizes_bind; [apply good_shanghai | intros fin].
  cbv zeta.
  apply (finalizes_finish "FAILED" run (TimeUtils.now_iso fin) duration
           (fun _ => Some (Str.take 4000
                             (e +:+ String "010" ""
                                +:+ Workflow.format_exc E e)))
           (Some (e +:+ String "010" "" +:+ Workflow.format_exc E e))
           (if Workflow.feishu_on cfg
            then Workflow.send_card E
                   (Workflow.build_error_card (TimeUtils.now_iso fin) e)
            else ret tt)).
  - destruct (Workflow.feishu_on cfg);
      [apply steady_send_card | apply steady_ret].
  - destruct (Workflow.feishu_on cfg);
      [apply good_send_card | now apply good_ret].
Qed.

End Finalized.

(** ** The examples, run *)


Lemma rejected_insert_downgrades_new_witness :
  exists s',
    Workflow.process_item (Scenario.site (Some 1%nat) None) Scenario.cfg false
      0 ("AI chips", "/d3", "2026-02-01") Scenario.ready = (Ok tt, s')
    /\ Workflow.total_new s' = 0
    /\ Workflow.total_duplicate s' = 1
    /\ Workflow.total_processed s' = 1
    /\ Workflow.trace s'
       = [Workflow.EvInsert "AI chips" "https://site/d3" "2026-02-01" "NEW"].
Proof.
  pose (E := Scenario.site (Some 1%nat) None).
  pose (s1 := snd (Workflow.db_is_duplicate E "AI chips"
                     (Workflow.abs_url_of E Scenario.cfg "/d3") "2026-02-01"
                     Scenario.ready)).
  pose (s2 := snd (Workflow.db_insert_announcement_base E "AI chips"
                     (Workflow.abs_url_of E Scenario.cfg "/d3") "2026-02-01"
                     "NEW" (snd (Workflow.count_new s1)))).
  assert (Hdelay : Workflow.item_delay E 0 Scenario.ready
                   = (Ok tt, Scenario.ready)) by reflexivity.
  assert (Hdup : Workflow.db_is_duplicate E "AI chips"
                   (Workflow.abs_url_of E Scenario.cfg "/d3") "2026-02-01"
                   Scenario.ready = (Ok false, s1))
    by (vm_compute; reflexivity).
  assert (Hins : Workflow.db_insert_announcement_base E "AI chips"
                   (Workflow.abs_url_of E Scenario.cfg "/d3") "2026-02-01"
                   "NEW" (snd (Workflow.count_new s1)) = (Ok false, s2))
    by (vm_compute; reflexivity).
  destruct (rejected_insert_downgrades_new E Scenario.cfg false 0 "AI chips"
              "/d3" "2026-02-01" Scenario.ready Scenario.ready s1 Hdelay Hdup)
    as [Hrej _].
  destruct (Hrej s2 eq_refl Hins) as (Hrun & _ & _ & Hn & Hd & Hp & Ht & _).
  exists (snd (Workflow.downgrade_new s2)).
  split; [exact Hrun |]. split; [exact Hn |]. split; [exact Hd |].
  split; [exact Hp |]. rewrite Ht. vm_compute. reflexivity.
Defined.


(** * Properties of the rest of the package *)

(** ** http_client.py: the retry loops *)

Section RetryLoops.
Context {W : Type} (ses : Http.Session W).

Lemma recorded_get_attempt (cfg : Http.HttpConfig) (url : string) (w : W)
      (log : list HttpClient.Action) :
  exists (a : Outcome Http.Response) (w1 : W),
    Http.session_get ses url (HttpClient.seconds (Http.timeout_ms cfg)) w
    = (a, w1)
    /\ Http.get_attempt (HttpClient.recorded ses) cfg url (w, log)
       = (match HttpClient.refused a, a with
          | Some e, _ => Raise e
          | None, Ok r => Ok (Http.text r)
          | None, Raise e => Raise e
          end,
          (w1, (log ++ [HttpClient.Sent (Http.GET url) a])%list)).
Proof.
  unfold Http.get_attempt, bind, HttpClient.seconds. simpl.
  destruct (Http.session_get ses url _ w) as [[resp | e] w1] eqn:Hget.
  - exists (Ok resp), w1. split; [reflexivity |].
    simpl. unfold Http.raise_for_status.
    destruct ((400 <=? Http.status_code resp)
              && (Http.status_code resp <? 600)); reflexivity.
  - exists (Raise e), w1. split; reflexivity.
Qed.

Lemma recorded_sleep_ms (ms : Z) (w : W) (log : list HttpClient.Action) :
  0 <= ms ->
  exists (r : Outcome unit) (w1 : W),
    Http.sleep ses (HttpClient.seconds ms) w = (r, w1)
    /\ Http.sleep_ms (HttpClient.recorded ses) ms (w, log)
       = (r, (w1, (log ++ [HttpClient.Sleep (HttpClient.seconds ms)])%list)).
Proof.
  intros Hms. unfold Http.sleep_ms.
  destruct (Z.ltb_spec ms 0) as [Hlt | _]; [lia |].
  simpl. unfold HttpClient.seconds.
  destruct (Http.sleep ses _ w) as [r w1]. exists r, w1. split; reflexivity.
Qed.

Lemma get_text_loop_S {V} (sn : Http.Session V) (cfg : Http.HttpConfig)
      (k : nat) (attempt : Z) (last_err : option string) (url : string) :
  Http.get_text_loop sn cfg (S k) attempt last_err url
  = try_except (Http.get_attempt sn cfg url)
      (fun e =>
         (if attempt <? Http.retry_count cfg
          then Http.sleep_ms sn (Http.retry_interval_ms cfg) else ret tt) ;;;
         Http.get_text_loop sn cfg k (attempt + 1) (Some e) url).
Proof. reflexivity. Qed.

Lemma get_text_loop_ok (cfg : Http.HttpConfig) (url : string) (n : nat) :
  forall (attempt : Z) (last_err : option string) (w : W)
         (log : list HttpClient.Action) (t : string) (w' : W)
         (log' : list HttpClient.Action),
    Z.of_nat n + attempt = Http.retry_count cfg + 1 ->
    Http.get_text_loop (HttpClient.recorded ses) cfg n attempt last_err url
      (w, log) = (Ok t, (w', log')) ->
    exists (failures : list (Outcome Http.Response)) (resp : Http.Response),
      log' = (log
              ++ HttpClient.retried (Http.GET url)
                   (HttpClient.seconds (Http.retry_interval_ms cfg)) failures
              ++ [HttpClient.Sent (Http.GET url) (Ok resp)])%list
      /\ Forall (fun a => HttpClient.refused a <> None) failures
      /\ HttpClient.refused (Ok resp) = None
      /\ Http.text resp = t
      /\ (length failures < n)%nat.
Proof.
  induction n as [| n IH]; intros attempt last_err w log t w' log' Hn Hrun.
  - simpl in Hrun. destruct last_err; discriminate.
  - cbn [Http.get_text_loop] in Hrun. unfold try_except in Hrun.
    destruct (recorded_get_attempt cfg url w log) as (a & w1 & Hget & Hat).
    rewrite Hat in Hrun.
    destruct (HttpClient.refused a) as [e |] eqn:Href.
    + unfold bind in Hrun.
      destruct (Z.ltb_spec attempt (Http.retry_count cfg)) as [Hlt | Hge].
      * unfold Http.sleep_ms in Hrun.
        destruct (Z.ltb_spec (Http.retry_interval_ms cfg) 0) as [Hneg | Hpos];
          [discriminate |].
        simpl in Hrun. fold (HttpClient.seconds (Http.retry_interval_ms cfg))
          in Hrun.
        destruct (Http.sleep ses _ w1) as [[[] | e'] w2]; [| discriminate].
        apply IH in Hrun; [| lia].
        destruct Hrun as (failures & resp & -> & Hall & Hgood & Htext & Hlen).
        exists (a :: failures), resp.
        split; [| split; [| split; [| split]]]; auto.
        -- simpl. rewrite <- !app_assoc. reflexivity.
        -- constructor; [rewrite Href; discriminate | exact Hall].
        -- simpl. lia.
      * simpl in Hrun. apply IH in Hrun; [| lia].
        destruct Hrun as (failures & resp & _ & _ & _ & _ & Hlen).
        assert (n = 0%nat) by lia. subst n. lia.
    + destruct a as [r | e]; [| discriminate].
      injection Hrun as <- <- <-.
      exists [], r. simpl. repeat split; auto. lia.
Qed.

Lemma get_text_loop_raise (cfg : Http.HttpConfig) (url : string)
      (Hsleep : forall d w, exists w', Http.sleep ses d w = (Ok tt, w'))
      (Hpause : 0 <= Http.retry_interval_ms cfg) (n : nat) :
  forall (attempt : Z) (last_err : option string) (w : W)
         (log : list HttpClient.Action) (e : string) (w' : W)
         (log' : list HttpClient.Action),
    Z.of_nat (S n) + attempt = Http.retry_count cfg + 1 ->
    Http.get_text_loop (HttpClient.recorded ses) cfg (S n) attempt last_err
      url (w, log) = (Raise e, (w', log')) ->
    exists (failures : list (Outcome Http.Response))
           (last : Outcome Http.Response),
      log' = (log
              ++ HttpClient.retried (Http.GET url)
                   (HttpClient.seconds (Http.retry_interval_ms cfg)) failures
              ++ [HttpClient.Sent (Http.GET url) last])%list
      /\ Forall (fun a => HttpClient.refused a <> None) failures
      /\ HttpClient.refused last = Some e
      /\ length failures = n.
Proof.
  induction n as [| n IH]; intros attempt last_err w log e w' log' Hn Hrun;
    rewrite get_text_loop_S in Hrun; unfold try_except in Hrun;
    destruct (recorded_get_attempt cfg url w log) as (a & w1 & Hget & Hat);
    rewrite Hat in Hrun;
    (destruct (HttpClient.refused a) as [e1 |] eqn:Href;
     [| destruct a; [discriminate | simpl in Href; discriminate]]);
    unfold bind in Hrun.
  - destruct (Z.ltb_spec attempt (Http.retry_count cfg)) as [Hlt | Hge];
      [lia |].
    simpl in Hrun. injection Hrun as <- <- <-.
    exists [], a. simpl. repeat split; auto.
  - destruct (Z.ltb_spec attempt (Http.retry_count cfg)) as [Hlt | Hge];
      [| lia].
    destruct (recorded_sleep_ms (Http.retry_interval_ms cfg) w1
                (log ++ [HttpClient.Sent (Http.GET url) a])%list Hpause)
      as (r & w2 & Hsl & Hrec).
    rewrite Hrec in Hrun.
    destruct (Hsleep (HttpClient.seconds (Http.retry_interval_ms cfg)) w1)
      as [w2' Hok].
    rewrite Hok in Hsl. injection Hsl as <- <-.
    apply IH in Hrun; [| lia].
    destruct Hrun as (failures & last & -> & Hall & Hlast & Hlen).
    exists (a :: failures), last.
    split; [| split; [| split]]; auto.
    + simpl. rewrite <- !app_assoc. reflexivity.
    + constructor; [rewrite Href; discriminate | exact Hall].
    + simpl. lia.
Qed.

End RetryLoops.

(** X1.  When [get_text] returns a text, the session was asked for the URL
    once per attempt: every attempt but the last was refused (an exception
    of the session, or a 4xx/5xx status) and followed by a pause of
    [retry_interval_ms / 1000] seconds; the last one was answered with a
    good status and the text returned is its body; and no more than
    [retry_count] requests were sent. *)
Theorem get_text_returns_first_good_answer {W} (ses : Http.Session W)
        (cfg : Http.HttpConfig) (url : string) (w w' : W)
        (log log' : list HttpClient.Action) (t : string) :
  Http.get_text (HttpClient.recorded ses) cfg url (w, log)
  = (Ok t, (w', log')) ->
  exists (failures : list (Outcome Http.Response)) (resp : Http.Response),
    log' = (log
            ++ HttpClient.retried (Http.GET url)
                 (HttpClient.seconds (Http.retry_interval_ms cfg)) failures
            ++ [HttpClient.Sent (Http.GET url) (Ok resp)])%list
    /\ Forall (fun a => HttpClient.refused a <> None) failures
    /\ HttpClient.refused (Ok resp) = None
    /\ Http.text resp = t
    /\ Z.of_nat (length failures) + 1 <= Http.retry_count cfg.
Proof.
  intros Hrun. unfold Http.get_text in Hrun.
  destruct (Z.le_gt_cases (Http.retry_count cfg) 0) as [Hle | Hgt].
  - replace (Z.to_nat (Http.retry_count cfg)) with 0%nat in Hrun by lia.
    discriminate.
  - apply get_text_loop_ok in Hrun; [| lia].
    destruct Hrun as (failures & resp & Hlog & Hall & Hgood & Htext & Hlen).
    exists failures, resp. repeat split; auto. lia.
Qed.

Lemma get_text_returns_first_good_answer_witness :
  exists (failures : list (Outcome Http.Response)) (resp : Http.Response),
    [HttpClient.Sent (Http.GET "https://site/list")
       (Ok (Http.mkResponse 503 "busy"));
     HttpClient.Sleep (HttpClient.seconds 500);
     HttpClient.Sent (Http.GET "https://site/list")
       (Ok (Http.mkResponse 200 "page"))]
    = ([] ++ HttpClient.retried (Http.GET "https://site/list")
               (HttpClient.seconds 500) failures
          ++ [HttpClient.Sent (Http.GET "https://site/list") (Ok resp)])%list
    /\ Forall (fun a => HttpClient.refused a <> None) failures
    /\ HttpClient.refused (Ok resp) = None
    /\ Http.text resp = "page"
    /\ Z.of_nat (length failures) + 1 <= 3.
Proof.
  apply (get_text_returns_first_good_answer (Cases.flaky 1) Cases.patient
           "https://site/list" 0%nat 2%nat []).
  vm_compute. reflexivity.
Defined.

(** X2.  When [get_text] raises and pauses are possible (the interval is
    not negative and [time.sleep] returns), either [retry_count] is below 1,
    nothing was sent and the exception is the [AssertionError] of the final
    [assert]; or exactly [retry_count] requests for the URL were sent, all
    refused, with a pause after each but the last, and the exception is the
    one of the last attempt. *)
Theorem get_text_raises_after_all_attempts {W} (ses : Http.Session W)
        (cfg : Http.HttpConfig) (url : string) (w w' : W)
        (log log' : list HttpClient.Action) (e : string) :
  (forall d w0, exists w1, Http.sleep ses d w0 = (Ok tt, w1)) ->
  0 <= Http.retry_interval_ms cfg ->
  Http.get_text (HttpClient.recorded ses) cfg url (w, log)
  = (Raise e, (w', log')) ->
  (Http.retry_count cfg <= 0 /\ e = "AssertionError" /\ w' = w /\ log' = log)
  \/ exists (failures : list (Outcome Http.Response))
            (last : Outcome Http.Response),
       log' = (log
               ++ HttpClient.retried (Http.GET url)
                    (HttpClient.seconds (Http.retry_interval_ms cfg)) failures
               ++ [HttpClient.Sent (Http.GET url) last])%list
       /\ Forall (fun a => HttpClient.refused a <> None) failures
       /\ HttpClient.refused last = Some e
       /\ Z.of_nat (length failures) + 1 = Http.retry_count cfg.
Proof.
  intros Hsleep Hpause Hrun. unfold Http.get_text in Hrun.
  destruct (Z.le_gt_cases (Http.retry_count cfg) 0) as [Hle | Hgt].
  - left. replace (Z.to_nat (Http.retry_count cfg)) with 0%nat in Hrun by lia.
    simpl in Hrun. injection Hrun as <- <- <-. auto.
  - right.
    destruct (Z.to_nat (Http.retry_count cfg)) as [| n] eqn:Hn; [lia |].
    apply get_text_loop_raise in Hrun; auto; [| lia].
    destruct Hrun as (failures & last & Hlog & Hall & Hlast & Hlen).
    exists failures, last. repeat split; auto. lia.
Qed.

Lemma get_text_raises_after_all_attempts_witness :
  exists (failures : list (Outcome Http.Response))
         (last : Outcome Http.Response),
    [HttpClient.Sent (Http.GET "https://site/list")
       (Ok (Http.mkResponse 503 "busy"));
     HttpClient.Sleep (HttpClient.seconds 500);
     HttpClient.Sent (Http.GET "https://site/list")
       (Ok (Http.mkResponse 503 "busy"));
     HttpClient.Sleep (HttpClient.seconds 500);
     HttpClient.Sent (Http.GET "https://site/list")
       (Ok (Http.mkResponse 503 "busy"))]
    = ([] ++ HttpClient.retried (Http.GET "https://site/list")
               (HttpClient.seconds (Http.retry_interval_ms Cases.patient))
               failures
          ++ [HttpClient.Sent (Http.GET "https://site/list") last])%list
    /\ Forall (fun a => HttpClient.refused a <> None) failures
    /\ HttpClient.refused last = Some "HTTPError"
    /\ Z.of_nat (length failures) + 1 = Http.retry_count Cases.patient.
Proof.
  destruct (get_text_raises_after_all_attempts (Cases.flaky 5) Cases.patient
              "https://site/list" 0%nat 3%nat []
              [HttpClient.Sent (Http.GET "https://site/list")
                 (Ok (Http.mkResponse 503 "busy"));
               HttpClient.Sleep (HttpClient.seconds 500);
               HttpClient.Sent (Http.GET "https://site/list")
                 (Ok (Http.mkResponse 503 "busy"));
               HttpClient.Sleep (HttpClient.seconds 500);
               HttpClient.Sent (Http.GET "https://site/list")
                 (Ok (Http.mkResponse 503 "busy"))]
              "HTTPError") as [(Hrc & _) | Hall].
  - intros d w0. exists w0. reflexivity.
  - vm_compute. discriminate.
  - vm_compute. reflexivity.
  - exfalso. apply Hrc. reflexivity.
  - exact Hall.
Defined.

(** X3.  A negative [retry_interval_ms] ends the retries: when the first
    attempt is refused and another one is due, [time.sleep] is called with
    a negative length inside the handler, and its [ValueError] leaves
    [get_text] after a single request. *)
Theorem get_text_negative_interval_stops {W} (ses : Http.Session W)
        (cfg : Http.HttpConfig) (url : string) (w w1 : W)
        (a : Outcome Http.Response) (e : string) :
  Http.retry_interval_ms cfg < 0 ->
  2 <= Http.retry_count cfg ->
  Http.session_get ses url (HttpClient.seconds (Http.timeout_ms cfg)) w
  = (a, w1) ->
  HttpClient.refused a = Some e ->
  Http.get_text (HttpClient.recorded ses) cfg url (w, [])
  = (Raise "ValueError: sleep length must be non-negative",
     (w1, [HttpClient.Sent (Http.GET url) a])).
Proof.
  intros Hneg Hrc Hget Href. unfold Http.get_text.
  destruct (Z.to_nat (Http.retry_count cfg)) as [| n] eqn:Hn; [lia |].
  rewrite get_text_loop_S. unfold try_except.
  destruct (recorded_get_attempt ses cfg url w []) as (a' & w1' & Hget' & ->).
  rewrite Hget in Hget'. injection Hget' as <- <-.
  rewrite Href. unfold bind.
  destruct (Z.ltb_spec 1 (Http.retry_count cfg)) as [_ | Hge]; [| lia].
  unfold Http.sleep_ms.
  destruct (Z.ltb_spec (Http.retry_interval_ms cfg) 0) as [_ | Hge]; [| lia].
  reflexivity.
Qed.

Lemma get_text_negative_interval_stops_witness :
  Http.get_text (HttpClient.recorded (Cases.flaky 1)) Cases.hasty
    "https://site/list" (0%nat, [])
  = (Raise "ValueError: sleep length must be non-negative",
     (1%nat, [HttpClient.Sent (Http.GET "https://site/list")
                (Ok (Http.mkResponse 503 "busy"))])).
Proof.
  apply (get_text_negative_interval_stops (Cases.flaky 1) Cases.hasty
           "https://site/list" 0%nat 1%nat (Ok (Http.mkResponse 503 "busy"))
           "HTTPError").
  - vm_compute. reflexivity.
  - vm_compute. discriminate.
  - reflexivity.
  - reflexivity.
Defined.

Section PostLoop.
Context {W J : Type} (ses : Http.Session W).
Context (dumps : J -> string) (loads : string -> Outcome J).

Lemma recorded_post_attempt (url : string) (headers : list (string * string))
      (payload : J) (timeout_ms : Z) (w : W)
      (log : list HttpClient.Action) :
  exists (a : Outcome Http.Response) (w1 : W),
    Http.session_post ses url headers (dumps payload)
      (HttpClient.seconds timeout_ms) w = (a, w1)
    /\ HttpClient.post_attempt (HttpClient.recorded ses) dumps loads url
         headers payload timeout_ms (w, log)
       = (match HttpClient.declined loads a, a with
          | Some e, _ => Raise e
          | None, Ok r => loads (Http.text r)
          | None, Raise e => Raise e
          end,
          (w1, (log ++ [HttpClient.Sent
                          (Http.POST url headers (dumps payload)) a])%list)).
Proof.
  unfold HttpClient.post_attempt, bind. simpl.
  destruct (Http.session_post ses url headers (dumps payload) _ w)
    as [[resp | e] w1] eqn:Hpost.
  - exists (Ok resp), w1. split; [reflexivity |].
    unfold HttpClient.declined, HttpClient.refused, Http.raise_for_status.
    destruct ((400 <=? Http.status_code resp)
              && (Http.status_code resp <? 600)); [reflexivity |].
    unfold lift_outcome.
    destruct (loads (Http.text resp)); reflexivity.
  - exists (Raise e), w1. split; reflexivity.
Qed.

Lemma post_json_loop_S {V} (sn : Http.Session V) (k : nat) (attempt : Z)
      (last_err : option string) (url : string)
      (headers : list (string * string)) (payload : J)
      (timeout_ms retry_count retry_interval_ms : Z) :
  HttpClient.post_json_loop sn dumps loads (S k) attempt last_err url headers
    payload timeout_ms retry_count retry_interval_ms
  = try_except (HttpClient.post_attempt sn dumps loads url headers payload
                  timeout_ms)
      (fun e =>
         (if attempt <? retry_count
          then Http.sleep_ms sn retry_interval_ms else ret tt) ;;;
         HttpClient.post_json_loop sn dumps loads k (attempt + 1) (Some e)
           url headers payload timeout_ms retry_count retry_interval_ms).
Proof. reflexivity. Qed.

Lemma post_json_loop_ok (url : string) (headers : list (string * string))
      (payload : J) (timeout_ms retry_count retry_interval_ms : Z)
      (n : nat) :
  forall (attempt : Z) (last_err : option string) (w : W)
         (log : list HttpClient.Action) (j : J) (w' : W)
         (log' : list HttpClient.Action),
    Z.of_nat n + attempt = retry_count + 1 ->
    HttpClient.post_json_loop (HttpClient.recorded ses) dumps loads n attempt
      last_err url headers payload timeout_ms retry_count retry_interval_ms
      (w, log) = (Ok j, (w', log')) ->
    exists (failures : list (Outcome Http.Response)) (resp : Http.Response),
      log' = (log
              ++ HttpClient.retried (Http.POST url headers (dumps payload))
                   (HttpClient.seconds retry_interval_ms) failures
              ++ [HttpClient.Sent (Http.POST url headers (dumps payload))
                    (Ok resp)])%list
      /\ Forall (fun a => HttpClient.declined loads a <> None) failures
      /\ HttpClient.refused (Ok resp) = None
      /\ loads (Http.text resp) = Ok j
      /\ (length failures < n)%nat.
Proof.
  induction n as [| n IH]; intros attempt last_err w log j w' log' Hn Hrun.
  - simpl in Hrun. destruct last_err; discriminate.
  - rewrite post_json_loop_S in Hrun. unfold try_except in Hrun.
    destruct (recorded_post_attempt url headers payload timeout_ms w log)
      as (a & w1 & Hpost & Hat).
    rewrite Hat in Hrun.
    destruct (HttpClient.declined loads a) as [e |] eqn:Hdec.
    + unfold bind in Hrun.
      destruct (Z.ltb_spec attempt retry_count) as [Hlt | Hge].
      * unfold Http.sleep_ms in Hrun.
        destruct (Z.ltb_spec retry_interval_ms 0) as [Hneg | Hpos];
          [discriminate |].
        simpl in Hrun. fold (HttpClient.seconds retry_interval_ms) in Hrun.
        destruct (Http.sleep ses _ w1) as [[[] | e'] w2]; [| discriminate].
        apply IH in Hrun; [| lia].
        destruct Hrun as (failures & resp & -> & Hall & Hgood & Htext & Hlen).
        exists (a :: failures), resp.
        split; [| split; [| split; [| split]]]; auto.
        -- simpl. rewrite <- !app_assoc. reflexivity.
        -- constructor; [rewrite Hdec; discriminate | exact Hall].
        -- simpl. lia.
      * simpl in Hrun. apply IH in Hrun; [| lia].
        destruct Hrun as (failures & resp & _ & _ & _ & _ & Hlen).
        assert (n = 0%nat) by lia. subst n. lia.
    + destruct a as [r | e]; [| discriminate].
      unfold HttpClient.declined in Hdec.
      destruct (HttpClient.refused (Ok r)) eqn:Href; [discriminate |].
      destruct (loads (Http.text r)) as [j' | e] eqn:Hload; [| discriminate].
      injection Hrun as <- <- <-.
      exists [], r. simpl. repeat split; auto. lia.
Qed.

Lemma post_json_loop_raise (url : string) (headers : list (string * string))
      (payload : J) (timeout_ms retry_count retry_interval_ms : Z)
      (Hsleep : forall d w, exists w', Http.sleep ses d w = (Ok tt, w'))
      (Hpause : 0 <= retry_interval_ms) (n : nat) :
  forall (attempt : Z) (last_err : option string) (w : W)
         (log : list HttpClient.Action) (e : string) (w' : W)
         (log' : list HttpClient.Action),
    Z.of_nat (S n) + attempt = retry_count + 1 ->
    HttpClient.post_json_loop (HttpClient.recorded ses) dumps loads (S n)
      attempt last_err url headers payload timeout_ms retry_count
      retry_interval_ms (w, log) = (Raise e, (w', log')) ->
    exists (failures : list (Outcome Http.Response))
           (last : Outcome Http.Response),
      log' = (log
              ++ HttpClient.retried (Http.POST url headers (dumps payload))
                   (HttpClient.seconds retry_interval_ms) failures
              ++ [HttpClient.Sent (Http.POST url headers (dumps payload))
                    last])%list
      /\ Forall (fun a => HttpClient.declined loads a <> None) failures
      /\ HttpClient.declined loads last = Some e
      /\ length failures = n.
Proof.
  induction n as [| n IH]; intros attempt last_err w log e w' log' Hn Hrun;
    rewrite post_json_loop_S in Hrun; unfold try_except in Hrun;
    destruct (recorded_post_attempt url headers payload timeout_ms w log)
      as (a & w1 & Hpost & Hat);
    rewrite Hat in Hrun;
    (destruct (HttpClient.declined loads a) as [e1 |] eqn:Hdec;
     [| destruct a as [r | e0]; [| discriminate];
        unfold HttpClient.declined in Hdec;
        destruct (HttpClient.refused (Ok r)); [discriminate |];
        destruct (loads (Http.text r)); discriminate]);
    unfold bind in Hrun.
  - destruct (Z.ltb_spec attempt retry_count) as [Hlt | Hge]; [lia |].
    simpl in Hrun. injection Hrun as <- <- <-.
    exists [], a. simpl. repeat split; auto.
  - destruct (Z.ltb_spec attempt retry_count) as [Hlt | Hge]; [| lia].
    destruct (recorded_sleep_ms ses retry_interval_ms w1
                (log ++ [HttpClient.Sent
                           (Http.POST url headers (dumps payload)) a])%list
                Hpause)
      as (r & w2 & Hsl & Hrec).
    rewrite Hrec in Hrun.
    destruct (Hsleep (HttpClient.seconds retry_interval_ms) w1)
      as [w2' Hok].
    rewrite Hok in Hsl. injection Hsl as <- <-.
    apply IH in Hrun; [| lia].
    destruct Hrun as (failures & last & -> & Hall & Hlast & Hlen).
    exists (a :: failures), last.
    split; [| split; [| split]]; auto.
    + simpl. rewrite <- !app_assoc. reflexivity.
    + constructor; [rewrite Hdec; discriminate | exact Hall].
    + simpl. lia.
Qed.

End PostLoop.

(** X4.  When [post_json] returns a value, it is the decoded body of the
    last answer: the same POST (URL, headers and encoded payload) was sent
    once per attempt, no more than [retry_count] times; every earlier
    attempt was declined (an exception of the session, a 4xx/5xx status, or
    a body that [resp.json()] cannot decode) and followed by a pause of
    [retry_interval_ms / 1000] seconds. *)
Theorem post_json_returns_decoded_answer {W J} (ses : Http.Session W)
        (dumps : J -> string) (loads : string -> Outcome J) (url : string)
        (headers : list (string * string)) (payload : J)
        (timeout_ms retry_count retry_interval_ms : Z) (w w' : W)
        (log log' : list HttpClient.Action) (j : J) :
  HttpClient.post_json (HttpClient.recorded ses) dumps loads url headers
    payload timeout_ms retry_count retry_interval_ms (w, log)
  = (Ok j, (w', log')) ->
  exists (failures : list (Outcome Http.Response)) (resp : Http.Response),
    log' = (log
            ++ HttpClient.retried (Http.POST url headers (dumps payload))
                 (HttpClient.seconds retry_interval_ms) failures
            ++ [HttpClient.Sent (Http.POST url headers (dumps payload))
                  (Ok resp)])%list
    /\ Forall (fun a => HttpClient.declined loads a <> None) failures
    /\ HttpClient.refused (Ok resp) = None
    /\ loads (Http.text resp) = Ok j
    /\ Z.of_nat (length failures) + 1 <= retry_count.
Proof.
  intros Hrun. unfold HttpClient.post_json in Hrun.
  destruct (Z.le_gt_cases retry_count 0) as [Hle | Hgt].
  - replace (Z.to_nat retry_count) with 0%nat in Hrun by lia. discriminate.
  - apply post_json_loop_ok in Hrun; [| lia].
    destruct Hrun as (failures & resp & Hlog & Hall & Hgood & Htext & Hlen).
    exists failures, resp. repeat split; auto. lia.
Qed.

Lemma post_json_returns_decoded_answer_witness :
  exists (failures : list (Outcome Http.Response)) (resp : Http.Response),
    [HttpClient.Sent (Http.POST "https://hook" [] "{}")
       (Ok (Http.mkResponse 200 "<html>"));
     HttpClient.Sleep (HttpClient.seconds 1000);
     HttpClient.Sent (Http.POST "https://hook" [] "{}")
       (Ok (Http.mkResponse 200 "{}"))]
    = ([] ++ HttpClient.retried
               (Http.POST "https://hook" [] (Cases.encode Json.Null))
               (HttpClient.seconds 1000) failures
          ++ [HttpClient.Sent
                (Http.POST "https://hook" [] (Cases.encode Json.Null))
                (Ok resp)])%list
    /\ Forall (fun a => HttpClient.declined Cases.decode a <> None) failures
    /\ HttpClient.refused (Ok resp) = None
    /\ Cases.decode (Http.text resp) = Ok (Json.Obj [])
    /\ Z.of_nat (length failures) + 1 <= 2.
Proof.
  apply (post_json_returns_decoded_answer (Cases.gateway 1) Cases.encode
           Cases.decode "https://hook" [] Json.Null 1000 2 1000 0%nat 2%nat []).
  vm_compute. reflexivity.
Defined.

(** X5.  A card is posted again for every attempt.  When [send_card]
    raises and pauses are possible, either [retry_count] is below 1 and
    nothing was sent, or the card was POSTed to the webhook URL exactly
    [retry_count] times, with a pause after each attempt but the last;
    every attempt was declined, an answer with a good status whose body
    [resp.json()] cannot decode included, and the exception is the one of
    the last attempt. *)
Theorem send_card_raises_after_all_attempts {W} (ses : Http.Session W)
        (dumps : Json.value -> string) (loads : string -> Outcome Json.value)
        (cfg : FeishuClient.FeishuConfig) (card_payload : Json.value)
        (w w' : W) (log log' : list HttpClient.Action) (e : string) :
  (forall d w0, exists w1, Http.sleep ses d w0 = (Ok tt, w1)) ->
  0 <= FeishuClient.retry_interval_ms cfg ->
  FeishuClient.send_card (HttpClient.recorded ses) dumps loads cfg card_payload
    (w, log) = (Raise e, (w', log')) ->
  (FeishuClient.retry_count cfg <= 0 /\ e = "AssertionError" /\ w' = w
   /\ log' = log)
  \/ exists (failures : list (Outcome Http.Response))
            (last : Outcome Http.Response),
       let request :=
         Http.POST (FeishuClient.webhook_url cfg)
           [("Content-Type", "application/json")] (dumps card_payload) in
       log' = (log
               ++ HttpClient.retried request
                    (HttpClient.seconds (FeishuClient.retry_interval_ms cfg))
                    failures
               ++ [HttpClient.Sent request last])%list
       /\ Forall (fun a => HttpClient.declined loads a <> None) failures
       /\ HttpClient.declined loads last = Some e
       /\ Z.of_nat (length failures) + 1 = FeishuClient.retry_count cfg.
Proof.
  intros Hsleep Hpause Hrun.
  unfold FeishuClient.send_card, bind in Hrun.
  destruct (HttpClient.post_json (HttpClient.recorded ses) dumps loads _ _ _ _
              _ _ (w, log)) as [[j | e1] [w1 log1]] eqn:Hpost;
    [discriminate |].
  injection Hrun as <- <- <-.
  unfold HttpClient.post_json in Hpost.
  destruct (Z.le_gt_cases (FeishuClient.retry_count cfg) 0) as [Hle | Hgt].
  - left.
    replace (Z.to_nat (FeishuClient.retry_count cfg)) with 0%nat in Hpost
      by lia.
    simpl in Hpost. injection Hpost as <- <- <-. auto.
  - right.
    destruct (Z.to_nat (FeishuClient.retry_count cfg)) as [| n] eqn:Hn;
      [lia |].
    apply post_json_loop_raise in Hpost; auto; [| lia].
    destruct Hpost as (failures & last & Hlog & Hall & Hlast & Hlen).
    exists failures, last. cbv zeta. repeat split; auto. lia.
Qed.

Lemma send_card_raises_after_all_attempts_witness :
  exists (failures : list (Outcome Http.Response))
         (last : Outcome Http.Response),
    [HttpClient.Sent
       (Http.POST "https://hook" [("Content-Type", "application/json")] "{}")
       (Ok (Http.mkResponse 200 "<html>"));
     HttpClient.Sleep (HttpClient.seconds 1000);
     HttpClient.Sent
       (Http.POST "https://hook" [("Content-Type", "application/json")] "{}")
       (Ok (Http.mkResponse 200 "<html>"))]
    = ([] ++ HttpClient.retried
               (Http.POST "https://hook"
                  [("Content-Type", "application/json")] "{}")
               (HttpClient.seconds 1000) failures
          ++ [HttpClient.Sent
                (Http.POST "https://hook"
                   [("Content-Type", "application/json")] "{}") last])%list
    /\ Forall (fun a => HttpClient.declined Cases.decode a <> None) failures
    /\ HttpClient.declined Cases.decode last = Some "JSONDecodeError"
    /\ Z.of_nat (length failures) + 1 = 2.
Proof.
  destruct (send_card_raises_after_all_attempts (Cases.gateway 5) Cases.encode
              Cases.decode
              (FeishuClient.mkFeishuConfig "https://hook" 5000 2 1000)
              Json.Null 0%nat 2%nat []
              [HttpClient.Sent
                 (Http.POST "https://hook"
                    [("Content-Type", "application/json")] "{}")
                 (Ok (Http.mkResponse 200 "<html>"));
               HttpClient.Sleep (HttpClient.seconds 1000);
               HttpClient.Sent
                 (Http.POST "https://hook"
                    [("Content-Type", "application/json")] "{}")
                 (Ok (Http.mkResponse 200 "<html>"))]
              "JSONDecodeError") as [(Hrc & _) | Hall].
  - intros d w0. exists w0. reflexivity.
  - vm_compute. discriminate.
  - vm_compute. reflexivity.
  - exfalso. apply Hrc. reflexivity.
  - exact Hall.
Defined.

(** ** ai_client.py *)

Lemma read_answer_truthy {W} (data : Json.value) (w : W) :
  exists s, AiClient.read_answer data w = (Ok s, w) /\ Str.truthy s = true.
Proof.
  assert (Hfail : Str.truthy Workflow.AI_FAILED = true) by reflexivity.
  unfold AiClient.read_answer, try_except, bind, lift_outcome, ret.
  destruct (Json.get data "choices") as [found | e]; [| eauto].
  destruct (Json.truthy (Json.or_ found (Json.Arr []))); simpl; [| eauto].
  destruct (Json.item0 (Json.or_ found (Json.Arr []))) as [first | e];
    [| eauto].
  destruct (Json.get first "message") as [message | e]; [| eauto].
  destruct (Json.get (Json.or_ message (Json.Obj [])) "content")
    as [content | e]; [| eauto].
  destruct (Json.strip (Json.or_ content (Json.Str ""))) as [text | e];
    [| eauto].
  destruct (Str.truthy text) eqn:Ht; eauto.
Qed.


(** ** feishu_client.py *)

Lemma chars_lstrip c s : In c (Str.chars (Str.lstrip s)) -> In c (Str.chars s).
Proof.
  induction s as [| a s IH]; simpl; [tauto |].
  destruct (Str.is_space a); simpl; auto.
Qed.

Lemma chars_rstrip c s : In c (Str.chars (Str.rstrip s)) -> In c (Str.chars s).
Proof.
  induction s as [| a s IH]; simpl; [tauto |].
  destruct (Str.rstrip s) as [| b r].
  - destruct (Str.is_space a); simpl; tauto.
  - simpl in *. tauto.
Qed.

Lemma chars_strip c s : In c (Str.chars (Str.strip s)) -> In c (Str.chars s).
Proof. intros H. apply chars_lstrip. now apply chars_rstrip. Qed.

Lemma chars_take c n s : In c (Str.chars (Str.take n s)) -> In c (Str.chars s).
Proof.
  unfold Str.take. revert s.
  induction n as [| n IH]; intros [| a s]; simpl; try tauto.
  intros [H | H]; [auto | right; now apply IH].
Qed.

Lemma chars_app c a b :
  In c (Str.chars (a +:+ b)) -> In c (Str.chars a) \/ In c (Str.chars b).
Proof.
  induction a as [| x a IH]; [simpl; auto |].
  rewrite app_cons. simpl. tauto.
Qed.

Lemma chars_replace_char a b s :
  a <> b -> ~ In a (Str.chars (Text.replace_char a b s)).
Proof.
  intros Hab. induction s as [| c s IH]; simpl; [tauto |].
  intros [H | H]; [| tauto].
  destruct (Ascii.eqb_spec c a); congruence.
Qed.

(** X7.  [_digest_summary] always gives a non-empty title without a line
    break, whatever the summary text and the length allowed, a length that
    is not negative. *)
Theorem digest_summary_is_one_line (text : string) (max_len : nat) :
  Str.truthy (FeishuClient._digest_summary text max_len) = true
  /\ ~ In "010"%char (Str.chars (FeishuClient._digest_summary text max_len)).
Proof.
  unfold FeishuClient._digest_summary.
  set (t := Str.strip (Text.replace_char "010" " " text)).
  assert (Ht : ~ In "010"%char (Str.chars t)).
  { intros H. apply chars_strip in H.
    revert H. apply chars_replace_char. discriminate. }
  destruct (Str.truthy t) eqn:Htruthy; simpl.
  - destruct (String.length t <=? max_len)%nat; [auto |]. split.
    + destruct (Str.rstrip (Str.take max_len t)); reflexivity.
    + intros H. apply chars_app in H as [H | H].
      * apply Ht. eapply chars_take. eapply chars_rstrip. exact H.
      * vm_compute in H. intuition discriminate.
  - split; [reflexivity |]. vm_compute. intuition discriminate.
Qed.

(** ** db.py: the schema and the announcements *)

Lemma same_key_sym ix (r1 r2 : Db.Row) :
  Db.same_key ix (Db.title r1) (Db.url r1) (Db.date r1) r2
  = Db.same_key ix (Db.title r2) (Db.url r2) (Db.date r2) r1.
Proof.
  destruct ix; simpl;
    rewrite ?(String.eqb_sym (Db.url r2)), ?(String.eqb_sym (Db.title r2)),
      ?(String.eqb_sym (Db.date r2)); reflexivity.
Qed.

Lemma same_key_trans ix t u d (r1 r2 : Db.Row) :
  Db.same_key ix t u d r1 = true ->
  Db.same_key ix (Db.title r1) (Db.url r1) (Db.date r1) r2 = true ->
  Db.same_key ix t u d r2 = true.
Proof.
  destruct ix; simpl; intros H1 H2;
    repeat match goal with
           | H : _ && _ = true |- _ => apply andb_prop in H as [? ?]
           | H : String.eqb _ _ = true |- _ => apply String.eqb_eq in H
           end;
    repeat (apply andb_true_intro; split); apply String.eqb_eq; congruence.
Qed.

Lemma is_duplicate_same_key t u d db :
  Db.is_duplicate t u d db
  = existsb (Db.same_key (Db.strategy_index db) t u d)
      (Db.announcements (Db._conn db)).
Proof.
  unfold Db.is_duplicate, Db.strategy_index.
  destruct (String.eqb (Db._dedupe_strategy db) "url"); [reflexivity |].
  destruct (String.eqb (Db._dedupe_strategy db) "title_date"); reflexivity.
Qed.

(** The rows [_dedupe_existing_rows] keeps. *)
Lemma dedupe_rows_spec db (r : Db.Row) :
  In r (Db.announcements (Db._conn (Db._dedupe_existing_rows db)))
  <-> In r (Db.announcements (Db._conn db))
      /\ forall r', In r' (Db.announcements (Db._conn db)) ->
                    Db.same_key (Db.strategy_index db) (Db.title r) (Db.url r)
                      (Db.date r) r' = true ->
                    Db.id r <= Db.id r'.
Proof.
  unfold Db._dedupe_existing_rows. cbn. rewrite filter_In.
  split; intros [Hin Hkeep]; (split; [exact Hin |]).
  - intros r' Hin' Hkey. apply negb_true_iff in Hkeep.
    destruct (Z.le_gt_cases (Db.id r) (Db.id r')) as [Hle | Hgt]; [exact Hle |].
    exfalso. apply not_true_iff_false in Hkeep. apply Hkeep.
    apply existsb_exists. exists r'. split; [exact Hin' |].
    rewrite Hkey. simpl. apply Z.ltb_lt. lia.
  - apply negb_true_iff. apply not_true_iff_false. intros Hex.
    apply existsb_exists in Hex as (r' & Hin' & Hboth).
    apply andb_prop in Hboth as [Hkey Hlt]. apply Z.ltb_lt in Hlt.
    specialize (Hkeep r' Hin' Hkey). lia.
Qed.

Lemma least_row (P : Db.Row -> bool) (rows : list Db.Row) :
  existsb P rows = true ->
  exists r, In r rows /\ P r = true
            /\ forall r', In r' rows -> P r' = true -> Db.id r <= Db.id r'.
Proof.
  induction rows as [| a rows IH]; simpl; [discriminate |].
  intros H. destruct (existsb P rows) eqn:Hrest.
  - destruct (IH eq_refl) as (r & Hin & HP & Hmin).
    destruct (P a) eqn:Ha.
    + destruct (Z.le_gt_cases (Db.id a) (Db.id r)) as [Hle | Hgt].
      * exists a. repeat split; auto.
        intros r' [<- | Hin'] HP'; [lia |].
        specialize (Hmin r' Hin' HP'). lia.
      * exists r. repeat split; auto.
        intros r' [<- | Hin'] HP'; [lia | auto].
    + exists r. repeat split; auto.
      intros r' [<- | Hin'] HP'; [congruence | auto].
  - rewrite orb_false_r in H. exists a. repeat split; auto.
    intros r' [<- | Hin'] HP'; [lia |].
    assert (existsb P rows = true) by (apply existsb_exists; eauto).
    congruence.
Qed.

Lemma ensure_table_rows db :
  Db.announcements (Db._conn (Db.init_schema db))
  = Db.announcements (Db._conn (Db._dedupe_existing_rows db)).
Proof.
  unfold Db.init_schema, Db._ensure_announcements_table.
  destruct (negb (String.eqb (Db._dedupe_strategy db) "title")
            && Db.has_index Db.sqlite_autoindex_announcements db);
    unfold Db._create_strategy_unique_index;
    match goal with
    | |- context [if ?c then _ else _] => destruct c
    end; reflexivity.
Qed.

Lemma init_schema_strategy db :
  Db._dedupe_strategy (Db.init_schema db) = Db._dedupe_strategy db.
Proof.
  unfold Db.init_schema, Db._ensure_announcements_table.
  destruct (negb (String.eqb (Db._dedupe_strategy db) "title")
            && Db.has_index Db.sqlite_autoindex_announcements db);
    unfold Db._create_strategy_unique_index;
    match goal with
    | |- context [if ?c then _ else _] => destruct c
    end; reflexivity.
Qed.

Lemma init_schema_strategy_index db :
  Db.strategy_index (Db.init_schema db) = Db.strategy_index db.
Proof. unfold Db.strategy_index. now rewrite init_schema_strategy. Qed.

(** X8.  [init_schema] loses no announcement key: whatever rows the
    clean-up of duplicates deletes, [is_duplicate] answers for every title,
    URL and date as it did before. *)
Theorem init_schema_keeps_every_key (t u d : string) (db : Db.Database) :
  Db.is_duplicate t u d (Db.init_schema db) = Db.is_duplicate t u d db.
Proof.
  rewrite !is_duplicate_same_key, init_schema_strategy_index, ensure_table_rows.
  apply eq_true_iff_eq. rewrite !existsb_exists. split.
  - intros (r & Hin & Hkey). apply dedupe_rows_spec in Hin as [Hin _]. eauto.
  - intros Hex.
    destruct (least_row (Db.same_key (Db.strategy_index db) t u d)
                (Db.announcements (Db._conn db))) as (r & Hin & Hkey & Hmin).
    { apply existsb_exists. exact Hex. }
    exists r. split; [| exact Hkey].
    apply dedupe_rows_spec. split; [exact Hin |].
    intros r' Hin' Hsame. apply Hmin; [exact Hin' |].
    eapply same_key_trans; eauto.
Qed.

(** After [init_schema] the unique index of the active strategy is in
    place and holds. *)
Lemma init_schema_makes_key_unique (db : Db.Database) :
  Database.strategy_key_unique (Db.init_schema db).
Proof.
  split; [apply init_schema_has_strategy_index |].
  rewrite init_schema_strategy_index, ensure_table_rows.
  intros r1 r2 H1 H2 Hkey.
  apply dedupe_rows_spec in H1 as [H1 Hmin1].
  apply dedupe_rows_spec in H2 as [H2 Hmin2].
  specialize (Hmin1 r2 H2 Hkey).
  rewrite same_key_sym in Hkey. specialize (Hmin2 r1 H1 Hkey). lia.
Qed.

Lemma filter_id {A} (f : A -> bool) (l : list A) :
  (forall a, In a l -> f a = true) -> List.filter f l = l.
Proof.
  induction l as [| a l IH]; simpl; [reflexivity |].
  intros H. rewrite (H a) by auto. rewrite IH by auto. reflexivity.
Qed.

Lemma dedupe_fixed db :
  (forall r r', In r (Db.announcements (Db._conn db)) ->
                In r' (Db.announcements (Db._conn db)) ->
                Db.same_key (Db.strategy_index db) (Db.title r) (Db.url r)
                  (Db.date r) r' = true ->
                Db.id r <= Db.id r') ->
  Db._dedupe_existing_rows db = db.
Proof.
  intros Hmin. unfold Db._dedupe_existing_rows.
  rewrite filter_id.
  - destruct db as [s [a u r]]. reflexivity.
  - intros r Hin. apply negb_true_iff. apply not_true_iff_false. intros Hex.
    apply existsb_exists in Hex as (r' & Hin' & Hboth).
    apply andb_prop in Hboth as [Hkey Hlt]. apply Z.ltb_lt in Hlt.
    specialize (Hmin r r' Hin Hin' Hkey). lia.
Qed.

Lemma init_schema_no_table_constraint db :
  negb (String.eqb (Db._dedupe_strategy db) "title")
  && Db.has_index Db.sqlite_autoindex_announcements (Db.init_schema db)
  = false.
Proof.
  destruct (String.eqb (Db._dedupe_strategy db) "title") eqn:Hs;
    [reflexivity |].
  simpl. unfold Db.init_schema, Db._ensure_announcements_table.
  rewrite Hs. simpl.
  assert (Hix : Db.strategy_index db <> Db.sqlite_autoindex_announcements).
  { unfold Db.strategy_index.
    destruct (String.eqb (Db._dedupe_strategy db) "url"); [discriminate |].
    destruct (String.eqb (Db._dedupe_strategy db) "title_date"); discriminate. }
  destruct (Db.has_index Db.sqlite_autoindex_announcements db) eqn:Hauto.
  - unfold Db._create_strategy_unique_index.
    change (Db.strategy_index (Db._dedupe_existing_rows (Db._migrate_v1_to_v2 db)))
      with (Db.strategy_index db).
    destruct (Db.has_index (Db.strategy_index db)
                (Db._dedupe_existing_rows (Db._migrate_v1_to_v2 db)));
      unfold Db.has_index; cbn;
      destruct (Db.strategy_index db); try reflexivity; congruence.
  - unfold Db._create_strategy_unique_index.
    change (Db.strategy_index (Db._dedupe_existing_rows db))
      with (Db.strategy_index db).
    destruct (Db.has_index (Db.strategy_index db) (Db._dedupe_existing_rows db));
      unfold Db.has_index in *; cbn in *; [exact Hauto |].
    rewrite existsb_app, Hauto. cbn.
    destruct (Db.strategy_index db); try reflexivity; congruence.
Qed.

(** X9.  [init_schema] is idempotent: calling it again on the database it
    left (as every run and every page of the web UI does) changes neither
    the rows nor the indexes. *)
Theorem init_schema_idempotent (db : Db.Database) :
  Db.init_schema (Db.init_schema db) = Db.init_schema db.
Proof.
  set (db1 := Db.init_schema db).
  unfold Db.init_schema at 1. unfold Db._ensure_announcements_table.
  pose proof (init_schema_no_table_constraint db) as Hno.
  fold db1 in Hno.
  replace (Db._dedupe_strategy db1) with (Db._dedupe_strategy db)
    by (symmetry; apply init_schema_strategy).
  rewrite Hno.
  rewrite dedupe_fixed.
  - unfold Db._create_strategy_unique_index.
    unfold db1 at 1 2. rewrite init_schema_has_strategy_index. reflexivity.
  - intros r r' Hin Hin' Hkey.
    unfold db1 in Hin, Hin', Hkey.
    rewrite init_schema_strategy_index in Hkey.
    rewrite ensure_table_rows in Hin, Hin'.
    apply dedupe_rows_spec in Hin as [Hin Hmin].
    apply dedupe_rows_spec in Hin' as [Hin' _].
    apply Hmin; assumption.
Qed.

Lemma has_index_In ix db :
  Db.has_index ix db = true <-> In ix (Db.unique_indexes (Db._conn db)).
Proof.
  unfold Db.has_index. rewrite existsb_exists. split.
  - intros (ix' & Hin & Heq). destruct ix, ix'; try discriminate; exact Hin.
  - intros Hin. exists ix. split; [exact Hin | destruct ix; reflexivity].
Qed.

Lemma same_key_refl ix (r : Db.Row) :
  Db.same_key ix (Db.title r) (Db.url r) (Db.date r) r = true.
Proof. destruct ix; simpl; rewrite ?String.eqb_refl; reflexivity. Qed.

(** X10.  Insert and look-up agree.  When [insert_announcement_base]
    reports a written row, [is_duplicate] finds the key afterwards; and in
    a database whose only unique index is the one of the active strategy
    (what [init_schema] leaves on a new file), the insert is accepted
    exactly when [is_duplicate] did not find the key, and the key is found
    afterwards in either case. *)
Theorem insert_then_is_duplicate (t u d st now : string) (db : Db.Database) :
  (fst (Db.insert_announcement_base t u d st now db) = true ->
   Db.is_duplicate t u d (snd (Db.insert_announcement_base t u d st now db))
   = true)
  /\ (Db.unique_indexes (Db._conn db) = [Db.strategy_index db] ->
      fst (Db.insert_announcement_base t u d st now db)
      = negb (Db.is_duplicate t u d db)
      /\ Db.is_duplicate t u d
           (snd (Db.insert_announcement_base t u d st now db)) = true).
Proof.
  assert (Hnew : Db.conflicts t u d db = false ->
                 Db.is_duplicate t u d
                   (snd (Db.insert_announcement_base t u d st now db)) = true).
  { intros Hc. unfold Db.insert_announcement_base. rewrite Hc.
    rewrite is_duplicate_same_key. cbn. rewrite existsb_app. cbn.
    change (Db.strategy_index (Db.with_announcements db _))
      with (Db.strategy_index db).
    destruct (Db.strategy_index db); cbn; rewrite ?String.eqb_refl;
      apply orb_true_r. }
  split.
  - intros Hins. apply Hnew.
    unfold Db.insert_announcement_base in Hins.
    destruct (Db.conflicts t u d db); [discriminate | reflexivity].
  - intros Hix.
    assert (Hc : Db.conflicts t u d db = Db.is_duplicate t u d db).
    { unfold Db.conflicts. rewrite Hix, is_duplicate_same_key. cbn.
      apply orb_false_r. }
    destruct (Db.conflicts t u d db) eqn:Hconf.
    + unfold Db.insert_announcement_base. rewrite Hconf. cbn.
      rewrite <- Hc. split; reflexivity.
    + split; [| apply Hnew; reflexivity].
      unfold Db.insert_announcement_base. rewrite Hconf. cbn.
      rewrite <- Hc. reflexivity.
Qed.

Lemma insert_then_is_duplicate_witness :
  fst (Db.insert_announcement_base "AI chips" "https://site/d3" "2026-02-01"
         "NEW" "2026-02-02T08:00:00+08:00" (Scenario.fresh_db "url")) = true
  /\ Db.is_duplicate "AI chips" "https://site/d3" "2026-02-01"
       (Scenario.fresh_db "url") = false
  /\ Db.is_duplicate "AI chips" "https://site/d3" "2026-02-01"
       (snd (Db.insert_announcement_base "AI chips" "https://site/d3"
               "2026-02-01" "NEW" "2026-02-02T08:00:00+08:00"
               (Scenario.fresh_db "url"))) = true.
Proof.
  destruct (insert_then_is_duplicate "AI chips" "https://site/d3" "2026-02-01"
              "NEW" "2026-02-02T08:00:00+08:00" (Scenario.fresh_db "url"))
    as [Hwritten Hsingle].
  destruct (Hsingle eq_refl) as [Hiff _].
  split; [reflexivity |]. split; [reflexivity |].
  apply Hwritten. reflexivity.
Defined.

Lemma conflicts_intro t u d db ix r :
  In ix (Db.unique_indexes (Db._conn db)) ->
  In r (Db.announcements (Db._conn db)) ->
  Db.same_key ix t u d r = true ->
  Db.conflicts t u d db = true.
Proof.
  intros Hix Hin Hkey. unfold Db.conflicts. apply existsb_exists.
  exists ix. split; [exact Hix |]. apply existsb_exists. eauto.
Qed.

(** The writes keep the key of the active strategy unique:
    [insert_announcement_base] ignores a row that would repeat a key, and
    [update_announcement_detail] rewrites no key column. *)
Lemma writes_keep_key_unique (db : Db.Database) :
  Database.strategy_key_unique db ->
  (forall t u d st now,
      Database.strategy_key_unique
        (snd (Db.insert_announcement_base t u d st now db)))
  /\ (forall t c summary st now,
         Database.strategy_key_unique
           (Db.update_announcement_detail t c summary st now db)).
Proof.
  intros [Hix Huniq]. split.
  - intros t u d st now. unfold Db.insert_announcement_base.
    destruct (Db.conflicts t u d db) eqn:Hconf; cbn [snd];
      [split; assumption |].
    split; [exact Hix |].
    change (Db.strategy_index (Db.with_announcements db _))
      with (Db.strategy_index db).
    cbn [Db.with_announcements Db._conn Db.announcements].
    apply has_index_In in Hix.
    intros r1 r2 H1 H2 Hkey.
    apply in_app_or in H1 as [H1 | [<- | []]];
      apply in_app_or in H2 as [H2 | [<- | []]].
    + now apply Huniq.
    + exfalso. cbn in Hkey.
      assert (Db.conflicts t u d db = true); [| congruence].
      apply (conflicts_intro t u d db (Db.strategy_index db) r1); auto.
      destruct (Db.strategy_index db); cbn in *;
        rewrite ?(String.eqb_sym (Db.url r1)), ?(String.eqb_sym (Db.title r1)),
          ?(String.eqb_sym (Db.date r1)); exact Hkey.
    + exfalso.
      assert (Db.conflicts t u d db = true); [| congruence].
      apply (conflicts_intro t u d db (Db.strategy_index db) r2); auto.
    + reflexivity.
  - intros t c summary st now. split; [exact Hix |].
    change (Db.strategy_index (Db.update_announcement_detail t c summary st now db))
      with (Db.strategy_index db).
    unfold Db.update_announcement_detail.
    cbn [Db.with_announcements Db._conn Db.announcements].
    intros r1 r2 H1 H2 Hkey.
    apply in_map_iff in H1 as (o1 & <- & H1).
    apply in_map_iff in H2 as (o2 & <- & H2).
    assert (Hid : forall o : Db.Row,
               let n := if String.eqb (Db.title o) t
                        then Db.mkRow (Db.id o) (Db.title o) (Db.url o)
                               (Db.date o) (Some c) (Some summary) st
                               (Db.source o) (Db.created_at o) now
                        else o in
               Db.id n = Db.id o /\ Db.title n = Db.title o
               /\ Db.url n = Db.url o /\ Db.date n = Db.date o).
    { intros o. destruct (String.eqb (Db.title o) t); cbn; auto. }
    destruct (Hid o1) as (Hi1 & Ht1 & Hu1 & Hd1).
    destruct (Hid o2) as (Hi2 & Ht2 & Hu2 & Hd2).
    cbv zeta in *. rewrite Hi1, Hi2. apply Huniq; auto.
    rewrite Ht1, Hu1, Hd1 in Hkey.
    destruct (Db.strategy_index db); cbn in *;
      rewrite ?Ht2, ?Hu2, ?Hd2 in Hkey; exact Hkey.
Qed.

Lemma runs_keep_key_unique (db : Db.Database) :
  Database.strategy_key_unique db ->
  (forall rid now, Database.strategy_key_unique (snd (Db.start_run rid now db)))
  /\ (forall rid status_ finished duration processed new_ duplicate err,
         Database.strategy_key_unique
           (Db.finish_run rid status_ finished duration processed new_
              duplicate err db)).
Proof.
  intros Huniq. split.
  - intros rid now. unfold Db.start_run.
    destruct (existsb _ _); cbn [snd]; exact Huniq.
  - intros. exact Huniq.
Qed.

(** X11.  The key of the active strategy stays unique.  In a database on
    which [init_schema] has run, and after any sequence of [start_run],
    [finish_run], [insert_announcement_base] and
    [update_announcement_detail] since, the unique index of the strategy is
    in place and two rows of [announcements] that agree on its columns are
    one row. *)
Theorem strategy_key_stays_unique (db : Db.Database) :
  Database.served db -> Database.strategy_key_unique db.
Proof.
  induction 1 as [db | rid now db _ IH | rid st fin dur p n d err db _ IH
                  | t u d st now db _ IH | t c summary st now db _ IH].
  - apply init_schema_makes_key_unique.
  - now apply runs_keep_key_unique.
  - now apply runs_keep_key_unique.
  - now apply writes_keep_key_unique.
  - now apply writes_keep_key_unique.
Qed.

Lemma strategy_key_stays_unique_witness :
  Database.strategy_key_unique (Scenario.after_update "title_date").
Proof.
  apply (strategy_key_stays_unique (Scenario.after_update "title_date")).
  unfold Scenario.after_update, Scenario.second_insert, Scenario.first_insert,
    Scenario.fresh_db.
  repeat constructor.
Defined.

(** ** db.py: the runs *)

Lemma find_app_none {A} (f : A -> bool) (l : list A) (a : A) :
  find f l = None -> find f (l ++ [a]) = if f a then Some a else None.
Proof.
  induction l as [| x l IH]; simpl; [reflexivity |].
  destruct (f x); [discriminate | exact IH].
Qed.

Lemma find_app_other {A} (f : A -> bool) (l : list A) (a : A) :
  f a = false -> find f (l ++ [a]) = find f l.
Proof.
  intros Ha. induction l as [| x l IH]; simpl; [now rewrite Ha |].
  destruct (f x); [reflexivity | exact IH].
Qed.

Lemma find_existsb_false {A} (f : A -> bool) (l : list A) :
  existsb f l = false <-> find f l = None.
Proof.
  induction l as [| x l IH]; simpl; [tauto |].
  destruct (f x); simpl; [split; discriminate | exact IH].
Qed.

Lemma get_run_finish_run rid rid' st fin dur p n d err db :
  Database.get_run rid' (Db.finish_run rid st fin dur p n d err db)
  = if String.eqb rid' rid
    then option_map
           (fun r => Db.mkRunRow (Db.run_id r) (Db.started_at r) (Some fin)
                       (Some dur) p n d st err)
           (Database.get_run rid db)
    else Database.get_run rid' db.
Proof.
  unfold Database.get_run, Db.finish_run. cbn.
  induction (Db.runs (Db._conn db)) as [| r rs IH]; simpl.
  - destruct (String.eqb rid' rid); reflexivity.
  - destruct (String.eqb_spec (Db.run_id r) rid) as [Heq | Hne]; cbn.
    + destruct (String.eqb_spec rid' rid) as [-> | Hne'].
      * rewrite Heq, String.eqb_refl. reflexivity.
      * rewrite Heq. destruct (String.eqb_spec rid rid'); [congruence |].
        exact IH.
    + destruct (String.eqb_spec (Db.run_id r) rid') as [Heq' | Hne'].
      * destruct (String.eqb_spec rid' rid); [congruence | reflexivity].
      * exact IH.
Qed.

(** X12.  A run can be read back.  When [start_run] succeeds, [get_run]
    finds the run as RUNNING with zero counters; after [finish_run] on it,
    [get_run] returns the same run id and start time with the status, end
    time, duration, counters and error given; and every other run is read
    as before the two calls. *)
Theorem run_is_read_back (rid now st fin : string) (dur p n d : Z)
        (err : option string) (db db1 : Db.Database) (r : string * string) :
  Db.start_run rid now db = (Ok r, db1) ->
  r = (rid, now)
  /\ Database.get_run rid db1
     = Some (Db.mkRunRow rid now None None 0 0 0 "RUNNING" None)
  /\ Database.get_run rid (Db.finish_run rid st fin dur p n d err db1)
     = Some (Db.mkRunRow rid now (Some fin) (Some dur) p n d st err)
  /\ forall rid', rid' <> rid ->
       Database.get_run rid' (Db.finish_run rid st fin dur p n d err db1)
       = Database.get_run rid' db.
Proof.
  unfold Db.start_run. intros Hstart.
  destruct (existsb (fun r0 => String.eqb (Db.run_id r0) rid)
              (Db.runs (Db._conn db))) eqn:Hex; [discriminate |].
  injection Hstart as <- <-.
  apply find_existsb_false in Hex.
  assert (Hget : Database.get_run rid
                   (Db.with_runs db
                      (Db.runs (Db._conn db)
                       ++ [Db.mkRunRow rid now None None 0 0 0 "RUNNING" None]))
                 = Some (Db.mkRunRow rid now None None 0 0 0 "RUNNING" None)).
  { unfold Database.get_run. cbn. rewrite find_app_none by exact Hex.
    cbn. now rewrite String.eqb_refl. }
  split; [reflexivity |]. split; [exact Hget |]. split.
  - rewrite get_run_finish_run, String.eqb_refl, Hget. reflexivity.
  - intros rid' Hne. rewrite get_run_finish_run.
    destruct (String.eqb_spec rid' rid); [congruence |].
    unfold Database.get_run. cbn. apply find_app_other. cbn.
    destruct (String.eqb_spec rid rid'); [congruence | reflexivity].
Qed.

Lemma run_is_read_back_witness :
  Database.get_run "run-1"
    (Db.finish_run "run-1" "COMPLETED" "2026-02-01T09:05:00+08:00" 300 3 2 1
       None
       (snd (Db.start_run "run-1" "2026-02-01T09:00:00+08:00"
               (Scenario.fresh_db "title"))))
  = Some (Db.mkRunRow "run-1" "2026-02-01T09:00:00+08:00"
            (Some "2026-02-01T09:05:00+08:00") (Some 300) 3 2 1 "COMPLETED"
            None).
Proof.
  apply (run_is_read_back "run-1" "2026-02-01T09:00:00+08:00" "COMPLETED"
           "2026-02-01T09:05:00+08:00" 300 3 2 1 None
           (Scenario.fresh_db "title")
           (snd (Db.start_run "run-1" "2026-02-01T09:00:00+08:00"
                   (Scenario.fresh_db "title")))
           ("run-1", "2026-02-01T09:00:00+08:00")).
  reflexivity.
Defined.

(** X13.  The two edges of the run key.  [finish_run] on a run id that
    [get_run] does not find changes nothing (no row is created); and
    [start_run] with a run id that is already there raises and leaves the
    database as it was. *)
Theorem run_key_edges (rid : string) (db : Db.Database) :
  (Database.get_run rid db = None ->
   forall st fin dur p n d err,
     Db.finish_run rid st fin dur p n d err db = db)
  /\ (Database.get_run rid db <> None ->
      forall now, exists e, Db.start_run rid now db = (Raise e, db)).
Proof.
  split.
  - intros Hnone st fin dur p n d err. unfold Db.finish_run.
    unfold Database.get_run in Hnone.
    replace (map _ (Db.runs (Db._conn db))) with (Db.runs (Db._conn db)).
    + destruct db as [s [a u r]]. reflexivity.
    + induction (Db.runs (Db._conn db)) as [| x rs IH]; [reflexivity |].
      simpl in *. destruct (String.eqb (Db.run_id x) rid); [discriminate |].
      now rewrite <- IH.
  - intros Hsome now. unfold Db.start_run.
    destruct (existsb (fun r => String.eqb (Db.run_id r) rid)
                (Db.runs (Db._conn db))) eqn:Hex; [eauto |].
    apply find_existsb_false in Hex. contradiction.
Qed.

Lemma run_key_edges_witness :
  Db.finish_run "run-9" "FAILED" "2026-02-01T09:05:00+08:00" 1 0 0 0 None
    (Scenario.fresh_db "title") = Scenario.fresh_db "title"
  /\ exists e,
       Db.start_run "run-1" "2026-02-01T09:10:00+08:00"
         (snd (Db.start_run "run-1" "2026-02-01T09:00:00+08:00"
                 (Scenario.fresh_db "title")))
       = (Raise e,
          snd (Db.start_run "run-1" "2026-02-01T09:00:00+08:00"
                 (Scenario.fresh_db "title"))).
Proof.
  split.
  - apply (proj1 (run_key_edges "run-9" (Scenario.fresh_db "title")));
      reflexivity.
  - apply (proj2 (run_key_edges "run-1"
                    (snd (Db.start_run "run-1" "2026-02-01T09:00:00+08:00"
                            (Scenario.fresh_db "title"))))).
    vm_compute. discriminate.
Defined.

(** ** db.py: the tasks *)

Section TaskTable.
Context (dumps : Json.value -> string)
        (loads : string -> Outcome Json.value).

Lemma find_map_key (f : Database.TaskRow -> Database.TaskRow) (tid : string)
      (tasks : list Database.TaskRow) :
  (forall r, Database.task_id (f r) = Database.task_id r) ->
  find (fun r => String.eqb (Database.task_id r) tid) (map f tasks)
  = option_map f
      (find (fun r => String.eqb (Database.task_id r) tid) tasks).
Proof.
  intros Hkey. induction tasks as [| r rs IH]; simpl; [reflexivity |].
  rewrite Hkey. destruct (String.eqb (Database.task_id r) tid);
    [reflexivity | exact IH].
Qed.

Lemma find_map_other (f : Database.TaskRow -> Database.TaskRow)
      (tid tid' : string) (tasks : list Database.TaskRow) :
  (forall r, Database.task_id (f r) = Database.task_id r) ->
  (forall r, Database.task_id r <> tid -> f r = r) ->
  tid' <> tid ->
  find (fun r => String.eqb (Database.task_id r) tid') (map f tasks)
  = find (fun r => String.eqb (Database.task_id r) tid') tasks.
Proof.
  intros Hkey Hother Hne. induction tasks as [| r rs IH]; simpl;
    [reflexivity |].
  rewrite Hkey.
  destruct (String.eqb_spec (Database.task_id r) tid') as [Heq | _];
    [| exact IH].
  rewrite Hother by congruence. reflexivity.
Qed.

(** X14.  A task can be read back.  After [upsert_task] the task is found
    by [get_task] with the name, flag, schedule and encoded configuration
    given and the time of the call as its update time; its creation time
    is the one it had if it was there before (the update leaves
    [created_at]), the time of the call otherwise; and every other task
    is read as before. *)
Theorem task_is_read_back (tid name : string) (enabled : bool)
        (schedule_type : string) (cron_expr : option string)
        (interval_seconds : option Z) (config : Json.value) (now : string)
        (tasks : list Database.TaskRow) :
  (exists t,
      Database.get_task loads tid
        (Database.upsert_task dumps tid name enabled schedule_type cron_expr
           interval_seconds config now tasks) = Some t
      /\ Database.row t
         = Database.mkTaskRow tid name (if enabled then 1 else 0)
             schedule_type cron_expr interval_seconds (dumps config)
             (match Database.get_task loads tid tasks with
              | Some old => Database.created_at (Database.row old)
              | None => now
              end) now
      /\ Database.is_enabled t = enabled)
  /\ forall tid', tid' <> tid ->
       Database.get_task loads tid'
         (Database.upsert_task dumps tid name enabled schedule_type cron_expr
            interval_seconds config now tasks)
       = Database.get_task loads tid' tasks.
Proof.
  unfold Database.upsert_task, Database.get_task.
  destruct (existsb (fun r => String.eqb (Database.task_id r) tid) tasks)
    eqn:Hex.
  - split.
    + rewrite find_map_key
        by (intros r; destruct (String.eqb (Database.task_id r) tid);
            reflexivity).
      destruct (find (fun r => String.eqb (Database.task_id r) tid) tasks)
        as [old |] eqn:Hfind.
      * apply find_some in Hfind as [_ Hold]. cbn. rewrite Hold.
        apply String.eqb_eq in Hold.
        eexists. split; [reflexivity |]. cbn. rewrite Hold.
        split; [reflexivity | destruct enabled; reflexivity].
      * apply find_existsb_false in Hfind. congruence.
    + intros tid' Hne. rewrite (find_map_other _ tid tid'); auto.
      * intros r. destruct (String.eqb (Database.task_id r) tid); reflexivity.
      * intros r Hr.
        destruct (String.eqb_spec (Database.task_id r) tid); [congruence |].
        reflexivity.
  - apply find_existsb_false in Hex. split.
    + rewrite find_app_none by exact Hex. cbn. rewrite String.eqb_refl.
      rewrite Hex. eexists. split; [reflexivity |]. cbn.
      split; [reflexivity | destruct enabled; reflexivity].
    + intros tid' Hne. rewrite find_app_other; [reflexivity |].
      cbn. destruct (String.eqb_spec tid tid'); [congruence | reflexivity].
Qed.

Lemma find_filter_key (tid tid' : string) (tasks : list Database.TaskRow) :
  find (fun r => String.eqb (Database.task_id r) tid')
    (Database.delete_task tid tasks)
  = if String.eqb tid' tid then None
    else find (fun r => String.eqb (Database.task_id r) tid') tasks.
Proof.
  unfold Database.delete_task.
  induction tasks as [| r rs IH]; simpl.
  - destruct (String.eqb tid' tid); reflexivity.
  - destruct (String.eqb_spec (Database.task_id r) tid) as [Heq | Hne]; simpl.
    + rewrite IH. destruct (String.eqb_spec tid' tid) as [_ | Hne'];
        [reflexivity |].
      destruct (String.eqb_spec (Database.task_id r) tid'); [congruence |].
      reflexivity.
    + destruct (String.eqb_spec (Database.task_id r) tid') as [Heq' | Hne'].
      * destruct (String.eqb_spec tid' tid); [congruence | reflexivity].
      * exact IH.
Qed.

(** X15.  [delete_task] and [set_task_enabled] touch the one task they
    name.  After [delete_task] the task is not found; after
    [set_task_enabled] it is found with the flag given, the time of the
    call as its update time and every other column as it was, and a task
    id that is not there stays absent; every other task is read as
    before. *)
Theorem task_removal_and_toggle (tid : string) (enabled : bool)
        (now : string) (tasks : list Database.TaskRow) :
  Database.get_task loads tid (Database.delete_task tid tasks) = None
  /\ Database.get_task loads tid
       (Database.set_task_enabled tid enabled now tasks)
     = option_map
         (fun t =>
            Database.mkTask
              (Database.mkTaskRow tid (Database.name (Database.row t))
                 (if enabled then 1 else 0)
                 (Database.schedule_type (Database.row t))
                 (Database.cron_expr (Database.row t))
                 (Database.interval_seconds (Database.row t))
                 (Database.config_json (Database.row t))
                 (Database.created_at (Database.row t)) now)
              enabled (Database.config t))
         (Database.get_task loads tid tasks)
  /\ forall tid', tid' <> tid ->
       Database.get_task loads tid' (Database.delete_task tid tasks)
       = Database.get_task loads tid' tasks
       /\ Database.get_task loads tid'
            (Database.set_task_enabled tid enabled now tasks)
          = Database.get_task loads tid' tasks.
Proof.
  split; [| split].
  - unfold Database.get_task. rewrite find_filter_key, String.eqb_refl.
    reflexivity.
  - unfold Database.get_task, Database.set_task_enabled.
    rewrite find_map_key
      by (intros r; destruct (String.eqb (Database.task_id r) tid);
          reflexivity).
    destruct (find (fun r => String.eqb (Database.task_id r) tid) tasks)
      as [old |] eqn:Hfind; [| reflexivity].
    apply find_some in Hfind as [_ Hold]. cbn. rewrite Hold.
    apply String.eqb_eq in Hold. cbn. rewrite Hold.
    destruct enabled; reflexivity.
  - intros tid' Hne. split.
    + unfold Database.get_task. rewrite find_filter_key.
      destruct (String.eqb_spec tid' tid); [congruence | reflexivity].
    + unfold Database.get_task, Database.set_task_enabled.
      rewrite (find_map_other _ tid tid'); auto.
      * intros r. destruct (String.eqb (Database.task_id r) tid); reflexivity.
      * intros r Hr.
        destruct (String.eqb_spec (Database.task_id r) tid); [congruence |].
        reflexivity.
Qed.

End TaskTable.

(** ** workflow.py: what a run never does *)

Section Only.
Context {W : Type} (P : Workflow.Event -> Prop).

Lemma only_ret {A} (a : A) : Calls.only (W:=W) P (ret a).
Proof. intros s. exists []. split; [now rewrite app_nil_r | constructor]. Qed.

Lemma only_raise {A} e : Calls.only (W:=W) (A:=A) P (raise e).
Proof. intros s. exists []. split; [now rewrite app_nil_r | constructor]. Qed.

Lemma only_lift {A} (o : Outcome A) : Calls.only (W:=W) P (lift_outcome o).
Proof. intros s. exists []. split; [now rewrite app_nil_r | constructor]. Qed.

Lemma only_get : Calls.only (W:=W) P get_state.
Proof. intros s. exists []. split; [now rewrite app_nil_r | constructor]. Qed.

Lemma only_bind {A B} (m : M (Workflow.State W) A)
      (k : A -> M (Workflow.State W) B) :
  Calls.only P m -> (forall a, Calls.only P (k a)) -> Calls.only P (bind m k).
Proof.
  intros Hm Hk s. unfold bind. destruct (Hm s) as (evs & Ht & Hall).
  destruct (m s) as [[a | e] s1]; cbn [snd] in *; [| eauto].
  destruct (Hk a s1) as (evs' & Ht' & Hall').
  exists (evs ++ evs')%list. split.
  - rewrite Ht', Ht, <- app_assoc. reflexivity.
  - apply Forall_app. auto.
Qed.

Lemma only_try {A} (m : M (Workflow.State W) A)
      (h : string -> M (Workflow.State W) A) :
  Calls.only P m -> (forall e, Calls.only P (h e)) ->
  Calls.only P (try_except m h).
Proof.
  intros Hm Hh s. unfold try_except. destruct (Hm s) as (evs & Ht & Hall).
  destruct (m s) as [[a | e] s1]; cbn [snd] in *; [eauto |].
  destruct (Hh e s1) as (evs' & Ht' & Hall').
  exists (evs ++ evs')%list. split.
  - rewrite Ht', Ht, <- app_assoc. reflexivity.
  - apply Forall_app. auto.
Qed.

Lemma only_call {A} (m : M W A) : Calls.only P (Workflow.call m).
Proof.
  intros s. unfold Workflow.call. destruct (m (Workflow.ext s)).
  exists []. split; [now rewrite app_nil_r | constructor].
Qed.

Lemma only_on_db {A} (f : Db.Database -> A * Db.Database) :
  Calls.only P (Workflow.on_db (W:=W) f).
Proof.
  intros s. unfold Workflow.on_db. destruct (f (Workflow.db s)).
  exists []. split; [now rewrite app_nil_r | constructor].
Qed.

Lemma only_emit e : P e -> Calls.only P (Workflow.emit (W:=W) e).
Proof.
  intros He s. exists [e]. split; [reflexivity | now constructor].
Qed.

Lemma only_modify (f : Workflow.State W -> Workflow.State W) :
  (forall s, Workflow.trace (f s) = Workflow.trace s) ->
  Calls.only P (modify f).
Proof.
  intros Hf s. exists []. cbn. split; [now rewrite Hf, app_nil_r | constructor].
Qed.

End Only.

Create HintDb only.

Ltac only_step :=
  lazymatch goal with
  | |- Calls.only _ (ret _) => apply only_ret
  | |- Calls.only _ (raise _) => apply only_raise
  | |- Calls.only _ (lift_outcome _) => apply only_lift
  | |- Calls.only _ get_state => apply only_get
  | |- Calls.only _ (bind _ _) => apply only_bind; [| intros ?]
  | |- Calls.only _ (try_except _ _) => apply only_try; [| intros ?]
  | |- Calls.only _ (Workflow.call _) => apply only_call
  | |- Calls.only _ (Workflow.on_db _) => apply only_on_db
  | |- Calls.only _ (modify _) => apply only_modify; intros ?; reflexivity
  | |- Calls.only _ (if ?b then _ else _) => destruct b eqn:?
  | |- Calls.only _ (match ?x with _ => _ end) => destruct x eqn:?
  end.

Ltac only_auto := repeat first [ only_step | solve [eauto with only] ].

Section OnlyCalls.
Context {W : Type} (E : Workflow.Env W) (P : Workflow.Event -> Prop).

Lemma only_fetch url :
  P (Workflow.EvFetch url) -> Calls.only P (Workflow.fetch E url).
Proof.
  intros H. unfold Workflow.fetch.
  apply only_bind; [now apply only_emit | intros ?; apply only_call].
Qed.

Lemma only_paginate ek n :
  (forall u, P (Workflow.EvFetch u)) ->
  forall url c, Calls.only P (Workflow.paginate E ek n url c).
Proof.
  intros HP. induction n as [| n IH]; intros url c; cbn [Workflow.paginate].
  - apply only_ret.
  - apply only_bind.
    + apply only_try; [| intros ?; apply only_ret].
      apply only_bind; [apply only_fetch, HP | intros ?; apply only_ret].
    + intros r. only_auto.
Qed.

Lemma only_discover base url c :
  (forall u, P (Workflow.EvFetch u)) ->
  Calls.only P (Workflow.discover E base url c).
Proof.
  intros HP. unfold Workflow.discover.
  apply only_try; [| intros ?; apply only_ret].
  apply only_bind; [apply only_fetch, HP | intros ?; apply only_ret].
Qed.

Lemma only_visit_category base ek per url rest c :
  (forall u, P (Workflow.EvFetch u)) ->
  Calls.only P (Workflow.visit_category E base ek per url rest c).
Proof.
  intros HP. unfold Workflow.visit_category.
  apply only_bind; [now apply only_paginate |].
  intros c'. now apply only_discover.
Qed.

Lemma only_category_loop base ek total per fuel :
  (forall u, P (Workflow.EvFetch u)) ->
  forall c, Calls.only P (Workflow.category_loop E base ek total per fuel c).
Proof.
  intros HP. induction fuel as [| k IH]; intros c;
    cbn [Workflow.category_loop]; [apply only_ret |].
  destruct (negb _); [apply only_ret |].
  destruct (Workflow.drop_seen _ _) as [| url rest]; [apply only_ret |].
  apply only_bind; [now apply only_visit_category | intros c'; apply IH].
Qed.

Lemma only_crawl cfg ek :
  (forall u, P (Workflow.EvFetch u)) ->
  Calls.only P (Workflow.crawl E cfg ek).
Proof.
  intros HP. unfold Workflow.crawl.
  apply only_bind; [apply only_fetch, HP |].
  intros html. now apply only_category_loop.
Qed.

Lemma only_collect cfg ek :
  (Workflow.use_test_fixtures cfg = false ->
   forall u, P (Workflow.EvFetch u)) ->
  Calls.only P (Workflow._collect_list_items E cfg ek).
Proof.
  intros HP. unfold Workflow._collect_list_items.
  destruct (Workflow.use_test_fixtures cfg) eqn:Hfix.
  - only_auto.
  - apply only_bind; [apply only_crawl; auto | intros c; apply only_ret].
Qed.

Lemma only_db_statement : Calls.only P (Workflow.db_statement E).
Proof. unfold Workflow.db_statement. only_auto. Qed.

Lemma only_now_text : Calls.only P (Workflow.now_text E).
Proof. unfold Workflow.now_text. only_auto. Qed.

Lemma only_shanghai : Calls.only P (Workflow.shanghai_recent_days E).
Proof. unfold Workflow.shanghai_recent_days. only_auto. Qed.

Hint Resolve only_db_statement only_now_text only_shanghai : only.

Lemma only_db_init_schema : Calls.only P (Workflow.db_init_schema E).
Proof. unfold Workflow.db_init_schema. only_auto. Qed.

Lemma only_db_start_run o : Calls.only P (Workflow.db_start_run E o).
Proof. unfold Workflow.db_start_run. only_auto. Qed.

Lemma only_db_is_duplicate t u d :
  Calls.only P (Workflow.db_is_duplicate E t u d).
Proof. unfold Workflow.db_is_duplicate. only_auto. Qed.

Lemma only_db_finish_run rid st fin dur p n d err :
  P (Workflow.EvFinishRun rid st p n d err) ->
  Calls.only P (Workflow.db_finish_run E rid st fin dur p n d err).
Proof.
  intros H. unfold Workflow.db_finish_run.
  apply only_bind; [now apply only_emit | intros ?]. only_auto.
Qed.

Lemma only_db_insert t u d st :
  P (Workflow.EvInsert t u d st) ->
  Calls.only P (Workflow.db_insert_announcement_base E t u d st).
Proof.
  intros H. unfold Workflow.db_insert_announcement_base.
  apply only_bind; [now apply only_emit | intros ?]. only_auto.
Qed.

Lemma only_db_update t c a st :
  P (Workflow.EvUpdateDetail t c a st) ->
  Calls.only P (Workflow.db_update_announcement_detail E t c a st).
Proof.
  intros H. unfold Workflow.db_update_announcement_detail.
  apply only_bind; [now apply only_emit | intros ?]. only_auto.
Qed.

Lemma only_send_card c :
  P (Workflow.EvSendCard c) -> Calls.only P (Workflow.send_card E c).
Proof.
  intros H. unfold Workflow.send_card.
  apply only_bind; [now apply only_emit | intros ?; apply only_call].
Qed.

Lemma only_date_fromisoformat s :
  Calls.only P (Workflow.date_fromisoformat (W:=W) s).
Proof. unfold Workflow.date_fromisoformat. only_auto. Qed.

Lemma only_date_minus_days d n :
  Calls.only P (Workflow.date_minus_days (W:=W) d n).
Proof. unfold Workflow.date_minus_days. only_auto. Qed.

Hint Resolve only_date_fromisoformat only_date_minus_days : only.

Lemma only_lookback_dates base n :
  forall i, Calls.only P (Workflow.lookback_dates (W:=W) base i n).
Proof.
  induction n as [| n IH]; intros i; cbn [Workflow.lookback_dates];
    [apply only_ret |].
  only_auto.
Qed.

Lemma only_allowed_dates base lookback :
  Calls.only P (Workflow.allowed_dates (W:=W) base lookback).
Proof.
  unfold Workflow.allowed_dates.
  apply only_bind; [apply only_lookback_dates | intros ?; apply only_ret].
Qed.

Lemma only_base_date_of cfg recent normalized :
  Calls.only P (Workflow.base_date_of (W:=W) cfg recent normalized).
Proof.
  unfold Workflow.base_date_of.
  destruct (Workflow.use_test_fixtures cfg);
    [destruct normalized as [| [[? ?] ?] ?] |]; apply only_date_fromisoformat.
Qed.

Lemma only_summarize cfg title content :
  Calls.only P (Workflow.summarize E cfg title content).
Proof. unfold Workflow.summarize. only_auto. Qed.

Lemma only_throttle_step cfg adaptive :
  Calls.only P (Workflow.throttle_step (W:=W) cfg adaptive).
Proof. unfold Workflow.throttle_step. only_auto. Qed.

Lemma only_item_delay idx : Calls.only P (Workflow.item_delay E idx).
Proof. unfold Workflow.item_delay. only_auto. Qed.

Lemma only_count_duplicate : Calls.only P (Workflow.count_duplicate (W:=W)).
Proof. unfold Workflow.count_duplicate. only_auto. Qed.

Lemma only_count_new : Calls.only P (Workflow.count_new (W:=W)).
Proof. unfold Workflow.count_new. only_auto. Qed.

Lemma only_downgrade_new : Calls.only P (Workflow.downgrade_new (W:=W)).
Proof. unfold Workflow.downgrade_new. only_auto. Qed.

End OnlyCalls.

Section Switches.
Context {W : Type} (E : Workflow.Env W) (cfg : Workflow.Config).

Lemma permitted_notify_item title d summary abs_url :
  Calls.only (Calls.allowed cfg) (Workflow.notify_item E cfg title d summary abs_url).
Proof.
  unfold Workflow.notify_item.
  destruct (Workflow.feishu_on cfg) eqn:Hon; [| apply only_ret].
  apply only_try.
  - destruct (String.eqb (Workflow.feishu_notify_mode cfg) "per_item")
      eqn:Hmode.
    + apply only_send_card. split; assumption.
    + apply only_modify. reflexivity.
  - intros e. apply only_modify. reflexivity.
Qed.

Lemma permitted_item_detail title d abs_url :
  Workflow.dry_run cfg = false ->
  Calls.only (Calls.allowed cfg) (Workflow.item_detail E cfg title d abs_url).
Proof.
  intros Hdry. unfold Workflow.item_detail.
  apply only_bind.
  { destruct (Workflow.use_test_fixtures cfg) eqn:Hfix;
      [apply only_call | apply only_fetch; exact Hfix]. }
  intros html. apply only_bind; [apply only_lift | intros content].
  apply only_bind; [apply only_summarize | intros summary].
  apply only_bind; [apply only_db_update; exact Hdry | intros _].
  apply permitted_notify_item.
Qed.

Lemma permitted_item_failed title e :
  Workflow.dry_run cfg = false ->
  Calls.only (Calls.allowed cfg) (Workflow.item_failed E title e).
Proof.
  intros Hdry. unfold Workflow.item_failed.
  apply only_bind; [apply only_modify; reflexivity | intros _].
  apply only_db_update. exact Hdry.
Qed.

Lemma permitted_item_enrich adaptive title d abs_url :
  Workflow.dry_run cfg = false ->
  Calls.only (Calls.allowed cfg) (Workflow.item_enrich E cfg adaptive title d abs_url).
Proof.
  intros Hdry. unfold Workflow.item_enrich.
  apply only_bind.
  - apply only_try.
    + apply only_bind; [now apply permitted_item_detail |].
      intros _. apply only_ret.
    + intros e. apply only_bind; [now apply permitted_item_failed |].
      intros _. apply only_ret.
  - intros [|]; [apply only_throttle_step | apply only_ret].
Qed.

Lemma permitted_process_item adaptive idx it :
  Calls.only (Calls.allowed cfg) (Workflow.process_item E cfg adaptive idx it).
Proof.
  destruct it as [[title link] d]. unfold Workflow.process_item.
  apply only_bind; [apply only_item_delay | intros _].
  apply only_bind; [apply only_db_is_duplicate | intros dup].
  destruct dup; [apply only_count_duplicate |].
  apply only_bind; [apply only_count_new | intros _].
  destruct (Workflow.dry_run cfg) eqn:Hdry; [apply only_ret |].
  apply only_bind; [apply only_db_insert; exact Hdry | intros inserted].
  destruct (negb inserted); [apply only_downgrade_new |].
  now apply permitted_item_enrich.
Qed.

Lemma permitted_ingest_loop adaptive max_items filtered :
  forall idx,
    Calls.only (Calls.allowed cfg) (Workflow.ingest_loop E cfg adaptive max_items idx filtered).
Proof.
  induction filtered as [| it rest IH]; intros idx;
    cbn [Workflow.ingest_loop]; [apply only_ret |].
  destruct (negb (max_items =? 0) && (max_items <=? idx)); [apply only_ret |].
  apply only_bind; [apply permitted_process_item | intros _; apply IH].
Qed.

Lemma permitted_send_digest execution_time duration fuel :
  Workflow.feishu_on cfg = true ->
  String.eqb (Workflow.feishu_notify_mode cfg) "digest" = true ->
  forall i,
    Calls.only (Calls.allowed cfg) (Workflow.send_digest E cfg execution_time duration fuel i).
Proof.
  intros Hon Hmode. induction fuel as [| k IH]; intros i;
    cbn [Workflow.send_digest]; [apply only_ret |].
  apply only_bind; [apply only_get | intros s].
  destruct (i <? length (Workflow.new_items s))%nat; [| apply only_ret].
  apply only_bind; [| intros _; apply IH].
  apply only_send_card. split; assumption.
Qed.

Lemma permitted_notify_run execution_time duration :
  Calls.only (Calls.allowed cfg) (Workflow.notify_run E cfg execution_time duration).
Proof.
  unfold Workflow.notify_run.
  apply only_bind; [apply only_get | intros s].
  destruct (Workflow.feishu_on cfg && (0 <? Workflow.total_new s)) eqn:Hon;
    [| apply only_ret].
  apply andb_prop in Hon as [Hon _].
  apply only_try; [| intros e; apply only_ret].
  destruct (String.eqb (Workflow.feishu_notify_mode cfg) "digest") eqn:Hmode.
  - now apply permitted_send_digest.
  - apply only_send_card. split; assumption.
Qed.

Lemma permitted_run_try recent run :
  Calls.only (Calls.allowed cfg) (Workflow.run_try E cfg recent run).
Proof.
  unfold Workflow.run_try.
  apply only_bind; [apply only_date_fromisoformat | intros today_].
  apply only_bind; [apply only_date_minus_days | intros ek].
  apply only_bind.
  { apply only_collect. intros Hfix u. exact Hfix. }
  intros collected. destruct (Workflow.items collected) as [| it rest].
  - apply only_bind; [apply only_call | intros duration].
    apply only_bind; [apply only_shanghai | intros fin].
    apply only_bind; [apply only_db_finish_run; exact I | intros _].
    apply only_ret.
  - apply only_bind; [apply only_lift | intros keyword_re].
    apply only_bind; [destruct (TimeUtils.datetime_fromisoformat _);
                      [apply only_ret | apply only_raise] | intros now_dt].
    apply only_bind; [apply only_base_date_of | intros base_date].
    apply only_bind; [apply only_allowed_dates | intros allowed].
    apply only_bind; [apply only_modify; reflexivity | intros _].
    apply only_bind; [apply permitted_ingest_loop | intros _].
    apply only_bind; [apply only_call | intros duration].
    apply only_bind; [apply only_shanghai | intros fin].
    apply only_bind; [apply only_get | intros s].
    apply only_bind; [apply only_db_finish_run; exact I | intros _].
    apply only_bind; [apply permitted_notify_run | intros _].
    apply only_bind; [apply only_get | intros s']. apply only_ret.
Qed.

Lemma permitted_run_failed run e :
  Calls.only (Calls.allowed cfg) (Workflow.run_failed E cfg run e).
Proof.
  unfold Workflow.run_failed.
  apply only_bind; [apply only_call | intros duration].
  apply only_bind; [apply only_shanghai | intros fin].
  apply only_bind; [apply only_get | intros s].
  apply only_bind; [apply only_db_finish_run; exact I | intros _].
  apply only_bind.
  { destruct (Workflow.feishu_on cfg) eqn:Hon; [| apply only_ret].
    apply only_send_card. split; [exact Hon | exact I]. }
  intros _. apply only_bind; [apply only_get | intros s']. apply only_ret.
Qed.

(** Every call of a run is one the switches of its configuration
    permit. *)
Lemma permitted_run_once :
  Calls.only (Calls.allowed cfg) (Workflow.run_once E cfg).
Proof.
  unfold Workflow.run_once.
  apply only_bind; [apply only_shanghai | intros recent].
  apply only_bind; [apply only_modify; reflexivity | intros _].
  apply only_bind; [apply only_db_init_schema | intros _].
  apply only_bind; [apply only_db_start_run | intros run].
  repeat (apply only_bind; [apply only_modify; reflexivity | intros _]).
  apply only_try; [apply permitted_run_try | apply permitted_run_failed].
Qed.

Lemma permitted_none (bad : Workflow.Event -> bool)
      (s : Workflow.State W) :
  (forall e, Calls.allowed cfg e -> bad e = false) ->
  exists evs,
    Workflow.trace (snd (Workflow.run_once E cfg s))
    = (Workflow.trace s ++ evs)%list
    /\ Forall (fun e => bad e = false) evs.
Proof.
  intros Hbad. destruct (permitted_run_once s) as (evs & Ht & Hall).
  exists evs. split; [exact Ht |].
  eapply Forall_impl; [exact Hall | exact Hbad].
Qed.

End Switches.






(** ** workflow.py: the items a run processes *)

Section Processed.
Context {W : Type} (E : Workflow.Env W).

Lemma adds_steady {A} (m : M (Workflow.State W) A) :
  Inv.steady m -> Calls.adds 0 m.
Proof.
  intros Hm s. destruct (Hm s) as (_ & _ & Hp). rewrite Hp.
  split; [lia | intros; lia].
Qed.

Lemma adds_bind {A B} (a b : Z) (m : M (Workflow.State W) A)
      (k : A -> M (Workflow.State W) B) :
  0 <= a -> 0 <= b ->
  Calls.adds a m -> (forall x, Calls.adds b (k x)) ->
  Calls.adds (a + b) (bind m k).
Proof.
  intros Ha Hb Hm Hk s. unfold bind. destruct (Hm s) as [Hle Heq].
  destruct (m s) as [[x | e] s1]; cbn [fst snd] in *.
  - destruct (Hk x s1) as [Hle' Heq']. rewrite (Heq x eq_refl) in *.
    split; [lia |]. intros y Hy. rewrite (Heq' y Hy). lia.
  - split; [lia | discriminate].
Qed.

Lemma adds_count_duplicate : Calls.adds 1 (Workflow.count_duplicate (W:=W)).
Proof. intros s. cbn. split; [lia | reflexivity]. Qed.

Lemma adds_count_new : Calls.adds 1 (Workflow.count_new (W:=W)).
Proof. intros s. cbn. split; [lia | reflexivity]. Qed.

Lemma adds_downgrade_new : Calls.adds 0 (Workflow.downgrade_new (W:=W)).
Proof. intros s. cbn. split; [lia | intros; lia]. Qed.

Lemma adds_process_item cfg adaptive idx it :
  Calls.adds 1 (Workflow.process_item E cfg adaptive idx it).
Proof.
  destruct it as [[title link] d]. unfold Workflow.process_item.
  apply (adds_bind 0 1); try lia;
    [apply adds_steady, steady_item_delay | intros _].
  apply (adds_bind 0 1); try lia;
    [apply adds_steady, steady_db_is_duplicate | intros dup].
  destruct dup; [apply adds_count_duplicate |].
  apply (adds_bind 1 0); try lia; [apply adds_count_new | intros _].
  destruct (Workflow.dry_run cfg); [apply adds_steady, steady_ret |].
  apply (adds_bind 0 0); try lia;
    [apply adds_steady, steady_db_insert | intros inserted].
  destruct (negb inserted);
    [apply adds_downgrade_new | apply adds_steady, steady_item_enrich].
Qed.

Lemma planned_nonneg max_items idx n : 0 <= Calls.planned max_items idx n.
Proof. unfold Calls.planned. destruct (max_items =? 0); lia. Qed.

Lemma adds_ingest_loop cfg adaptive max_items filtered :
  forall idx,
    Calls.adds (Calls.planned max_items idx (length filtered))
      (Workflow.ingest_loop E cfg adaptive max_items idx filtered).
Proof.
  induction filtered as [| it rest IH]; intros idx;
    cbn [Workflow.ingest_loop length].
  - replace (Calls.planned max_items idx 0) with 0
      by (unfold Calls.planned; destruct (max_items =? 0); lia).
    apply adds_steady, steady_ret.
  - destruct (Z.eqb_spec max_items 0) as [Hz | Hnz]; cbn [negb andb].
    + replace (Calls.planned max_items idx (S (length rest)))
        with (1 + Calls.planned max_items (idx + 1) (length rest))
        by (unfold Calls.planned; subst max_items; cbn [Z.eqb]; lia).
      apply adds_bind; [lia | apply planned_nonneg | |].
      * apply adds_process_item.
      * intros _. apply IH.
    + destruct (Z.leb_spec max_items idx) as [Hle | Hgt].
      * replace (Calls.planned max_items idx (S (length rest))) with 0
          by (unfold Calls.planned;
              destruct (Z.eqb_spec max_items 0); [congruence | lia]).
        apply adds_steady, steady_ret.
      * replace (Calls.planned max_items idx (S (length rest)))
          with (1 + Calls.planned max_items (idx + 1) (length rest))
          by (unfold Calls.planned;
              destruct (Z.eqb_spec max_items 0); [congruence | lia]).
        apply adds_bind; [lia | apply planned_nonneg | |].
        -- apply adds_process_item.
        -- intros _. apply IH.
Qed.

End Processed.

(** X19.  The loop over the candidates counts every iteration once and
    stops at the cap: whatever happens to the items, [total_processed]
    grows by at most the number of candidates, or by at most [max_items]
    when that is positive; and when the loop completes it has grown by
    exactly that number.  A cap of [0] is no cap. *)
Theorem ingest_loop_processes_up_to_cap {W} (E : Workflow.Env W)
        (cfg : Workflow.Config) (adaptive : bool) (max_items : Z)
        (filtered : list Workflow.Item) (s : Workflow.State W) :
  let planned :=
    if max_items =? 0 then Z.of_nat (length filtered)
    else Z.max 0 (Z.min (Z.of_nat (length filtered)) max_items) in
  let r := Workflow.ingest_loop E cfg adaptive max_items 0 filtered s in
  Workflow.total_processed s <= Workflow.total_processed (snd r)
  <= Workflow.total_processed s + planned
  /\ (fst r = Ok tt ->
      Workflow.total_processed (snd r) = Workflow.total_processed s + planned).
Proof.
  cbv zeta.
  destruct (adds_ingest_loop E cfg adaptive max_items filtered 0 s)
    as [Hle Heq].
  unfold Calls.planned in *. rewrite Z.sub_0_r in *.
  split; [exact Hle | exact (Heq tt)].
Qed.

(** ** workflow.py: the delay between two items *)

Section Delay.
Context {W : Type} (J : Q -> Prop).

Lemma delay_ret {A} (a : A) : Calls.delay_in (W:=W) J (ret a).
Proof. intros s H. exact H. Qed.

Lemma delay_raise {A} e : Calls.delay_in (W:=W) (A:=A) J (raise e).
Proof. intros s H. exact H. Qed.

Lemma delay_lift {A} (o : Outcome A) : Calls.delay_in (W:=W) J (lift_outcome o).
Proof. intros s H. exact H. Qed.

Lemma delay_get : Calls.delay_in (W:=W) J get_state.
Proof. intros s H. exact H. Qed.

Lemma delay_bind {A B} (m : M (Workflow.State W) A)
      (k : A -> M (Workflow.State W) B) :
  Calls.delay_in J m -> (forall a, Calls.delay_in J (k a)) ->
  Calls.delay_in J (bind m k).
Proof.
  intros Hm Hk s H. unfold bind. specialize (Hm s H).
  destruct (m s) as [[a | e] s1]; cbn [snd] in *; [| exact Hm].
  now apply Hk.
Qed.

Lemma delay_try {A} (m : M (Workflow.State W) A)
      (h : string -> M (Workflow.State W) A) :
  Calls.delay_in J m -> (forall e, Calls.delay_in J (h e)) ->
  Calls.delay_in J (try_except m h).
Proof.
  intros Hm Hh s H. unfold try_except. specialize (Hm s H).
  destruct (m s) as [[a | e] s1]; cbn [snd] in *; [exact Hm |].
  now apply Hh.
Qed.

Lemma delay_call {A} (m : M W A) : Calls.delay_in J (Workflow.call m).
Proof.
  intros s H. unfold Workflow.call. destruct (m (Workflow.ext s)). exact H.
Qed.

Lemma delay_on_db {A} (f : Db.Database -> A * Db.Database) :
  Calls.delay_in J (Workflow.on_db (W:=W) f).
Proof.
  intros s H. unfold Workflow.on_db. destruct (f (Workflow.db s)). exact H.
Qed.

Lemma delay_emit e : Calls.delay_in J (Workflow.emit (W:=W) e).
Proof. intros s H. exact H. Qed.

Lemma delay_modify (f : Workflow.State W -> Workflow.State W) :
  (forall s, Workflow.current_delay (f s) = Workflow.current_delay s) ->
  Calls.delay_in J (modify f).
Proof. intros Hf s H. cbn. now rewrite Hf. Qed.

End Delay.

Create HintDb delay.

Ltac delay_step :=
  lazymatch goal with
  | |- Calls.delay_in _ (ret _) => apply delay_ret
  | |- Calls.delay_in _ (raise _) => apply delay_raise
  | |- Calls.delay_in _ (lift_outcome _) => apply delay_lift
  | |- Calls.delay_in _ get_state => apply delay_get
  | |- Calls.delay_in _ (bind _ _) => apply delay_bind; [| intros ?]
  | |- Calls.delay_in _ (try_except _ _) => apply delay_try; [| intros ?]
  | |- Calls.delay_in _ (Workflow.call _) => apply delay_call
  | |- Calls.delay_in _ (Workflow.on_db _) => apply delay_on_db
  | |- Calls.delay_in _ (Workflow.emit _) => apply delay_emit
  | |- Calls.delay_in _ (modify _) => apply delay_modify; intros ?; reflexivity
  | |- Calls.delay_in _ (if ?b then _ else _) => destruct b
  | |- Calls.delay_in _ (match ?x with _ => _ end) => destruct x
  end.

Ltac delay_auto := repeat first [ delay_step | solve [eauto with delay] ].

Section DelayCalls.
Context {W : Type} (E : Workflow.Env W) (cfg : Workflow.Config)
        (adaptive : bool) (J : Q -> Prop).
Hypothesis step :
  adaptive = true ->
  forall q, J q ->
            J (Workflow.qmin (Workflow.max_loop_delay_seconds cfg)
                 (q + Workflow.qmax (Workflow.delay_increment_seconds cfg) 0)%Q).

Lemma delay_db_statement : Calls.delay_in J (Workflow.db_statement E).
Proof. unfold Workflow.db_statement. delay_auto. Qed.

Lemma delay_now_text : Calls.delay_in J (Workflow.now_text E).
Proof. unfold Workflow.now_text. delay_auto. Qed.

Hint Resolve delay_db_statement delay_now_text : delay.

Lemma delay_db_update t c a st :
  Calls.delay_in J (Workflow.db_update_announcement_detail E t c a st).
Proof. unfold Workflow.db_update_announcement_detail. delay_auto. Qed.

Lemma delay_send_card c : Calls.delay_in J (Workflow.send_card E c).
Proof. unfold Workflow.send_card. delay_auto. Qed.

Lemma delay_fetch url : Calls.delay_in J (Workflow.fetch E url).
Proof. unfold Workflow.fetch. delay_auto. Qed.

Lemma delay_summarize title content :
  Calls.delay_in J (Workflow.summarize E cfg title content).
Proof. unfold Workflow.summarize. delay_auto. Qed.

Hint Resolve delay_db_update delay_send_card delay_fetch delay_summarize
  : delay.

Lemma delay_notify_item title d summary abs_url :
  Calls.delay_in J (Workflow.notify_item E cfg title d summary abs_url).
Proof. unfold Workflow.notify_item. delay_auto. Qed.

Hint Resolve delay_notify_item : delay.

Lemma delay_item_detail title d abs_url :
  Calls.delay_in J (Workflow.item_detail E cfg title d abs_url).
Proof. unfold Workflow.item_detail. delay_auto. Qed.

Lemma delay_item_failed title e :
  Calls.delay_in J (Workflow.item_failed E title e).
Proof. unfold Workflow.item_failed. delay_auto. Qed.

Lemma delay_throttle_step :
  Calls.delay_in J (Workflow.throttle_step (W:=W) cfg adaptive).
Proof.
  intros s H. unfold Workflow.throttle_step, bind, get_state.
  destruct adaptive; cbn; [| exact H].
  destruct ((0 <? Workflow.batch_size cfg)
            && (Workflow.total_processed s mod Workflow.batch_size cfg =? 0));
    cbn; [| exact H].
  now apply step.
Qed.

Hint Resolve delay_item_detail delay_item_failed delay_throttle_step : delay.

Lemma delay_item_enrich title d abs_url :
  Calls.delay_in J (Workflow.item_enrich E cfg adaptive title d abs_url).
Proof. unfold Workflow.item_enrich. delay_auto. Qed.

Lemma delay_process_item idx it :
  Calls.delay_in J (Workflow.process_item E cfg adaptive idx it).
Proof.
  destruct it as [[title link] d].
  unfold Workflow.process_item, Workflow.item_delay,
    Workflow.db_is_duplicate, Workflow.count_duplicate, Workflow.count_new,
    Workflow.db_insert_announcement_base, Workflow.downgrade_new.
  delay_auto. apply delay_item_enrich.
Qed.

Lemma delay_ingest_loop max_items filtered :
  forall idx,
    Calls.delay_in J
      (Workflow.ingest_loop E cfg adaptive max_items idx filtered).
Proof.
  induction filtered as [| it rest IH]; intros idx;
    cbn [Workflow.ingest_loop]; [apply delay_ret |].
  destruct (negb (max_items =? 0) && (max_items <=? idx));
    [apply delay_ret |].
  apply delay_bind; [apply delay_process_item | intros _; apply IH].
Qed.

End DelayCalls.

Lemma qmin_le_l a b : (Workflow.qmin a b <= a)%Q.
Proof.
  unfold Workflow.qmin, Workflow.Qltb.
  destruct (Qle_bool a b) eqn:Hab; cbn; [apply Qle_refl |].
  apply Qlt_le_weak, Qnot_le_lt. intros Hle.
  apply Qle_bool_iff in Hle. congruence.
Qed.

Lemma qmin_nonneg a b : (0 <= a)%Q -> (0 <= b)%Q -> (0 <= Workflow.qmin a b)%Q.
Proof. intros Ha Hb. unfold Workflow.qmin. destruct (Workflow.Qltb b a); auto. Qed.

Lemma qmax_nonneg_r a : (0 <= Workflow.qmax a 0)%Q.
Proof.
  unfold Workflow.qmax, Workflow.Qltb.
  destruct (Qle_bool 0 a) eqn:Ha; cbn; [| apply Qle_refl].
  now apply Qle_bool_iff.
Qed.


(** ** workflow.py: failures of the crawl *)

Section Succeeds.
Context {S : Type}.

Lemma succeeds_ret {A} (a : A) : Calls.succeeds (S:=S) (ret a).
Proof. intros s. eauto. Qed.

Lemma succeeds_bind {A B} (m : M S A) (k : A -> M S B) :
  Calls.succeeds m -> (forall a, Calls.succeeds (k a)) ->
  Calls.succeeds (bind m k).
Proof.
  intros Hm Hk s. unfold bind. destruct (Hm s) as (a & s1 & ->).
  apply Hk.
Qed.

Lemma succeeds_try {A} (m : M S A) (h : string -> M S A) :
  (forall e, Calls.succeeds (h e)) -> Calls.succeeds (try_except m h).
Proof.
  intros Hh s. unfold try_except.
  destruct (m s) as [[a | e] s1]; [eauto | apply Hh].
Qed.

End Succeeds.

Section CrawlFailures.
Context {W : Type} (E : Workflow.Env W).

Lemma succeeds_paginate ek n :
  forall url c, Calls.succeeds (Workflow.paginate E ek n url c).
Proof.
  induction n as [| n IH]; intros url c; cbn [Workflow.paginate];
    [apply succeeds_ret |].
  apply succeeds_bind.
  - apply succeeds_try. intros _. apply succeeds_ret.
  - intros [html |]; [| apply succeeds_ret].
    destruct (Workflow.should_stop_paging _ _ _); [apply succeeds_ret |].
    destruct (Workflow.resolve_next E html url) as [next_url |];
      [| apply succeeds_ret].
    destruct (negb (Str.truthy next_url) || bool_decide (next_url ∈ _));
      [apply succeeds_ret | apply IH].
Qed.

Lemma succeeds_discover base url c :
  Calls.succeeds (Workflow.discover E base url c).
Proof.
  unfold Workflow.discover. apply succeeds_try. intros _. apply succeeds_ret.
Qed.

Lemma succeeds_category_loop base ek total per fuel :
  forall c, Calls.succeeds (Workflow.category_loop E base ek total per fuel c).
Proof.
  induction fuel as [| k IH]; intros c; cbn [Workflow.category_loop];
    [apply succeeds_ret |].
  destruct (negb _); [apply succeeds_ret |].
  destruct (Workflow.drop_seen _ _) as [| url rest]; [apply succeeds_ret |].
  apply succeeds_bind; [| apply IH].
  unfold Workflow.visit_category.
  apply succeeds_bind; [apply succeeds_paginate |].
  intros c'. apply succeeds_discover.
Qed.

End CrawlFailures.


(** ** workflow.py: the digest *)

Section Digest.
Context {W : Type} (E : Workflow.Env W).

Lemma send_card_state c (s s1 : Workflow.State W) (r : Outcome unit) :
  Workflow.send_card E c s = (r, s1) ->
  Workflow.trace s1 = (Workflow.trace s ++ [Workflow.EvSendCard c])%list
  /\ Workflow.new_items s1 = Workflow.new_items s.
Proof.
  unfold Workflow.send_card, Workflow.emit, Workflow.call, bind, modify.
  cbn. destruct (Workflow.feishu_send_card E c (Workflow.ext s)) as [r' w].
  intros H. injection H as <- <-. split; reflexivity.
Qed.

Lemma concat_nonempty_nil (cards : list Workflow.Card) :
  Forall (fun c => (1 <= length (Calls.card_items c) <= 10)%nat) cards ->
  concat (map Calls.card_items cards) = [] -> cards = [].
Proof.
  intros Hall Hnil. destruct cards as [| c rest]; [reflexivity |].
  apply Forall_inv in Hall. simpl in Hnil.
  apply app_eq_nil in Hnil as [Hc _]. rewrite Hc in Hall. simpl in Hall. lia.
Qed.

Lemma send_digest_cards cfg execution_time duration fuel :
  forall (i : nat) (s s' : Workflow.State W),
    (length (Workflow.new_items s) <= i + 10 * fuel)%nat ->
    Workflow.send_digest E cfg execution_time duration fuel i s
    = (Ok tt, s') ->
    exists cards,
      Workflow.trace s'
      = (Workflow.trace s ++ map Workflow.EvSendCard cards)%list
      /\ concat (map Calls.card_items cards) = skipn i (Workflow.new_items s)
      /\ Forall (fun c => (1 <= length (Calls.card_items c) <= 10)%nat) cards
      /\ Calls.numbered i (length (Workflow.new_items s)) cards.
Proof.
  induction fuel as [| k IH]; intros i s s' Hfuel Hrun.
  - cbn in Hrun. unfold ret in Hrun. injection Hrun as <-. exists []. cbn.
    rewrite app_nil_r, skipn_all2 by lia. repeat split; constructor.
  - cbn [Workflow.send_digest] in Hrun. unfold bind at 1 in Hrun.
    cbn [get_state] in Hrun.
    destruct (Nat.ltb_spec i (length (Workflow.new_items s))) as [Hlt | Hge].
    + unfold bind in Hrun.
      match type of Hrun with
      | context [Workflow.send_card E ?c s] =>
          set (card := c) in *
      end.
      destruct (Workflow.send_card E card s) as [[[] | e] s1] eqn:Hsend;
        cbn beta iota in Hrun; [| discriminate].
      apply send_card_state in Hsend as [Htrace Hitems].
      apply IH in Hrun; [| rewrite Hitems; lia].
      destruct Hrun as (cards & Ht & Hcat & Hall & Hnum).
      rewrite Hitems in Hcat, Hnum.
      assert (Hlen : length (Calls.card_items card)
                     = Nat.min 10 (length (Workflow.new_items s) - i)).
      { unfold card. cbn. rewrite length_firstn, length_skipn. reflexivity. }
      exists (card :: cards). split; [| split; [| split]].
      * rewrite Ht, Htrace, <- app_assoc. reflexivity.
      * cbn [map concat]. rewrite Hcat. unfold card at 1. cbn.
        etransitivity; [| apply (firstn_skipn 10)].
        f_equal. rewrite skipn_skipn. f_equal. lia.
      * constructor; [lia | exact Hall].
      * destruct (Nat.le_gt_cases (i + 10) (length (Workflow.new_items s)))
          as [Hfull | Hshort].
        -- unfold card in *. cbn [Calls.card_items] in Hlen.
           cbn [Calls.numbered]. rewrite Hlen.
           replace (Nat.min 10 (length (Workflow.new_items s) - i))
             with 10%nat by lia.
           repeat split; try lia. exact Hnum.
        -- assert (cards = []) as ->.
           { apply concat_nonempty_nil; [exact Hall |].
             rewrite Hcat. apply skipn_all2. lia. }
           unfold card in *. cbn [Calls.card_items] in Hlen.
           cbn [Calls.numbered]. rewrite Hlen.
           repeat split; lia.
    + unfold ret in Hrun. injection Hrun as <-. exists []. cbn.
      rewrite app_nil_r, skipn_all2 by lia. repeat split; constructor.
Qed.

End Digest.

(** X22.  The digest covers every new item once.  When the digest of a run
    is sent to the end, the cards sent are digest cards that list the
    buffered items in order, each item on one card, with one to ten items
    on a card, and the ranges printed on the cards follow one another from
    1 to the number of items. *)
Theorem digest_cards_partition_new_items {W} (E : Workflow.Env W)
        (cfg : Workflow.Config) (execution_time : string) (duration : Z)
        (s s' : Workflow.State W) :
  Workflow.send_digest E cfg execution_time duration
    (length (Workflow.new_items s)) 0 s = (Ok tt, s') ->
  exists cards,
    Workflow.trace s' = (Workflow.trace s ++ map Workflow.EvSendCard cards)%list
    /\ concat (map Calls.card_items cards) = Workflow.new_items s
    /\ Forall (fun c => (1 <= length (Calls.card_items c) <= 10)%nat) cards
    /\ Calls.numbered 0 (length (Workflow.new_items s)) cards.
Proof.
  intros Hrun. apply send_digest_cards in Hrun; [exact Hrun | lia].
Qed.

Lemma digest_cards_partition_new_items_witness :
  exists cards,
    Workflow.trace
      (snd (Workflow.send_digest (Scenario.site None None) Cases.digesting
              "2026-02-01T09:00:00+08:00" 3 12 0 Cases.buffered))
    = (Workflow.trace Cases.buffered ++ map Workflow.EvSendCard cards)%list
    /\ concat (map Calls.card_items cards) = Workflow.new_items Cases.buffered
    /\ Forall (fun c => (1 <= length (Calls.card_items c) <= 10)%nat) cards
    /\ Calls.numbered 0 (length (Workflow.new_items Cases.buffered)) cards.
Proof.
  apply (digest_cards_partition_new_items (Scenario.site None None)
           Cases.digesting "2026-02-01T09:00:00+08:00" 3 Cases.buffered).
  vm_compute. reflexivity.
Defined.

(** ** workflow.py: the outer handler *)

Section Handler.
Context {W : Type} (E : Workflow.Env W) (cfg : Workflow.Config).
Hypothesis elapsed_ok :
  forall w, exists z w', Workflow.elapsed_seconds E w = (Ok z, w').
Hypothesis clock_ok :
  forall w, exists n w' r,
    Workflow.clock_now E w = (Ok n, w')
    /\ TimeUtils.shanghai_recent_days n = Ok r.
Hypothesis sync_ok :
  forall t w, exists t' w', Workflow.db_sync E t w = (Ok t', w').
Hypothesis card_ok :
  Workflow.feishu_on cfg = true ->
  forall c w, exists w', Workflow.feishu_send_card E c w = (Ok tt, w').

Lemma succeeds_call {A} (m : M W A) :
  (forall w, exists a w', m w = (Ok a, w')) ->
  Calls.succeeds (Workflow.call m).
Proof.
  intros Hm s. unfold Workflow.call.
  destruct (Hm (Workflow.ext s)) as (a & w' & ->). eauto.
Qed.

Lemma succeeds_modify (f : Workflow.State W -> Workflow.State W) :
  Calls.succeeds (modify f).
Proof. intros s. cbn. eauto. Qed.

Lemma succeeds_get : Calls.succeeds (S:=Workflow.State W) get_state.
Proof. intros s. cbn. eauto. Qed.

Lemma succeeds_shanghai : Calls.succeeds (Workflow.shanghai_recent_days E).
Proof.
  intros s. unfold Workflow.shanghai_recent_days, bind, Workflow.call.
  destruct (clock_ok (Workflow.ext s)) as (n & w' & r & -> & Hr).
  unfold lift_outcome. rewrite Hr. eauto.
Qed.

Lemma succeeds_db_statement : Calls.succeeds (Workflow.db_statement E).
Proof.
  unfold Workflow.db_statement.
  apply succeeds_bind; [apply succeeds_get | intros s].
  apply succeeds_bind; [| intros t; apply succeeds_modify].
  apply succeeds_call. intros w. apply sync_ok.
Qed.

Lemma succeeds_db_finish_run rid st fin dur p n d err :
  Calls.succeeds (Workflow.db_finish_run E rid st fin dur p n d err).
Proof.
  unfold Workflow.db_finish_run, Workflow.emit.
  apply succeeds_bind; [apply succeeds_modify | intros _].
  apply succeeds_bind; [apply succeeds_db_statement | intros _].
  apply succeeds_modify.
Qed.

Lemma succeeds_run_failed run e :
  Calls.succeeds (Workflow.run_failed E cfg run e).
Proof.
  unfold Workflow.run_failed.
  apply succeeds_bind; [apply succeeds_call, elapsed_ok | intros duration].
  apply succeeds_bind; [apply succeeds_shanghai | intros fin].
  apply succeeds_bind; [apply succeeds_get | intros s].
  apply succeeds_bind; [apply succeeds_db_finish_run | intros _].
  apply succeeds_bind.
  - destruct (Workflow.feishu_on cfg) eqn:Hon; [| apply succeeds_ret].
    unfold Workflow.send_card, Workflow.emit.
    apply succeeds_bind; [apply succeeds_modify | intros _].
    apply succeeds_call. intros w.
    destruct (card_ok eq_refl (Workflow.build_error_card
                                 (TimeUtils.now_iso fin) e) w) as [w' Hw].
    eauto.
  - intros _. apply succeeds_bind; [apply succeeds_get | intros s'].
    apply succeeds_ret.
Qed.

(** X23.  A started run ends with a report.  If the calls of the outer
    handler itself cannot fail (the clock, the elapsed time, the
    database file and, with a webhook, the error card), the [try]
    statement of [run_once] returns a report whatever the site, the
    parsers, the pattern, the summaries or the items do: every exception
    of its body is turned into the FAILED report. *)
Theorem started_run_ends_with_report (recent : TimeUtils.RecentDays)
        (run : string * string) (s : Workflow.State W) :
  exists r s',
    try_except (Workflow.run_try E cfg recent run)
      (Workflow.run_failed E cfg run) s = (Ok r, s').
Proof.
  apply succeeds_try. intros e. apply succeeds_run_failed.
Qed.

End Handler.

Lemma started_run_ends_with_report_witness :
  exists r s',
    try_except
      (Workflow.run_try (Scenario.site None None) Cases.bad_pattern
         Cases.recent Cases.run)
      (Workflow.run_failed (Scenario.site None None) Cases.bad_pattern
         Cases.run) Scenario.ready = (Ok r, s').
Proof.
  apply (started_run_ends_with_report (Scenario.site None None)
           Cases.bad_pattern).
  - intros w. exists 3, w. reflexivity.
  - intros w. exists Scenario.clock, w. eexists. split; reflexivity.
  - intros t w. exists t, (S w). reflexivity.
  - intros Hon. discriminate Hon.
Defined.

(** ** time_utils.py *)

Lemma normalize_iso_fixed now y1 y2 y3 y4 m1 m2 d1 d2 :
  Date.all_digits [y1; y2; y3; y4; m1; m2; d1; d2] = true ->
  TimeUtils.normalize_date (Shape.ymd "-" y1 y2 y3 y4 m1 m2 d1 d2) now
  = Some (Shape.ymd "-" y1 y2 y3 y4 m1 m2 d1 d2).
Proof.
  intros H.
  rewrite normalize_date_bare, bare_ymd by (reflexivity || assumption).
  cbv zeta. unfold TimeUtils._RE_YYYY_MM_DD. now rewrite match_sep3_ymd.
Qed.

Lemma digit_chr_mod n : Str.is_digit (Str.digit_chr (n mod 10)) = true.
Proof. apply digit_chr_val, digits_of_10. Qed.

(** X24.  [normalize_date] is idempotent: a date it returns is returned
    unchanged when it is normalized again, at whatever moment. *)
Theorem normalize_date_idempotent (s r : string) (now now' : TimeUtils.datetime) :
  TimeUtils.normalize_date s now = Some r ->
  TimeUtils.normalize_date r now' = Some r.
Proof.
  rewrite normalize_date_bare. cbv zeta.
  pose proof (bare_ends_clean s) as Hc.
  destruct (negb (Str.truthy (Shape.bare s))); [discriminate |].
  destruct (TimeUtils._RE_YYYY_MM_DD (Shape.bare s)) as [g |] eqn:E1.
  { intros Hr. injection Hr as <-.
    destruct (match_sep3_inv "-" (Shape.bare s) g Hc E1)
      as (y1 & y2 & y3 & y4 & m1 & m2 & d1 & d2 & Hd & ->).
    now apply normalize_iso_fixed. }
  destruct (TimeUtils._RE_YYYY_MM_DD_SLASH (Shape.bare s)) as [[[y mm] dd] |]
    eqn:E2.
  { destruct (match_sep3_inv "/" (Shape.bare s) _ Hc E2)
      as (y1 & y2 & y3 & y4 & m1 & m2 & d1 & d2 & Hd & Hb).
    rewrite Hb in E2. unfold TimeUtils._RE_YYYY_MM_DD_SLASH in E2.
    rewrite match_sep3_ymd in E2 by exact Hd.
    injection E2 as <- <- <-. intros Hr. injection Hr as <-.
    change (Str.of_chars [y1; y2; y3; y4] +:+ "-" +:+ Str.of_chars [m1; m2]
            +:+ "-" +:+ Str.of_chars [d1; d2])
      with (Shape.ymd "-" y1 y2 y3 y4 m1 m2 d1 d2).
    now apply normalize_iso_fixed. }
  destruct (TimeUtils._RE_MM_DD (Shape.bare s)) as [[mm dd] |] eqn:E3;
    [| discriminate].
  destruct (match_md_inv (Shape.bare s) _ Hc E3)
    as (m1 & m2 & d1 & d2 & Hd & Hb).
  rewrite Hb in E3. rewrite match_md_shape in E3 by exact Hd.
  injection E3 as <- <-. intros Hr. injection Hr as <-.
  set (y := TimeUtils.dt_year now).
  change (Date.pad4 y +:+ "-" +:+ Str.of_chars [m1; m2] +:+ "-"
          +:+ Str.of_chars [d1; d2])
    with (Shape.ymd "-" (Str.digit_chr (y / 1000 mod 10))
            (Str.digit_chr (y / 100 mod 10)) (Str.digit_chr (y / 10 mod 10))
            (Str.digit_chr (y mod 10)) m1 m2 d1 d2).
  apply normalize_iso_fixed.
  unfold Date.all_digits in *. cbn [forallb] in *.
  rewrite !digit_chr_mod. exact Hd.
Qed.

Lemma normalize_date_idempotent_witness :
  TimeUtils.normalize_date "2026-02-01" Scenario.clock = Some "2026-02-01".
Proof.
  apply (normalize_date_idempotent " [02-01] " "2026-02-01" Scenario.clock
           Scenario.clock).
  reflexivity.
Defined.

Lemma pad2_val n :
  0 <= n <= 99 ->
  Date.num2 (Str.digit_chr (n / 10 mod 10)) (Str.digit_chr (n mod 10)) = n.
Proof.
  intros Hn. unfold Date.num2.
  rewrite !(proj2 (digit_chr_val _ (digits_of_10 _))).
  Z.div_mod_to_equations. lia.
Qed.

Lemma datetime_fromisoformat_isoformat (now : TimeUtils.datetime) :
  Date.valid (TimeUtils.dt_date now) = true ->
  0 <= TimeUtils.dt_hour now < 24 ->
  0 <= TimeUtils.dt_minute now < 60 ->
  0 <= TimeUtils.dt_second now < 60 ->
  TimeUtils.datetime_fromisoformat (TimeUtils.datetime_isoformat now)
  = Some now.
Proof.
  intros Hv Hh Hm Hs. unfold TimeUtils.datetime_fromisoformat.
  change (Str.take 10 (TimeUtils.datetime_isoformat now))
    with (Date.isoformat (TimeUtils.dt_date now)).
  rewrite (fromisoformat_isoformat _ Hv).
  change (Str.chars
            (String.substring 10
               (String.length (TimeUtils.datetime_isoformat now) - 10)
               (TimeUtils.datetime_isoformat now)))
    with ["T"%char;
          Str.digit_chr (TimeUtils.dt_hour now / 10 mod 10);
          Str.digit_chr (TimeUtils.dt_hour now mod 10); ":"%char;
          Str.digit_chr (TimeUtils.dt_minute now / 10 mod 10);
          Str.digit_chr (TimeUtils.dt_minute now mod 10); ":"%char;
          Str.digit_chr (TimeUtils.dt_second now / 10 mod 10);
          Str.digit_chr (TimeUtils.dt_second now mod 10);
          "+"%char; "0"%char; "8"%char; ":"%char; "0"%char; "0"%char].
  cbv iota beta zeta.
  unfold Date.all_digits. cbn [forallb].
  rewrite !digit_chr_mod.
  rewrite !pad2_val by lia.
  cbn [andb Ascii.eqb Bool.eqb].
  destruct (Z.ltb_spec (TimeUtils.dt_hour now) 24); [| lia].
  destruct (Z.ltb_spec (TimeUtils.dt_minute now) 60); [| lia].
  destruct (Z.ltb_spec (TimeUtils.dt_second now) 60); [| lia].
  destruct now. reflexivity.
Qed.

(** X25.  What [shanghai_recent_days] writes, the run reads back.  For a
    clock reading that is a calendar date and a time of day, the texts it
    returns parse again: [today] as the date of the reading, [yesterday]
    as the day before it, and [now_iso] as the reading itself; so
    [date.fromisoformat(recent.today)] and
    [datetime.fromisoformat(recent.now_iso)] in [run_once] cannot raise. *)
Theorem recent_days_read_back (now : TimeUtils.datetime)
        (r : TimeUtils.RecentDays) :
  Date.valid (TimeUtils.dt_date now) = true ->
  0 <= TimeUtils.dt_hour now < 24 ->
  0 <= TimeUtils.dt_minute now < 60 ->
  0 <= TimeUtils.dt_second now < 60 ->
  TimeUtils.shanghai_recent_days now = Ok r ->
  Date.fromisoformat (TimeUtils.today r) = Some (TimeUtils.dt_date now)
  /\ (exists y,
         Date.fromisoformat (TimeUtils.yesterday r) = Some y
         /\ Date.prev_day (TimeUtils.dt_date now) = Some y
         /\ Date.ltb y (TimeUtils.dt_date now) = true)
  /\ TimeUtils.datetime_fromisoformat (TimeUtils.now_iso r) = Some now.
Proof.
  intros Hv Hh Hm Hs. unfold TimeUtils.shanghai_recent_days.
  cbn [Date.minus_days].
  destruct (Date.prev_day (TimeUtils.dt_date now)) as [y |] eqn:Hy;
    [| discriminate].
  intros Hr. injection Hr as <-. cbn [TimeUtils.today TimeUtils.yesterday
                                        TimeUtils.now_iso].
  destruct (prev_day_valid _ _ Hv Hy) as [Hvy Hlt].
  split; [now apply fromisoformat_isoformat |].
  split; [| now apply datetime_fromisoformat_isoformat].
  exists y. split; [now apply fromisoformat_isoformat | auto].
Qed.

Lemma recent_days_read_back_witness :
  Date.fromisoformat "2026-02-01" = Some (Date.mk 2026 2 1)
  /\ (exists y,
         Date.fromisoformat "2026-01-31" = Some y
         /\ Date.prev_day (Date.mk 2026 2 1) = Some y
         /\ Date.ltb y (Date.mk 2026 2 1) = true)
  /\ TimeUtils.datetime_fromisoformat "2026-02-01T09:00:00+08:00"
     = Some Scenario.clock.
Proof.
  apply (recent_days_read_back Scenario.clock Cases.recent);
    try reflexivity; vm_compute; split; congruence.
Defined.

(** ** workflow.py: the AI client *)

Section Same.
Context {S : Type}.

Lemma same_refl {A} (m : M S A) : Calls.same m m.
Proof. intros s. reflexivity. Qed.

Lemma same_bind {A B} (m m' : M S A) (k k' : A -> M S B) :
  Calls.same m m' -> (forall a, Calls.same (k a) (k' a)) ->
  Calls.same (bind m k) (bind m' k').
Proof.
  intros Hm Hk s. unfold bind. rewrite Hm.
  destruct (m' s) as [[a | e] s1]; [apply Hk | reflexivity].
Qed.

Lemma same_try {A} (m m' : M S A) (h h' : string -> M S A) :
  Calls.same m m' -> (forall e, Calls.same (h e) (h' e)) ->
  Calls.same (try_except m h) (try_except m' h').
Proof.
  intros Hm Hh s. unfold try_except. rewrite Hm.
  destruct (m' s) as [[a | e] s1]; [reflexivity | apply Hh].
Qed.

End Same.

Section WithoutAi.
Context {W : Type} (E : Workflow.Env W) (f : string -> M W string)
        (cfg : Workflow.Config).
Hypothesis no_ai : Workflow.ai_is_none cfg = true.

Lemma same_summarize title content :
  Calls.same (Workflow.summarize (Calls.with_ai E f) cfg title content)
    (Workflow.summarize E cfg title content).
Proof.
  unfold Workflow.summarize. rewrite no_ai.
  destruct (negb (Str.truthy content)); apply same_refl.
Qed.

Lemma same_item_detail title d abs_url :
  Calls.same (Workflow.item_detail (Calls.with_ai E f) cfg title d abs_url)
    (Workflow.item_detail E cfg title d abs_url).
Proof.
  unfold Workflow.item_detail.
  apply same_bind; [apply same_refl | intros html].
  apply same_bind; [apply same_refl | intros content].
  apply same_bind; [apply same_summarize | intros summary].
  apply same_refl.
Qed.

Lemma same_item_enrich adaptive title d abs_url :
  Calls.same
    (Workflow.item_enrich (Calls.with_ai E f) cfg adaptive title d abs_url)
    (Workflow.item_enrich E cfg adaptive title d abs_url).
Proof.
  unfold Workflow.item_enrich.
  apply same_bind; [| intros ok; apply same_refl].
  apply same_try; [| intros e; apply same_refl].
  apply same_bind; [apply same_item_detail | intros _; apply same_refl].
Qed.

Lemma same_process_item adaptive idx it :
  Calls.same (Workflow.process_item (Calls.with_ai E f) cfg adaptive idx it)
    (Workflow.process_item E cfg adaptive idx it).
Proof.
  destruct it as [[title link] d]. unfold Workflow.process_item.
  apply same_bind; [apply same_refl | intros _].
  apply same_bind; [apply same_refl | intros dup].
  destruct dup; [apply same_refl |].
  apply same_bind; [apply same_refl | intros _].
  destruct (Workflow.dry_run cfg); [apply same_refl |].
  apply same_bind; [apply same_refl | intros inserted].
  destruct (negb inserted); [apply same_refl | apply same_item_enrich].
Qed.

Lemma same_ingest_loop adaptive max_items filtered :
  forall idx,
    Calls.same
      (Workflow.ingest_loop (Calls.with_ai E f) cfg adaptive max_items idx
         filtered)
      (Workflow.ingest_loop E cfg adaptive max_items idx filtered).
Proof.
  induction filtered as [| it rest IH]; intros idx;
    cbn [Workflow.ingest_loop]; [apply same_refl |].
  destruct (negb (max_items =? 0) && (max_items <=? idx));
    [apply same_refl |].
  apply same_bind; [apply same_process_item | intros _; apply IH].
Qed.

Lemma same_run_try recent run :
  Calls.same (Workflow.run_try (Calls.with_ai E f) cfg recent run)
    (Workflow.run_try E cfg recent run).
Proof.
  unfold Workflow.run_try.
  apply same_bind; [apply same_refl | intros today_].
  apply same_bind; [apply same_refl | intros ek].
  apply same_bind; [apply same_refl | intros collected].
  destruct (Workflow.items collected) as [| it rest]; [apply same_refl |].
  apply same_bind; [apply same_refl | intros keyword_re].
  apply same_bind; [apply same_refl | intros now_dt].
  apply same_bind; [apply same_refl | intros base_date].
  apply same_bind; [apply same_refl | intros allowed].
  apply same_bind; [apply same_refl | intros _].
  apply same_bind; [apply same_ingest_loop | intros _].
  apply same_refl.
Qed.


End WithoutAi.


(** ** logger.py *)

Lemma level_value_bounds (l : Logger.Logger) :
  10 <= Logger._level_value l <= 40.
Proof.
  unfold Logger._level_value. cbv zeta.
  repeat match goal with
         | |- context [if ?b then _ else _] => destruct b
         end; lia.
Qed.

(** X27.  The threshold of the logger.  An enabled logger emits ERROR
    events whatever its level text is, a disabled one emits nothing; and
    if an event of one severity is emitted, so is an event of any higher
    severity. *)
Theorem errors_are_always_logged (l : Logger.Logger) :
  Logger._should_emit l "ERROR" = Ok (Logger.enabled l)
  /\ (forall level, Logger.enabled l = false ->
                    Logger._should_emit l level = Ok false)
  /\ (forall a b na nb,
         Logger.severity a = Ok na -> Logger.severity b = Ok nb -> na <= nb ->
         Logger._should_emit l a = Ok true ->
         Logger._should_emit l b = Ok true).
Proof.
  pose proof (level_value_bounds l) as Hb.
  split; [| split].
  - unfold Logger._should_emit. destruct (Logger.enabled l); cbn; [| reflexivity].
    f_equal. apply Z.leb_le. lia.
  - intros level Hoff. unfold Logger._should_emit. now rewrite Hoff.
  - intros a b na nb Ha Hnb Hle. unfold Logger._should_emit.
    destruct (Logger.enabled l); cbn; [| discriminate].
    rewrite Ha, Hnb. intros H. injection H as H. apply Z.leb_le in H.
    f_equal. apply Z.leb_le. lia.
Qed.

(** ** web/task_scheduler.py *)

(** X28.  The output kept of a task is bounded.  After [_append_line] on a
    known task its lines are the last ones of the old lines followed by
    the new line, never more than 2000, the new line last; the other
    fields of the task and the other tasks are untouched, and an unknown
    task id changes nothing. *)
Theorem append_line_keeps_last_2000 (tid line : string)
        (_runtime : gmap string TaskScheduler.TaskRuntime) :
  (_runtime !! tid = None ->
   TaskScheduler._append_line tid line _runtime = _runtime)
  /\ (forall rt, _runtime !! tid = Some rt ->
        exists rt' dropped,
          TaskScheduler._append_line tid line _runtime !! tid = Some rt'
          /\ (dropped ++ TaskScheduler.lines rt'
              = TaskScheduler.lines rt ++ [line])%list
          /\ (length (TaskScheduler.lines rt') <= 2000)%nat
          /\ last (TaskScheduler.lines rt') = Some line
          /\ TaskScheduler.running rt' = TaskScheduler.running rt
          /\ TaskScheduler.last_status rt' = TaskScheduler.last_status rt)
  /\ (forall other, other <> tid ->
        TaskScheduler._append_line tid line _runtime !! other
        = _runtime !! other).
Proof.
  unfold TaskScheduler._append_line. split; [| split].
  - intros ->. reflexivity.
  - intros rt ->. cbv zeta.
    set (appended := (TaskScheduler.lines rt ++ [line])%list).
    assert (Hlen : length appended = S (length (TaskScheduler.lines rt)))
      by (unfold appended; rewrite length_app; simpl; lia).
    rewrite lookup_insert_eq.
    destruct (Nat.ltb_spec 2000 (length appended)) as [Hlong | Hshort];
      eexists.
    + exists (firstn (length appended - 2000) appended).
      split; [reflexivity |]. cbn [TaskScheduler.lines TaskScheduler.running
                                    TaskScheduler.last_status].
      unfold TaskScheduler.last_lines.
      split; [apply firstn_skipn |].
      split; [rewrite length_skipn; lia |].
      split; [| split; reflexivity].
      unfold appended at 2.
      rewrite skipn_app.
      replace (length appended - 2000 - length (TaskScheduler.lines rt))%nat
        with 0%nat by lia.
      cbn [skipn]. apply last_snoc.
    + exists []. split; [reflexivity |].
      cbn [TaskScheduler.lines TaskScheduler.running
             TaskScheduler.last_status].
      split; [reflexivity |]. split; [lia |].
      split; [apply last_snoc | split; reflexivity].
  - intros other Hne. destruct (_runtime !! tid); [| reflexivity].
    now apply lookup_insert_ne.
Qed.

(** ** config.py *)

Section Settings.
Context {F : Type} (int_ : string -> option Z) (float_ : string -> option F)
        (environ : gmap string string).

Lemma stripped_not_blank key :
  Config.stripped environ key <> Some "".
Proof.
  unfold Config.stripped. cbv zeta.
  destruct (Str.strip (Config.get environ key "")) eqn:Hs; cbn;
    [discriminate |].
  intros H. injection H as H. discriminate.
Qed.

Lemma notify_mode_values :
  Config.notify_mode environ = "digest"
  \/ Config.notify_mode environ = "per_item".
Proof.
  unfold Config.notify_mode. cbv zeta.
  match goal with
  | |- context [String.eqb ?m "digest" || String.eqb ?m "per_item"] =>
      destruct (String.eqb_spec m "digest") as [-> | _];
      [left; reflexivity |];
      destruct (String.eqb_spec m "per_item") as [-> | _];
      [right; reflexivity | left; reflexivity]
  end.
Qed.

(** X29.  The configuration read from the environment is well formed.
    [from_env] raises its [RuntimeError] when the API key is blank and
    neither [DRY_RUN] nor [AI_DISABLED] is set, before anything else is
    read; and a configuration it returns has a key or one of the two
    switches, a look-back, a batch size and page budgets of at least 1,
    a threshold of at least 0, the notify mode [digest] or [per_item],
    and optional texts that are absent rather than blank. *)
Theorem from_env_config_is_well_formed :
  (Str.strip (Config.get environ "AI_API_KEY" "") = "" ->
   Config._parse_bool (environ !! "DRY_RUN") false = false ->
   Config._parse_bool (environ !! "AI_DISABLED") false = false ->
   exists e, Config.from_env int_ float_ environ = Raise e)
  /\ forall cfg,
       Config.from_env int_ float_ environ = Ok cfg ->
       (Str.truthy (Config.ai_api_key cfg) = true
        \/ Config.dry_run cfg = true \/ Config.ai_disabled cfg = true)
       /\ 1 <= Config.days_lookback cfg
       /\ 1 <= Config.batch_size cfg
       /\ 1 <= Config.max_pages_total cfg
       /\ 1 <= Config.max_pages_per_category cfg
       /\ 0 <= Config.adaptive_delay_threshold_pages cfg
       /\ (Config.feishu_notify_mode cfg = "digest"
           \/ Config.feishu_notify_mode cfg = "per_item")
       /\ Config.run_id_override cfg <> Some ""
       /\ Config.keywords_label cfg <> Some ""
       /\ Config.webui_public_url cfg <> Some ""
       /\ Config.feishu_card_image_url cfg <> Some "".
Proof.
  split.
  - intros Hkey Hdry Hoff. unfold Config.from_env. cbv zeta.
    rewrite Hkey, Hdry, Hoff. cbn. eauto.
  - intros cfg. unfold Config.from_env. cbv zeta.
    destruct (negb (Str.truthy (Str.strip (Config.get environ "AI_API_KEY" "")))
              && negb (Config._parse_bool (environ !! "DRY_RUN") false
                       || Config._parse_bool (environ !! "AI_DISABLED") false))
      eqn:Hguard; [discriminate |].
    destruct (Config.float_of float_ environ "LOOP_DELAY" "1");
      [| discriminate].
    destruct (Config.float_of float_ environ "AI_TEMPERATURE" "0.5");
      [| discriminate].
    destruct (Config.float_of float_ environ "DELAY_INCREMENT_SECONDS" "1");
      [| discriminate].
    destruct (Config.float_of float_ environ "MAX_LOOP_DELAY_SECONDS" "10");
      [| discriminate].
    intros H. injection H as <-. cbn.
    split.
    { apply andb_false_iff in Hguard as [Hk | Hs].
      - left. now apply negb_false_iff.
      - apply negb_false_iff, orb_true_iff in Hs. tauto. }
    repeat split; try lia; try apply stripped_not_blank.
    apply notify_mode_values.
Qed.

End Settings.

Lemma from_env_config_is_well_formed_witness :
  exists cfg,
    Config.from_env Cases.to_int Cases.to_float Cases.environ = Ok cfg
    /\ Config.dry_run cfg = true
    /\ Config.batch_size cfg = 1
    /\ 1 <= Config.days_lookback cfg
    /\ (Config.feishu_notify_mode cfg = "digest"
        \/ Config.feishu_notify_mode cfg = "per_item").
Proof.
  destruct (Config.from_env Cases.to_int Cases.to_float Cases.environ)
    as [cfg | e] eqn:Hrun; [| vm_compute in Hrun; discriminate].
  exists cfg. split; [reflexivity |].
  destruct (proj2 (from_env_config_is_well_formed Cases.to_int Cases.to_float
                     Cases.environ) cfg Hrun)
    as (_ & Hdays & _ & _ & _ & _ & Hmode & _).
  split; [vm_compute in Hrun; injection Hrun as <-; reflexivity |].
  split; [vm_compute in Hrun; injection Hrun as <-; reflexivity |].
  split; [exact Hdays | exact Hmode].
Defined.

(** ** workflow.py: what a run stores *)

Section Stored.
Context {W : Type} (E : Workflow.Env W) (cfg : Workflow.Config).

Lemma only_bind_lift {A B} (P : Workflow.Event -> Prop) (o : Outcome A)
      (k : A -> M (Workflow.State W) B) :
  (forall a, o = Ok a -> Calls.only P (k a)) ->
  Calls.only P (bind (lift_outcome o) k).
Proof.
  intros Hk s. unfold bind, lift_outcome. destruct o as [a | e].
  - apply Hk. reflexivity.
  - exists []. split; [now rewrite app_nil_r | constructor].
Qed.

Lemma found_notify_run execution_time duration :
  Calls.only (Calls.writes_found E cfg)
    (Workflow.notify_run E cfg execution_time duration).
Proof.
  unfold Workflow.notify_run.
  apply only_bind; [apply only_get | intros s1].
  destruct (Workflow.feishu_on cfg && (0 <? Workflow.total_new s1));
    [| apply only_ret].
  apply only_try; [| intros e; only_auto].
  destruct (String.eqb (Workflow.feishu_notify_mode cfg) "digest");
    [| apply only_send_card; exact I].
  generalize 0%nat.
  induction (length (Workflow.new_items s1)) as [| k IH]; intros i;
    cbn [Workflow.send_digest]; [apply only_ret |].
  apply only_bind; [apply only_get | intros s2].
  destruct (i <? length (Workflow.new_items s2))%nat; [| apply only_ret].
  apply only_bind; [apply only_send_card; exact I | intros _; apply IH].
Qed.

Lemma found_item_detail title d abs_url :
  Calls.keyword_found E cfg title ->
  Calls.only (Calls.writes_found E cfg)
    (Workflow.item_detail E cfg title d abs_url).
Proof.
  intros Hfound. unfold Workflow.item_detail.
  apply only_bind.
  { destruct (Workflow.use_test_fixtures cfg);
      [apply only_call | apply only_fetch; exact I]. }
  intros html. apply only_bind; [apply only_lift | intros content].
  apply only_bind; [apply only_summarize | intros summary].
  apply only_bind; [apply only_db_update; exact Hfound | intros _].
  unfold Workflow.notify_item.
  destruct (Workflow.feishu_on cfg); [| apply only_ret].
  apply only_try; [| intros e; apply only_modify; reflexivity].
  destruct (String.eqb (Workflow.feishu_notify_mode cfg) "per_item");
    [apply only_send_card; exact I | apply only_modify; reflexivity].
Qed.

Lemma found_item_enrich adaptive title d abs_url :
  Calls.keyword_found E cfg title ->
  Calls.only (Calls.writes_found E cfg)
    (Workflow.item_enrich E cfg adaptive title d abs_url).
Proof.
  intros Hfound. unfold Workflow.item_enrich.
  apply only_bind.
  - apply only_try.
    + apply only_bind; [now apply found_item_detail |].
      intros _. apply only_ret.
    + intros e. apply only_bind; [| intros _; apply only_ret].
      unfold Workflow.item_failed.
      apply only_bind; [apply only_modify; reflexivity | intros _].
      apply only_db_update. exact Hfound.
  - intros [|]; [apply only_throttle_step | apply only_ret].
Qed.

Lemma found_process_item adaptive idx title link d :
  Calls.keyword_found E cfg title ->
  Calls.only (Calls.writes_found E cfg)
    (Workflow.process_item E cfg adaptive idx (title, link, d)).
Proof.
  intros Hfound. unfold Workflow.process_item.
  apply only_bind; [apply only_item_delay | intros _].
  apply only_bind; [apply only_db_is_duplicate | intros dup].
  destruct dup; [apply only_count_duplicate |].
  apply only_bind; [apply only_count_new | intros _].
  destruct (Workflow.dry_run cfg); [apply only_ret |].
  apply only_bind; [apply only_db_insert; exact Hfound | intros inserted].
  destruct (negb inserted); [apply only_downgrade_new |].
  now apply found_item_enrich.
Qed.

Lemma found_ingest_loop adaptive max_items filtered :
  Forall (fun it => Calls.keyword_found E cfg (fst (fst it))) filtered ->
  forall idx,
    Calls.only (Calls.writes_found E cfg)
      (Workflow.ingest_loop E cfg adaptive max_items idx filtered).
Proof.
  induction filtered as [| [[title link] d] rest IH]; intros Hall idx;
    cbn [Workflow.ingest_loop]; [apply only_ret |].
  destruct (negb (max_items =? 0) && (max_items <=? idx)); [apply only_ret |].
  apply Forall_cons in Hall as [Hit Hrest].
  apply only_bind; [now apply found_process_item | intros _; now apply IH].
Qed.

Lemma filter_items_found allowed keyword_re normalized :
  Workflow.re_compile E (Workflow.keyword_regex cfg) = Ok keyword_re ->
  Forall (fun it => Calls.keyword_found E cfg (fst (fst it)))
    (Workflow.filter_items allowed keyword_re normalized).
Proof.
  intros Hre. apply Forall_forall. intros [[title link] d] Hin.
  apply list_elem_of_In in Hin. unfold Workflow.filter_items in Hin.
  apply filter_In in Hin as [_ Hkeep].
  apply andb_prop in Hkeep as [_ Hsearch].
  exists keyword_re. split; assumption.
Qed.

Lemma found_run_try recent run :
  Calls.only (Calls.writes_found E cfg) (Workflow.run_try E cfg recent run).
Proof.
  unfold Workflow.run_try.
  apply only_bind; [apply only_date_fromisoformat | intros today_].
  apply only_bind; [apply only_date_minus_days | intros ek].
  apply only_bind; [apply only_collect; intros _ u; exact I |].
  intros collected. destruct (Workflow.items collected) as [| it rest].
  - apply only_bind; [apply only_call | intros duration].
    apply only_bind; [apply only_shanghai | intros fin].
    apply only_bind; [apply only_db_finish_run; exact I | intros _].
    apply only_ret.
  - apply only_bind_lift. intros keyword_re Hre.
    apply only_bind; [destruct (TimeUtils.datetime_fromisoformat _);
                      [apply only_ret | apply only_raise] | intros now_dt].
    apply only_bind; [apply only_base_date_of | intros base_date].
    apply only_bind; [apply only_allowed_dates | intros allowed].
    apply only_bind; [apply only_modify; reflexivity | intros _].
    apply only_bind;
      [apply found_ingest_loop; now apply filter_items_found | intros _].
    apply only_bind; [apply only_call | intros duration].
    apply only_bind; [apply only_shanghai | intros fin].
    apply only_bind; [apply only_get | intros s].
    apply only_bind; [apply only_db_finish_run; exact I | intros _].
    apply only_bind; [apply found_notify_run | intros _].
    apply only_bind; [apply only_get | intros s']. apply only_ret.
Qed.

Lemma found_run_once :
  Calls.only (Calls.writes_found E cfg) (Workflow.run_once E cfg).
Proof.
  unfold Workflow.run_once.
  apply only_bind; [apply only_shanghai | intros recent].
  apply only_bind; [apply only_modify; reflexivity | intros _].
  apply only_bind; [apply only_db_init_schema | intros _].
  apply only_bind; [apply only_db_start_run | intros run].
  repeat (apply only_bind; [apply only_modify; reflexivity | intros _]).
  apply only_try; [apply found_run_try |].
  intros e. unfold Workflow.run_failed.
  apply only_bind; [apply only_call | intros duration].
  apply only_bind; [apply only_shanghai | intros fin].
  apply only_bind; [apply only_get | intros s].
  apply only_bind; [apply only_db_finish_run; exact I | intros _].
  apply only_bind.
  { destruct (Workflow.feishu_on cfg); [| apply only_ret].
    apply only_send_card. exact I. }
  intros _. apply only_bind; [apply only_get | intros s']. apply only_ret.
Qed.

End Stored.

